(** * Test-stand firmware: the test sequencer of [src/main.cpp]

    A shallow embedding of the firmware's globals, of its peripherals as far
    as the sequencer drives them (GPIO latch, SD card, log file, display),
    and of every function on the path of [setup], [loop] and the start-button
    interrupt handler, followed by the properties of the sequencer.

    Conventions.
    - [uint64_t] values are [Z] with the wrap-around written out; [millis()]
      is a 32-bit counter.
    - [float] is IEEE binary32, computed with the Standard Library's
      executable specification [SpecFloat] at precision 24 and [emax] 128.
    - What the outside world answers (the millisecond counter, the ADC, the
      load-cell amplifier, [random], whether the card mounts and a file
      opens) is read from an oracle indexed by the number of queries made so
      far, so that a run is a function of the oracle alone.
    - The interrupt handler is taken to run between two iterations of
      [loop]; preemption inside an iteration is not modelled. Between two
      initializers of [setup] it returns at once ([setup_preempted_eq]). *)

From Stdlib Require Import ZArith Bool Ascii String SpecFloat.
From stdpp Require Import gmap strings list pretty.

Local Open Scope Z_scope.
Local Open Scope string_scope.

(** ** Pre-defined constants *)

Definition GPIO_THERMISTOR_1 : Z := 24.
Definition GPIO_THERMISTOR_2 : Z := 25.
Definition GPIO_RELAY_TOGGLE : Z := 14.
Definition GPIO_LED_TEST_ACTIVE : Z := 32.
Definition GPIO_BUTTON_ACTIVATE_TEST : Z := 33.

Definition TEST_DATA_SAMPLE_RATE : Z := 50.
Definition TEST_COUNTDOWN_SECONDS : Z := 30.
Definition TEST_DURATION_SECONDS : Z := 15.

Definition THERMISTOR_1_RESISTANCE : Z := 19750.
Definition THERMISTOR_2_RESISTANCE : Z := 18550.

(** ** binary32 arithmetic *)

Module F32.
Definition prec : Z := 24.
Definition emax : Z := 128.

(** Conversion of an integer to [float] (round to nearest, ties to even). *)
Definition of_Z (z : Z) : spec_float := binary_normalize prec emax z 0 false.
Definition add : spec_float -> spec_float -> spec_float := SFadd prec emax.
Definition sub : spec_float -> spec_float -> spec_float := SFsub prec emax.
Definition div : spec_float -> spec_float -> spec_float := SFdiv prec emax.
Definition ltb : spec_float -> spec_float -> bool := SFltb.
Definition leb : spec_float -> spec_float -> bool := SFleb.

Definition INT_MIN : Z := - 2 ^ 31.
Definition INT_MAX : Z := 2 ^ 31 - 1.

(** [int(x)]: truncation toward zero, [int] being 32 bits wide. C++ leaves
    the conversion undefined for NaN and for what lies outside [int]; the
    model takes what the conversion instruction of an ARM core computes:
    0 for NaN, and the end of the range of [int] on the side of [x], so
    [INT_MIN] or [INT_MAX], for a value or an infinity outside it. *)
Definition to_int (x : spec_float) : Z :=
  match x with
  | S754_zero _ => 0
  | S754_nan => 0
  | S754_infinity s => if s then INT_MIN else INT_MAX
  | S754_finite s m e =>
      let a := match e with
               | Zneg p => Z.shiftr (Zpos m) (Zpos p)
               | _ => Z.shiftl (Zpos m) e
               end in
      Z.max INT_MIN (Z.min INT_MAX (if s then - a else a))
  end.
End F32.

Arguments F32.of_Z : simpl never.
Arguments F32.add : simpl never.
Arguments F32.sub : simpl never.
Arguments F32.div : simpl never.
Arguments F32.ltb : simpl never.
Arguments F32.leb : simpl never.
Arguments F32.to_int : simpl never.

(** ** Integer widths *)

Definition wrap32 (z : Z) : Z := z mod 2 ^ 32.
Definition wrap64 (z : Z) : Z := z mod 2 ^ 64.

(** ** Data model *)

Inductive E_OPERATION_STATE : Type :=
| STARTUP
| ERROR
| READY_FOR_COUNTDOWN
| COUNTDOWN
| TEST_ACTIVE
| POST_TEST.

#[global] Instance E_OPERATION_STATE_eq_dec : EqDecision E_OPERATION_STATE.
Proof. solve_decision. Defined.

Definition S_OPERATION_STATE (s : E_OPERATION_STATE) : string :=
  match s with
  | STARTUP => "STARTUP"
  | ERROR => "ERROR"
  | READY_FOR_COUNTDOWN => "READY_FOR_COUNTDOWN"
  | COUNTDOWN => "COUNTDOWN"
  | TEST_ACTIVE => "TEST_ACTIVE"
  | POST_TEST => "POST_TEST"
  end.

Inductive level : Type := LOW | HIGH.

#[global] Instance level_eq_dec : EqDecision level.
Proof. solve_decision. Defined.

(** One page loop of [DisplayRenderData]: the six strings it draws. *)
Record Frame : Type := mkFrame {
  fr_state : string;
  fr_error : string;
  fr_force : string;
  fr_temp1 : string;
  fr_temp2 : string;
  fr_count : string
}.

(** Calls that leave the processor, in the order they are made. *)
Inductive io : Type :=
| IoPinMode (pin : Z) (output : bool)
| IoAttachInterrupt (pin : Z)
| IoDigitalWrite (pin : Z) (l : level)
| IoAnalogRead (pin : Z)
| IoLoadCellUpdate
| IoSdExists (name : string)
| IoFileOpen (name : string) (ok : bool)
| IoFilePrint (text : string)
| IoFileSync
| IoFileClose
| IoDisplay (f : Frame).

#[global] Instance Frame_eq_dec : EqDecision Frame.
Proof. solve_decision. Defined.

#[global] Instance io_eq_dec : EqDecision io.
Proof. solve_decision. Defined.

(** The answers of the outside world, to the [k]-th query of the run.
    [w_millis k] is the time in milliseconds since the power came on, of
    which [millis()] returns the low 32 bits; the others are what the call
    returns. *)
Record World : Type := mkWorld {
  w_millis : nat -> Z;
  w_random : nat -> Z;
  w_analog : nat -> Z -> Z;
  w_loadcell : nat -> option spec_float;
  w_open : nat -> string -> bool;
  w_sd_begin : bool;
  w_tare_timeout : bool
}.

(** The globals of [main.cpp] and the peripherals they drive. *)
Record Machine : Type := mkMachine {
  OPERATION_STATE : E_OPERATION_STATE;
  CountdownActivatedTime : Z;
  TestActivatedTime : Z;
  Countdown : spec_float;
  TestDuration : spec_float;
  ThermistorData0 : spec_float;
  ThermistorData1 : spec_float;
  LoadCellForceData : spec_float;
  ErrorLog : string;
  MainLoopPrev : Z;
  (* peripherals *)
  pins : gmap Z level;          (* output latch, by pin; absent = never written *)
  card : gmap string string;    (* files on the SD card: name to contents *)
  File : option string;         (* name of the file the [File] object has open *)
  queries : nat;                (* oracle queries made so far *)
  trace : list io               (* calls made so far, the latest first *)
}.

(** The globals as the C++ runtime initialises them. [10^10] is a bitwise
    exclusive or. *)
Definition power_on (sd : gmap string string) : Machine :=
  {| OPERATION_STATE := STARTUP;
     CountdownActivatedTime := Z.lxor 10 10;
     TestActivatedTime := Z.lxor 10 10;
     Countdown := F32.of_Z TEST_COUNTDOWN_SECONDS;
     TestDuration := F32.of_Z TEST_DURATION_SECONDS;
     ThermistorData0 := S754_zero false;
     ThermistorData1 := S754_zero false;
     LoadCellForceData := S754_zero false;
     ErrorLog := "";
     MainLoopPrev := 0;
     pins := ∅;
     card := sd;
     File := None;
     queries := 0;
     trace := [] |}.

(** ** The monad of the firmware: state, and no result when a loop does not
    come to an end within the fuel it was given. *)

Definition M (A : Type) : Type := Machine -> option (A * Machine).

Definition ret {A} (a : A) : M A := fun m => Some (a, m).

Definition bind {A B} (c : M A) (k : A -> M B) : M B :=
  fun m => match c m with
           | Some (a, m') => k a m'
           | None => None
           end.

Definition get : M Machine := fun m => Some (m, m).
Definition gets {A} (f : Machine -> A) : M A := fun m => Some (f m, m).
Definition modify (f : Machine -> Machine) : M unit := fun m => Some (tt, f m).
Definition out_of_fuel {A} : M A := fun _ => None.

Notation "x <- c ;; k" := (bind c (fun x => k))
  (at level 100, c at next level, k at level 200, right associativity,
   only parsing).
Notation "c ;; k" := (bind c (fun _ => k))
  (at level 100, k at level 200, right associativity, only parsing).

Definition when (b : bool) (c : M unit) : M unit := if b then c else ret tt.

(** Assignments to one global or one peripheral. *)
Definition set_OPERATION_STATE (v : E_OPERATION_STATE) (m : Machine) : Machine :=
  mkMachine v (CountdownActivatedTime m) (TestActivatedTime m) (Countdown m)
    (TestDuration m) (ThermistorData0 m) (ThermistorData1 m)
    (LoadCellForceData m) (ErrorLog m) (MainLoopPrev m) (pins m) (card m)
    (File m) (queries m) (trace m).
Definition set_CountdownActivatedTime (v : Z) (m : Machine) : Machine :=
  mkMachine (OPERATION_STATE m) v (TestActivatedTime m) (Countdown m)
    (TestDuration m) (ThermistorData0 m) (ThermistorData1 m)
    (LoadCellForceData m) (ErrorLog m) (MainLoopPrev m) (pins m) (card m)
    (File m) (queries m) (trace m).
Definition set_TestActivatedTime (v : Z) (m : Machine) : Machine :=
  mkMachine (OPERATION_STATE m) (CountdownActivatedTime m) v (Countdown m)
    (TestDuration m) (ThermistorData0 m) (ThermistorData1 m)
    (LoadCellForceData m) (ErrorLog m) (MainLoopPrev m) (pins m) (card m)
    (File m) (queries m) (trace m).
Definition set_Countdown (v : spec_float) (m : Machine) : Machine :=
  mkMachine (OPERATION_STATE m) (CountdownActivatedTime m)
    (TestActivatedTime m) v (TestDuration m) (ThermistorData0 m)
    (ThermistorData1 m) (LoadCellForceData m) (ErrorLog m) (MainLoopPrev m)
    (pins m) (card m) (File m) (queries m) (trace m).
Definition set_TestDuration (v : spec_float) (m : Machine) : Machine :=
  mkMachine (OPERATION_STATE m) (CountdownActivatedTime m)
    (TestActivatedTime m) (Countdown m) v (ThermistorData0 m) (ThermistorData1
    m) (LoadCellForceData m) (ErrorLog m) (MainLoopPrev m) (pins m) (card m)
    (File m) (queries m) (trace m).
Definition set_ThermistorData0 (v : spec_float) (m : Machine) : Machine :=
  mkMachine (OPERATION_STATE m) (CountdownActivatedTime m)
    (TestActivatedTime m) (Countdown m) (TestDuration m) v (ThermistorData1 m)
    (LoadCellForceData m) (ErrorLog m) (MainLoopPrev m) (pins m) (card m)
    (File m) (queries m) (trace m).
Definition set_ThermistorData1 (v : spec_float) (m : Machine) : Machine :=
  mkMachine (OPERATION_STATE m) (CountdownActivatedTime m)
    (TestActivatedTime m) (Countdown m) (TestDuration m) (ThermistorData0 m) v
    (LoadCellForceData m) (ErrorLog m) (MainLoopPrev m) (pins m) (card m)
    (File m) (queries m) (trace m).
Definition set_LoadCellForceData (v : spec_float) (m : Machine) : Machine :=
  mkMachine (OPERATION_STATE m) (CountdownActivatedTime m)
    (TestActivatedTime m) (Countdown m) (TestDuration m) (ThermistorData0 m)
    (ThermistorData1 m) v (ErrorLog m) (MainLoopPrev m) (pins m) (card m)
    (File m) (queries m) (trace m).
Definition set_ErrorLog (v : string) (m : Machine) : Machine :=
  mkMachine (OPERATION_STATE m) (CountdownActivatedTime m)
    (TestActivatedTime m) (Countdown m) (TestDuration m) (ThermistorData0 m)
    (ThermistorData1 m) (LoadCellForceData m) v (MainLoopPrev m) (pins m)
    (card m) (File m) (queries m) (trace m).
Definition set_MainLoopPrev (v : Z) (m : Machine) : Machine :=
  mkMachine (OPERATION_STATE m) (CountdownActivatedTime m)
    (TestActivatedTime m) (Countdown m) (TestDuration m) (ThermistorData0 m)
    (ThermistorData1 m) (LoadCellForceData m) (ErrorLog m) v (pins m) (card m)
    (File m) (queries m) (trace m).
Definition set_pins (v : gmap Z level) (m : Machine) : Machine :=
  mkMachine (OPERATION_STATE m) (CountdownActivatedTime m)
    (TestActivatedTime m) (Countdown m) (TestDuration m) (ThermistorData0 m)
    (ThermistorData1 m) (LoadCellForceData m) (ErrorLog m) (MainLoopPrev m) v
    (card m) (File m) (queries m) (trace m).
Definition set_card (v : gmap string string) (m : Machine) : Machine :=
  mkMachine (OPERATION_STATE m) (CountdownActivatedTime m)
    (TestActivatedTime m) (Countdown m) (TestDuration m) (ThermistorData0 m)
    (ThermistorData1 m) (LoadCellForceData m) (ErrorLog m) (MainLoopPrev m)
    (pins m) v (File m) (queries m) (trace m).
Definition set_File (v : option string) (m : Machine) : Machine :=
  mkMachine (OPERATION_STATE m) (CountdownActivatedTime m)
    (TestActivatedTime m) (Countdown m) (TestDuration m) (ThermistorData0 m)
    (ThermistorData1 m) (LoadCellForceData m) (ErrorLog m) (MainLoopPrev m)
    (pins m) (card m) v (queries m) (trace m).
Definition set_queries (v : nat) (m : Machine) : Machine :=
  mkMachine (OPERATION_STATE m) (CountdownActivatedTime m)
    (TestActivatedTime m) (Countdown m) (TestDuration m) (ThermistorData0 m)
    (ThermistorData1 m) (LoadCellForceData m) (ErrorLog m) (MainLoopPrev m)
    (pins m) (card m) (File m) v (trace m).
Definition set_trace (v : list io) (m : Machine) : Machine :=
  mkMachine (OPERATION_STATE m) (CountdownActivatedTime m)
    (TestActivatedTime m) (Countdown m) (TestDuration m) (ThermistorData0 m)
    (ThermistorData1 m) (LoadCellForceData m) (ErrorLog m) (MainLoopPrev m)
    (pins m) (card m) (File m) (queries m) v.

Definition LF : string := String "010"%char "".

(** ** The firmware *)

Section Firmware.

Variable W : World.

(** [String(float)] and [String::append(float)], [String::append(double)]
    of the Arduino core, which are not part of the repository. *)
Variable String_of_float : spec_float -> string.
Variable String_of_double : spec_float -> string.

(** The arithmetic of [ReadThermistor] on the ADC count (it takes a
    logarithm): count, resistance and calibration offset to degrees. *)
Variable steinhart_hart : Z -> Z -> Z -> spec_float.

(** *** Peripherals *)

Definition emit (e : io) : M unit :=
  modify (fun m => set_trace (e :: trace m) m).

Definition ask {A} (f : nat -> A) : M A :=
  fun m => Some (f (queries m), set_queries (S (queries m)) m).

Definition millis : M Z := t <- ask (w_millis W) ;; ret (wrap32 t).

Definition random (howbig : Z) : M Z :=
  r <- ask (w_random W) ;; ret (r mod howbig).

Definition pinMode (pin : Z) (output : bool) : M unit :=
  emit (IoPinMode pin output).

Definition attachInterrupt (pin : Z) : M unit :=
  emit (IoAttachInterrupt pin).

Definition digitalWrite (pin : Z) (l : level) : M unit :=
  emit (IoDigitalWrite pin l) ;;
  modify (fun m => set_pins (<[pin := l]> (pins m)) m).

Definition analogRead (pin : Z) : M Z :=
  emit (IoAnalogRead pin) ;; ask (fun k => w_analog W k pin).

Definition Sd_exists (name : string) : M bool :=
  emit (IoSdExists name) ;;
  gets (fun m => bool_decide (is_Some (card m !! name))).

(** [File.open(name, FILE_WRITE)]: read/write, create, position at end. *)
Definition File_open (name : string) : M bool :=
  ok <- ask (fun k => w_open W k name) ;;
  emit (IoFileOpen name ok) ;;
  modify (fun m =>
    set_File (if ok then Some name else File m)
      (set_card (match ok, card m !! name with
                 | true, None => <[name := ""]> (card m)
                 | _, _ => card m
                 end) m)) ;;
  ret ok.

(** [File.printf(text)]: nothing reaches the card when no file is open.
    The text is the format string; the firmware's texts hold no
    conversion specification. *)
Definition File_printf (text : string) : M unit :=
  emit (IoFilePrint text) ;;
  modify (fun m =>
    set_card (match File m with
              | Some name => alter (fun c => c ++ text) name (card m)
              | None => card m
              end) m).

Definition File_sync : M unit := emit IoFileSync.

Definition File_close : M unit := emit IoFileClose ;; modify (set_File None).

Definition ErrorLog_append (text : string) : M unit :=
  modify (fun m => set_ErrorLog (ErrorLog m ++ text) m).

(** *** Initializers *)

Definition InitRecorder : M unit :=
  when (negb (w_sd_begin W))
    (modify (set_OPERATION_STATE ERROR) ;;
     ErrorLog_append "SD-CARD NOT FOUND | ").

Definition InitLoadCell : M unit :=
  when (w_tare_timeout W)
    (modify (set_OPERATION_STATE ERROR) ;;
     ErrorLog_append "LOAD CELL TARE UNSUCESSFUL | ").

Definition InitDisplay : M unit := ret tt.

Definition InitGPIO : M unit :=
  pinMode GPIO_THERMISTOR_1 false ;;
  pinMode GPIO_THERMISTOR_2 false ;;
  pinMode GPIO_RELAY_TOGGLE true ;;
  pinMode GPIO_LED_TEST_ACTIVE true ;;
  pinMode GPIO_BUTTON_ACTIVATE_TEST false ;;
  attachInterrupt GPIO_BUTTON_ACTIVATE_TEST.

(** *** Operational functions *)

Definition ToggleRelay (Status : bool) : M unit :=
  if negb Status
  then digitalWrite GPIO_RELAY_TOGGLE HIGH
  else digitalWrite GPIO_RELAY_TOGGLE LOW.

Definition log_file_name (n : Z) : string :=
  "Motor Test Data #" ++ pretty n ++ ".csv".

(** The [while (Sd.exists(filename))] of [CreateLogFile]. *)
Fixpoint CreateLogFile_while (fuel : nat) (filename : string) : M string :=
  taken <- Sd_exists filename ;;
  if taken then
    match fuel with
    | O => out_of_fuel
    | S fuel' =>
        n <- random 100 ;; CreateLogFile_while fuel' (log_file_name n)
    end
  else ret filename.

Definition CreateLogFile (fuel : nat) : M bool :=
  n <- random 100 ;;
  filename <- CreateLogFile_while fuel (log_file_name n) ;;
  File_open filename.

Definition CloseLogFile : M unit := File_close.

Definition telemetry_header : string :=
  "Time (s), Force (N), Temperature #1 (*C), Temperature #2 (*C)" ++ LF.

Definition CreateTelemetryString : M unit :=
  File_printf telemetry_header ;; File_sync.

Definition InterruptTestStartCommand (fuel : nat) : M unit :=
  s <- gets OPERATION_STATE ;;
  if bool_decide (s ≠ READY_FOR_COUNTDOWN) then ret tt else
  digitalWrite GPIO_LED_TEST_ACTIVE HIGH ;;
  t <- millis ;;
  modify (set_CountdownActivatedTime t) ;;
  opened <- CreateLogFile fuel ;;
  let ErrorCount : Z := if negb opened then 1 else 0 in
  CreateTelemetryString ;;
  if bool_decide (ErrorCount ≠ 0) then
    modify (set_OPERATION_STATE ERROR) ;;
    ErrorLog_append "STARTUP NOT SUCESSFUL | "
  else modify (set_OPERATION_STATE COUNTDOWN).

Definition TestEndCommand : M unit :=
  s <- gets OPERATION_STATE ;;
  if bool_decide (s ≠ TEST_ACTIVE) then ret tt else
  modify (set_OPERATION_STATE POST_TEST) ;;
  digitalWrite GPIO_LED_TEST_ACTIVE LOW ;;
  CloseLogFile.

Definition render (m : Machine) : Frame :=
  {| fr_state := S_OPERATION_STATE (OPERATION_STATE m);
     fr_error := ErrorLog m;
     fr_force := String_of_float (LoadCellForceData m);
     fr_temp1 := String_of_float (ThermistorData0 m);
     fr_temp2 := String_of_float (ThermistorData1 m);
     fr_count :=
       pretty (F32.to_int
                 (F32.sub (F32.of_Z TEST_COUNTDOWN_SECONDS) (Countdown m))) |}.

Definition DisplayRenderData : M unit :=
  m <- get ;; emit (IoDisplay (render m)).

Definition BeginTest : M unit :=
  t <- millis ;;
  modify (set_TestActivatedTime t) ;;
  modify (set_OPERATION_STATE TEST_ACTIVE) ;;
  ToggleRelay true.

(** [float(millis() - since) / 1000.f], the subtraction in [uint64_t]. *)
Definition seconds_since (now since : Z) : spec_float :=
  F32.div (F32.of_Z (wrap64 (now - since))) (F32.of_Z 1000).

Definition DetectCountdownEnd : M unit :=
  s <- gets OPERATION_STATE ;;
  if bool_decide (s ≠ COUNTDOWN) then ret tt else
  t <- millis ;;
  modify (fun m => set_Countdown (seconds_since t (CountdownActivatedTime m)) m) ;;
  c <- gets Countdown ;;
  if F32.ltb c (F32.of_Z TEST_COUNTDOWN_SECONDS) then ret tt else
  BeginTest.

Definition EndTest : M unit :=
  modify (set_OPERATION_STATE POST_TEST) ;;
  digitalWrite GPIO_LED_TEST_ACTIVE LOW ;;
  CloseLogFile ;;
  ToggleRelay false.

Definition DetectTestEnd : M unit :=
  s <- gets OPERATION_STATE ;;
  if bool_decide (s ≠ TEST_ACTIVE) then ret tt else
  t <- millis ;;
  modify (fun m => set_TestDuration (seconds_since t (TestActivatedTime m)) m) ;;
  modify (fun m => set_Countdown (F32.add (TestDuration m) (F32.of_Z 15)) m) ;;
  d <- gets TestDuration ;;
  if F32.ltb d (F32.of_Z TEST_DURATION_SECONDS) then ret tt else
  EndTest.

Definition telemetry_line (t : Z) (m : Machine) : string :=
  String_of_float (F32.div (F32.of_Z t) (F32.of_Z 1000)) ++ ", " ++
  String_of_double (LoadCellForceData m) ++ ", " ++
  String_of_double (ThermistorData0 m) ++ ", " ++
  String_of_double (ThermistorData1 m) ++ LF.

Definition LogTestData : M unit :=
  t <- millis ;;
  m <- get ;;
  File_printf (telemetry_line t m) ;;
  File_sync.

Definition ReadThermistor (Pin Resistance CalibrationOffset : Z)
  : M spec_float :=
  count <- analogRead Pin ;;
  ret (steinhart_hart count Resistance CalibrationOffset).

Definition GetThermistorData : M unit :=
  t0 <- ReadThermistor GPIO_THERMISTOR_1 THERMISTOR_1_RESISTANCE 40 ;;
  modify (set_ThermistorData0 t0) ;;
  t1 <- ReadThermistor GPIO_THERMISTOR_2 THERMISTOR_2_RESISTANCE 40 ;;
  modify (set_ThermistorData1 t1).

Definition GetLoadCellData : M unit :=
  emit IoLoadCellUpdate ;;
  fresh <- ask (w_loadcell W) ;;
  match fresh with
  | Some data =>
      modify (set_LoadCellForceData (F32.div data (F32.of_Z 100000)))
  | None => ret tt
  end.

(** *** [setup] and [loop] *)

Definition setup : M unit :=
  InitGPIO ;;
  InitRecorder ;;
  InitLoadCell ;;
  InitDisplay ;;
  s <- gets OPERATION_STATE ;;
  when (bool_decide (s = STARTUP) && bool_decide (s ≠ ERROR))
    (modify (set_OPERATION_STATE READY_FOR_COUNTDOWN)).

(** The block that [loop] runs once per sampling period. *)
Definition tick : M unit :=
  DisplayRenderData ;;
  s <- gets OPERATION_STATE ;;
  match s with
  | READY_FOR_COUNTDOWN => GetThermistorData ;; GetLoadCellData
  | COUNTDOWN =>
      GetThermistorData ;; GetLoadCellData ;; LogTestData ;;
      DetectCountdownEnd
  | TEST_ACTIVE =>
      GetThermistorData ;; GetLoadCellData ;; LogTestData ;; DetectTestEnd
  | POST_TEST => GetThermistorData ;; GetLoadCellData
  | _ => ret tt
  end ;;
  t <- millis ;;
  modify (set_MainLoopPrev t).

Definition sample_period : spec_float :=
  F32.div (F32.of_Z 1000) (F32.of_Z TEST_DATA_SAMPLE_RATE).

Definition loop : M unit :=
  t <- millis ;;
  prev <- gets MainLoopPrev ;;
  if F32.leb sample_period (F32.of_Z (wrap64 (t - prev)))
  then tick else ret tt.

End Firmware.

(** ** Runs

    After [setup], the processor alternates iterations of [loop] with
    invocations of the handler that [attachInterrupt] registered. *)

Inductive event : Type := EvLoop | EvInterrupt.

Section Runs.

Variable W : World.
Variable String_of_float : spec_float -> string.
Variable String_of_double : spec_float -> string.
Variable steinhart_hart : Z -> Z -> Z -> spec_float.

Definition handle (fuel : nat) (e : event) : M unit :=
  match e with
  | EvLoop => loop W String_of_float String_of_double steinhart_hart
  | EvInterrupt => InterruptTestStartCommand W fuel
  end.

(** An executable run: every handler invocation is given [fuel] redraws. *)
Fixpoint run (fuel : nat) (es : list event) : M unit :=
  match es with
  | [] => ret tt
  | e :: es' => handle fuel e ;; run fuel es'
  end.

Definition step (m : Machine) (e : event) (m' : Machine) : Prop :=
  exists fuel, handle fuel e m = Some (tt, m').

(** The states the firmware can be in between two events. *)
Inductive reachable (sd : gmap string string) : Machine -> Prop :=
| reachable_setup m :
    setup W (power_on sd) = Some (tt, m) -> reachable sd m
| reachable_step m e m' :
    reachable sd m -> step m e m' -> reachable sd m'.

End Runs.

(** ** Interrupts during [setup]

    [InitGPIO] attaches the handler first of all, so the button can
    interrupt the rest of [setup]: [fire] tells after which initializers
    it does. *)

Definition preempt (W : World) (fuel : nat) (fire : bool) : M unit :=
  when fire (InterruptTestStartCommand W fuel).

Definition setup_preempted (W : World) (fuel : nat) (fire : nat -> bool)
  : M unit :=
  InitGPIO ;;
  preempt W fuel (fire 0%nat) ;;
  InitRecorder W ;;
  preempt W fuel (fire 1%nat) ;;
  InitLoadCell W ;;
  preempt W fuel (fire 2%nat) ;;
  InitDisplay ;;
  preempt W fuel (fire 3%nat) ;;
  s <- gets OPERATION_STATE ;;
  when (bool_decide (s = STARTUP) && bool_decide (s ≠ ERROR))
    (modify (set_OPERATION_STATE READY_FOR_COUNTDOWN)).

(** ** Observations on a run *)

(** The level a call drives the relay pin to, when it is such a call. *)
Definition relay_write (e : io) : option level :=
  match e with
  | IoDigitalWrite pin l =>
      if bool_decide (pin = GPIO_RELAY_TOGGLE) then Some l else None
  | _ => None
  end.

(** Every write to the relay pin so far, the latest first. *)
Definition relay_writes (tr : list io) : list level := omap relay_write tr.

(** [ToggleRelay(true)] has been called, and [ToggleRelay(false)] has not
    been called since. *)
Definition engaged (tr : list io) : bool :=
  match relay_writes tr with
  | LOW :: _ => true
  | _ => false
  end.

(** The level of the relay pin: what was last written to it, and the reset
    value of the output latch, which is low, as long as nothing was. *)
Definition relay_level (m : Machine) : level :=
  default LOW (pins m !! GPIO_RELAY_TOGGLE).

Definition is_sensor_read (e : io) : bool :=
  match e with
  | IoAnalogRead _ | IoLoadCellUpdate => true
  | _ => false
  end.

Definition is_log_call (e : io) : bool :=
  match e with
  | IoSdExists _ | IoFileOpen _ _ | IoFilePrint _ | IoFileSync | IoFileClose =>
      true
  | _ => false
  end.

Definition is_display (e : io) : bool :=
  match e with
  | IoDisplay _ => true
  | _ => false
  end.

Definition is_probe (e : io) : bool :=
  match e with
  | IoSdExists _ => true
  | _ => false
  end.

Definition opened_name (e : io) : option string :=
  match e with
  | IoFileOpen name true => Some name
  | _ => None
  end.

(** The names of the files opened so far, the latest first. *)
Definition opened (tr : list io) : list string := omap opened_name tr.

(** What [latest_sample] is made of. *)
Definition latest_sample (m : Machine) : spec_float * spec_float * spec_float :=
  (LoadCellForceData m, ThermistorData0 m, ThermistorData1 m).

(** Several events in a row, each handler invocation with fuel of its own. *)
Fixpoint steps (W : World) (fmt fmtd : spec_float -> string)
    (sh : Z -> Z -> Z -> spec_float)
    (m : Machine) (es : list event) (m' : Machine) : Prop :=
  match es with
  | [] => m' = m
  | e :: es' =>
      exists m1, step W fmt fmtd sh m e m1 /\ steps W fmt fmtd sh m1 es' m'
  end.

(** ** The invariant of the sequencer *)

(** The writes to the relay pin that lie behind each state. *)
Definition relay_log_of (s : E_OPERATION_STATE) : list level :=
  match s with
  | TEST_ACTIVE => [LOW]
  | POST_TEST => [HIGH; LOW]
  | _ => []
  end.

(** The text below the header of a log file: lines of [LogTestData], each
    stamped with a reading of [millis()]. *)
Inductive records (W : World) (fmt fmtd : spec_float -> string)
  : string -> Prop :=
| records_nil : records W fmt fmtd ""
| records_snoc body k m0 :
    records W fmt fmtd body ->
    records W fmt fmtd
      (body ++ telemetry_line fmt fmtd (wrap32 (w_millis W k)) m0).

(** Where the log file stands in each state, on a card that held [sd] when
    the power came on. *)
Definition log_ok (W : World) (fmt fmtd : spec_float -> string)
    (sd : gmap string string) (m : Machine) : Prop :=
  match OPERATION_STATE m with
  | STARTUP | READY_FOR_COUNTDOWN =>
      opened (trace m) = [] /\ File m = None /\ card m = sd
  | ERROR => opened (trace m) = [] /\ File m = None
  | COUNTDOWN | TEST_ACTIVE =>
      exists name body,
        opened (trace m) = [name] /\ File m = Some name /\
        sd !! name = None /\
        card m !! name = Some (telemetry_header ++ body) /\
        records W fmt fmtd body
  | POST_TEST =>
      exists name body,
        opened (trace m) = [name] /\ File m = None /\
        sd !! name = None /\
        card m !! name = Some (telemetry_header ++ body) /\
        records W fmt fmtd body
  end.

Record Inv (W : World) (fmt fmtd : spec_float -> string)
    (sd : gmap string string) (m : Machine) : Prop := mkInv {
  inv_relay : relay_writes (trace m) = relay_log_of (OPERATION_STATE m);
  inv_pin : pins m !! GPIO_RELAY_TOGGLE = head (relay_writes (trace m));
  inv_started : OPERATION_STATE m <> STARTUP;
  inv_fault : ErrorLog m = "" \/ OPERATION_STATE m = ERROR;
  inv_log : log_ok W fmt fmtd sd m
}.

(** How often [ToggleRelay(true)] has been called. *)
Definition engagements (tr : list io) : nat :=
  length (filter (fun l => l = LOW) (relay_writes tr)).

(** A change of state of the running firmware: [setup] on the globals as
    the power came on, or one event between two reachable states. *)
Inductive transition (W : World) (fmt fmtd : spec_float -> string)
    (sh : Z -> Z -> Z -> spec_float) (sd : gmap string string)
  : Machine -> Machine -> Prop :=
| transition_setup m :
    setup W (power_on sd) = Some (tt, m) ->
    transition W fmt fmtd sh sd (power_on sd) m
| transition_step m e m' :
    reachable W fmt fmtd sh sd m -> step W fmt fmtd sh m e m' ->
    transition W fmt fmtd sh sd m m'.

(** The calls made between two states of a run. *)
Definition calls_between (before after : Machine) (calls : list io) : Prop :=
  trace after = (calls ++ trace before)%list.

(** The record the specification describes: its first field counts from the
    start of the countdown. *)
Definition cycle_telemetry_line (fmt fmtd : spec_float -> string)
    (t : Z) (m : Machine) : string :=
  fmt (seconds_since t (CountdownActivatedTime m)) ++ ", " ++
  fmtd (LoadCellForceData m) ++ ", " ++
  fmtd (ThermistorData0 m) ++ ", " ++
  fmtd (ThermistorData1 m) ++ LF.

(** A call that draws the fault screen: state [ERROR] above the error log. *)
Definition fault_frame (log : string) (e : io) : Prop :=
  exists f, e = IoDisplay f /\ fr_state f = "ERROR" /\ fr_error f = log.

(** [m'] is [m] still in fault: nothing but the fault screen was driven. *)
Definition pinned (m m' : Machine) : Prop :=
  OPERATION_STATE m' = ERROR /\
  ErrorLog m' = ErrorLog m /\
  latest_sample m' = latest_sample m /\
  card m' = card m /\
  pins m' = pins m /\
  File m' = File m /\
  exists frames,
    calls_between m m' frames /\ Forall (fault_frame (ErrorLog m)) frames.

(** The test at the head of [loop]: a sampling period has gone by. *)
Definition tick_due (W : World) (m : Machine) : bool :=
  F32.leb sample_period
    (F32.of_Z (wrap64 (wrap32 (w_millis W (queries m)) - MainLoopPrev m))).

Definition is_nan (x : spec_float) : bool :=
  match x with
  | S754_nan => true
  | _ => false
  end.

(** Whether, for each of the [n] elapsed times from [from] milliseconds on,
    the comparison of [DetectCountdownEnd] on floats agrees with the
    comparison of the milliseconds with 30000. *)
Fixpoint limit_agrees (n : nat) (from : Z) : bool :=
  match n with
  | O => true
  | S k =>
      Bool.eqb
        (F32.ltb (seconds_since from 0) (F32.of_Z TEST_COUNTDOWN_SECONDS))
        (from <? 30000)%Z
      && limit_agrees k (from + 1)
  end.

(** ** A bench set-up to run the firmware on *)

Module Bench.

(** A formatter that tells any two values apart. *)
Definition show (x : spec_float) : string :=
  match x with
  | S754_zero s => if s then "-0" else "0"
  | S754_infinity s => if s then "-inf" else "inf"
  | S754_nan => "nan"
  | S754_finite s m e =>
      (if s then "-" else "") ++ pretty (Zpos m) ++ "p" ++ pretty e
  end.

(** Degrees taken to be the ADC count itself. *)
Definition degrees (count resistance offset : Z) : spec_float :=
  F32.of_Z count.

(** The clock reads 5 s at the first query and gains a second with every
    query; [random] counts up; every sensor answers; the card works. *)
Definition world : World :=
  {| w_millis := fun k => 5000 + 1000 * Z.of_nat k;
     w_random := fun k => Z.of_nat k;
     w_analog := fun _ _ => 512;
     w_loadcell := fun _ => Some (F32.of_Z 700000);
     w_open := fun _ _ => true;
     w_sd_begin := true;
     w_tare_timeout := false |}.

(** The same bench with no card in the slot. *)
Definition no_card : World :=
  {| w_millis := w_millis world;
     w_random := w_random world;
     w_analog := w_analog world;
     w_loadcell := w_loadcell world;
     w_open := w_open world;
     w_sd_begin := false;
     w_tare_timeout := false |}.

(** The same bench with a card that refuses to create a file. *)
Definition read_only : World :=
  {| w_millis := w_millis world;
     w_random := w_random world;
     w_analog := w_analog world;
     w_loadcell := w_loadcell world;
     w_open := fun _ _ => false;
     w_sd_begin := true;
     w_tare_timeout := false |}.

(** A card that already holds the log of an earlier test. *)
Definition sd : gmap string string :=
  {[ "Motor Test Data #1.csv" := "Time (s)" ]}.

(** The machine after [setup] and the events [es]. *)
Definition after (W : World) (es : list event) : Machine :=
  match (setup W ;; run W show show degrees 5 es) (power_on sd) with
  | Some (_, m) => m
  | None => power_on sd
  end.

Definition to_test_active : list event :=
  EvInterrupt :: replicate 4 EvLoop.

Definition to_post_test : list event :=
  EvInterrupt :: replicate 7 EvLoop.

End Bench.

(** ** Further observations *)

(** [f] holds of each of the [n] integers from [from] on. *)
Fixpoint holds_from (f : Z -> bool) (n : nat) (from : Z) : bool :=
  match n with
  | O => true
  | S k => f from && holds_from f k (from + 1)
  end.

(** After [elapsed] milliseconds the comparison of [DetectTestEnd] on
    floats is the comparison of the milliseconds with 15000. *)
Definition test_limit_agrees (elapsed : Z) : bool :=
  Bool.eqb
    (F32.ltb (seconds_since elapsed 0) (F32.of_Z TEST_DURATION_SECONDS))
    (elapsed <? 15000)%Z.

(** After [elapsed] milliseconds the comparison at the head of [loop] is
    the comparison of the milliseconds with 20. *)
Definition period_agrees (elapsed : Z) : bool :=
  Bool.eqb (F32.leb sample_period (F32.of_Z elapsed)) (20 <=? elapsed)%Z.

(** The number [DisplayRenderData] draws in large digits for a value of
    [Countdown]: [int(TEST_COUNTDOWN_SECONDS - Countdown)]. *)
Definition shown_count (c : spec_float) : Z :=
  F32.to_int (F32.sub (F32.of_Z TEST_COUNTDOWN_SECONDS) c).

(** [elapsed] milliseconds into the countdown the number drawn is the
    number of whole seconds left of it. *)
Definition countdown_count_agrees (elapsed : Z) : bool :=
  (shown_count (seconds_since elapsed 0) =? (30000 - elapsed) / 1000)%Z.

(** [elapsed] milliseconds into the test, with [Countdown] set to
    [TestDuration + 15], the number drawn is the number of whole seconds
    left of the test. *)
Definition test_count_agrees (elapsed : Z) : bool :=
  (shown_count (F32.add (seconds_since elapsed 0) (F32.of_Z 15))
   =? (15000 - elapsed) / 1000)%Z.

(** The states a run can be in some events after it was in [s]. *)
Definition reaches (s s' : E_OPERATION_STATE) : bool :=
  match s, s' with
  | STARTUP, STARTUP => true
  | READY_FOR_COUNTDOWN, STARTUP => false
  | READY_FOR_COUNTDOWN, _ => true
  | COUNTDOWN, (COUNTDOWN | TEST_ACTIVE | POST_TEST) => true
  | TEST_ACTIVE, (TEST_ACTIVE | POST_TEST) => true
  | POST_TEST, POST_TEST => true
  | ERROR, ERROR => true
  | _, _ => false
  end.

(** What the lamp on [GPIO_LED_TEST_ACTIVE] was last told, by state. *)
Definition led_ok (m : Machine) : Prop :=
  match OPERATION_STATE m with
  | STARTUP | READY_FOR_COUNTDOWN => pins m !! GPIO_LED_TEST_ACTIVE = None
  | COUNTDOWN | TEST_ACTIVE => pins m !! GPIO_LED_TEST_ACTIVE = Some HIGH
  | POST_TEST => pins m !! GPIO_LED_TEST_ACTIVE = Some LOW
  | ERROR =>
      pins m !! GPIO_LED_TEST_ACTIVE = None \/
      pins m !! GPIO_LED_TEST_ACTIVE = Some HIGH
  end.

Definition is_uint32 (z : Z) : Prop := 0 <= z < 2 ^ 32.

(** What the sequencer keeps true of the board besides [Inv]: the lamp
    follows the state, the three timestamps are readings of the 32-bit
    counter, and a file the firmware has not opened is as it was on the card
    [sd] when the power came on. *)
Record Inv_board (sd : gmap string string) (m : Machine) : Prop :=
  mkInv_board {
  board_led : led_ok m;
  board_countdown : is_uint32 (CountdownActivatedTime m);
  board_test : is_uint32 (TestActivatedTime m);
  board_prev : is_uint32 (MainLoopPrev m);
  board_card :
    forall name, (name ∉ opened (trace m)) -> card m !! name = sd !! name
}.

(** [m'] is [m] some time after the test: the state, the timestamps, the
    card, the pins and the log file are as the test left them, and the calls
    made since draw the display and read the sensors. *)
Definition settled (m m' : Machine) : Prop :=
  OPERATION_STATE m' = POST_TEST /\
  CountdownActivatedTime m' = CountdownActivatedTime m /\
  TestActivatedTime m' = TestActivatedTime m /\
  Countdown m' = Countdown m /\
  TestDuration m' = TestDuration m /\
  ErrorLog m' = ErrorLog m /\
  card m' = card m /\
  pins m' = pins m /\
  File m' = File m /\
  exists calls,
    calls_between m m' calls /\
    Forall (fun e => is_display e = true \/ is_sensor_read e = true) calls.

(** A bench whose millisecond counter is 3 s short of wrapping around when
    the power comes on. *)
Definition about_to_wrap : World :=
  {| w_millis := fun k => 2 ^ 32 - 3000 + 1000 * Z.of_nat k;
     w_random := w_random Bench.world;
     w_analog := w_analog Bench.world;
     w_loadcell := w_loadcell Bench.world;
     w_open := w_open Bench.world;
     w_sd_begin := true;
     w_tare_timeout := false |}.

(** ** Symbolic execution *)

Ltac fw_step :=
  cbv beta iota zeta delta
    [bind ret get gets modify when emit ask out_of_fuel
     millis random pinMode attachInterrupt digitalWrite analogRead Sd_exists
     File_open File_printf File_sync File_close ErrorLog_append
     InitRecorder InitLoadCell InitDisplay InitGPIO ToggleRelay
     CreateLogFile CloseLogFile CreateTelemetryString InterruptTestStartCommand
     TestEndCommand DisplayRenderData BeginTest DetectCountdownEnd EndTest
     DetectTestEnd LogTestData ReadThermistor GetThermistorData GetLoadCellData
     setup tick loop handle
     set_OPERATION_STATE set_CountdownActivatedTime set_TestActivatedTime
     set_Countdown set_TestDuration set_ThermistorData0 set_ThermistorData1
     set_LoadCellForceData set_ErrorLog set_MainLoopPrev set_pins set_card
     set_File set_queries set_trace
     OPERATION_STATE CountdownActivatedTime TestActivatedTime Countdown
     TestDuration ThermistorData0 ThermistorData1 LoadCellForceData ErrorLog
     MainLoopPrev pins card File queries trace negb andb].

Ltac fw_decide :=
  repeat match goal with
    | |- context [bool_decide ?P] =>
        match P with
        | @eq E_OPERATION_STATE _ _ => idtac
        | not (@eq E_OPERATION_STATE _ _) => idtac
        | @eq Z _ _ => idtac
        | not (@eq Z _ _) => idtac
        end;
        let b := eval vm_compute in (bool_decide P) in
        match b with true => idtac | false => idtac end;
        change (bool_decide P) with b
    end.

Ltac fw_case :=
  match goal with
  | |- context [match w_loadcell ?W ?k with _ => _ end] =>
      destruct (w_loadcell W k)
  | |- context [if F32.ltb ?a ?b then _ else _] =>
      destruct (F32.ltb a b) eqn:?
  | |- context [if F32.leb ?a ?b then _ else _] =>
      destruct (F32.leb a b) eqn:?
  | |- context [if w_sd_begin ?W then _ else _] => destruct (w_sd_begin W) eqn:?
  | |- context [if w_tare_timeout ?W then _ else _] =>
      destruct (w_tare_timeout W) eqn:?
  | |- context [if w_open ?W ?k ?n then _ else _] =>
      destruct (w_open W k n) eqn:?
  | |- context [match w_open ?W ?k ?n with _ => _ end] =>
      destruct (w_open W k n) eqn:?
  end.

Ltac fw_simpl := fw_step; repeat (progress fw_decide; fw_step).

Ltac fw_exec := fw_simpl; repeat (fw_case; fw_simpl).

(** ** Facts of binary32 arithmetic *)

Lemma SFcompare_antisym (a b : spec_float) :
  SFcompare b a = option_map CompOpp (SFcompare a b).
Proof.
  destruct a as [sa|sa| |sa ma ea], b as [sb|sb| |sb mb eb];
    try destruct sa; try destruct sb; try reflexivity; cbn.
  - rewrite (Z.compare_antisym eb ea).
    destruct (eb ?= ea)%Z; cbn; try reflexivity.
    change (Pos.compare_cont Eq mb ma) with (Pos.compare mb ma).
    change (Pos.compare_cont Eq ma mb) with (Pos.compare ma mb).
    rewrite (Pos.compare_antisym mb ma).
    destruct (mb ?= ma)%positive; reflexivity.
  - rewrite (Z.compare_antisym eb ea).
    destruct (eb ?= ea)%Z; cbn; try reflexivity.
    change (Pos.compare_cont Eq mb ma) with (Pos.compare mb ma).
    change (Pos.compare_cont Eq ma mb) with (Pos.compare ma mb).
    rewrite (Pos.compare_antisym mb ma).
    destruct (mb ?= ma)%positive; reflexivity.
Qed.

Lemma F32_leb_ltb (a b : spec_float) :
  F32.leb a b = true -> F32.ltb b a = false.
Proof.
  unfold F32.leb, F32.ltb, SFleb, SFltb. rewrite (SFcompare_antisym a b).
  destruct (SFcompare a b) as [[]|]; cbn; congruence.
Qed.

Lemma F32_ltb_or_leb (a b : spec_float) :
  is_nan a = false -> is_nan b = false ->
  F32.ltb a b = true \/ F32.leb b a = true.
Proof.
  unfold F32.leb, F32.ltb, SFleb, SFltb. rewrite (SFcompare_antisym a b).
  intros Ha Hb.
  destruct a as [sa|sa| |sa ma ea], b as [sb|sb| |sb mb eb];
    try discriminate; cbn;
    try destruct sa; try destruct sb; cbn; auto;
    destruct (ea ?= eb)%Z; cbn; auto;
    destruct (Pos.compare_cont Eq ma mb); cbn; auto.
Qed.

Lemma iter_pos_invariant {A} (P : A -> Prop) (f : A -> A) :
  (forall x, P x -> P (f x)) ->
  forall (p : positive) (x : A), P x -> P (SpecFloat.iter_pos f p x).
Proof.
  intros Hf. induction p as [p IH|p IH|]; intros x Hx; cbn; auto.
Qed.

Lemma shr_1_nonneg (mrs : shr_record) :
  0 <= shr_m mrs -> 0 <= shr_m (shr_1 mrs).
Proof.
  destruct mrs as [m r s]. cbn.
  destruct m as [|[p|p|]|[p|p|]]; cbn; lia.
Qed.

Lemma shr_fexp_nonneg (prec emax m e : Z) (l : location) :
  0 <= m -> 0 <= shr_m (fst (shr_fexp prec emax m e l)).
Proof.
  intros Hm. unfold shr_fexp, shr.
  assert (H0 : 0 <= shr_m (shr_record_of_loc m l)).
  { destruct l as [|[]]; exact Hm. }
  destruct (fexp prec emax (Zdigits2 m + e) - e); cbn [fst]; try exact H0.
  apply (iter_pos_invariant (fun mrs => 0 <= shr_m mrs));
    [apply shr_1_nonneg | exact H0].
Qed.

Lemma binary_round_aux_not_nan (prec emax : Z) (sx : bool) (mx ex : Z)
    (lx : location) :
  0 <= mx -> is_nan (binary_round_aux prec emax sx mx ex lx) = false.
Proof.
  intros Hm. unfold binary_round_aux.
  pose proof (shr_fexp_nonneg prec emax mx ex lx Hm) as H1.
  destruct (shr_fexp prec emax mx ex lx) as [mrs' e']. cbn [fst] in H1.
  assert (H2 : 0 <= round_nearest_even (shr_m mrs') (loc_of_shr_record mrs')).
  { unfold round_nearest_even.
    destruct (loc_of_shr_record mrs') as [|[]];
      try destruct (Z.even _); lia. }
  pose proof (shr_fexp_nonneg prec emax _ e' loc_Exact H2) as H3.
  destruct (shr_fexp prec emax _ e' loc_Exact) as [mrs'' e''].
  cbn [fst] in H3.
  destruct (shr_m mrs''); [reflexivity| |lia].
  destruct (e'' <=? emax - prec)%Z; reflexivity.
Qed.

Lemma of_Z_not_nan (z : Z) : is_nan (F32.of_Z z) = false.
Proof.
  unfold F32.of_Z, binary_normalize. destruct z; [reflexivity| |];
    unfold binary_round;
    destruct (shl_align _ _ _) as [mz ez];
    apply binary_round_aux_not_nan; lia.
Qed.

Lemma div_not_nan (x : spec_float) (s : bool) (m : positive) (e : Z) :
  is_nan x = false -> is_nan (F32.div x (S754_finite s m e)) = false.
Proof.
  destruct x as [sx|sx| |sx mx ex]; try discriminate; try reflexivity.
  intros _. unfold F32.div, SFdiv.
  destruct (SFdiv_core_binary _ _ _ _ _ _) as [[mz ez] lz] eqn:H.
  apply binary_round_aux_not_nan.
  unfold SFdiv_core_binary in H.
  match type of H with
  | (let '(q, r) := Z.div_eucl ?a ?b in _) = _ =>
      assert (Ha : 0 <= a)
        by (destruct (ex - e - _); try lia; apply Z.shiftl_nonneg; lia);
      pose proof (Z_div_mod a b eq_refl) as Hd;
      revert H Hd; destruct (Z.div_eucl a b) as [q r]
  end.
  intros [= <- _ _] [Hq Hr]. nia.
Qed.

Lemma seconds_since_not_nan (now since : Z) :
  is_nan (seconds_since now since) = false.
Proof.
  unfold seconds_since.
  change (F32.of_Z 1000) with (S754_finite false 16384000 (-14)).
  apply div_not_nan, of_Z_not_nan.
Qed.

Lemma limit_agrees_spec (n : nat) :
  forall from,
    limit_agrees n from = true ->
    forall e, from <= e < from + Z.of_nat n ->
      F32.ltb (seconds_since e 0) (F32.of_Z TEST_COUNTDOWN_SECONDS)
      = (e <? 30000)%Z.
Proof.
  induction n as [|n IH]; cbn [limit_agrees]; intros from H e He; [lia|].
  apply andb_true_iff in H. destruct H as [H1 H2].
  destruct (decide (e = from)) as [->|Hne].
  - now apply Bool.eqb_prop in H1.
  - apply (IH (from + 1)); [exact H2 | lia].
Qed.

(** Up to 65.535 s of elapsed time the comparison is settled by running
    it on every value. *)
Lemma countdown_limit_below_65536 (elapsed : Z) :
  0 <= elapsed < 65536 ->
  F32.ltb (F32.div (F32.of_Z elapsed) (F32.of_Z 1000))
    (F32.of_Z TEST_COUNTDOWN_SECONDS)
  = (elapsed <? 30000)%Z.
Proof.
  intros He.
  assert (Hall : limit_agrees (Z.to_nat 65536) 0 = true)
    by (vm_compute; reflexivity).
  pose proof (limit_agrees_spec _ 0 Hall elapsed) as H.
  unfold seconds_since in H. rewrite Z.sub_0_r in H.
  replace (wrap64 elapsed) with elapsed in H
    by (unfold wrap64; symmetry; apply Z.mod_small; lia).
  apply H. lia.
Qed.

(** Beyond that the quotient is at least [2^6], which its exponent shows. *)

Lemma digits2_pos_size (p : positive) : digits2_pos p = Pos.size p.
Proof. induction p as [p IH|p IH|]; cbn; congruence. Qed.

Lemma Zdigits2_log2 (m : Z) : 0 < m -> Zdigits2 m = Z.log2 m + 1.
Proof.
  destruct m as [|p|p]; try lia. intros _. cbn [Zdigits2].
  rewrite digits2_pos_size. destruct p; cbn [Z.log2 Pos.size]; lia.
Qed.

Lemma shr_1_div2 (mrs : shr_record) :
  0 <= shr_m mrs -> shr_m (shr_1 mrs) = Z.shiftr (shr_m mrs) 1.
Proof.
  destruct mrs as [m r s]. cbn [shr_m]. intros Hm.
  rewrite Z.shiftr_div_pow2 by lia. change (2 ^ 1) with 2.
  rewrite <- Z.div2_div.
  destruct m as [|[p|p|]|p]; try lia; reflexivity.
Qed.

Lemma iter_shr_1 (p : positive) :
  forall mrs, 0 <= shr_m mrs ->
    shr_m (SpecFloat.iter_pos shr_1 p mrs) = Z.shiftr (shr_m mrs) (Zpos p).
Proof.
  induction p as [p IH|p IH|]; intros mrs Hm; cbn [SpecFloat.iter_pos].
  - assert (H1 : 0 <= shr_m (shr_1 mrs)) by now apply shr_1_nonneg.
    assert (H2 : 0 <= shr_m (SpecFloat.iter_pos shr_1 p (shr_1 mrs))).
    { rewrite IH by exact H1. now apply Z.shiftr_nonneg. }
    rewrite IH by exact H2. rewrite IH by exact H1.
    rewrite shr_1_div2 by exact Hm.
    rewrite !Z.shiftr_shiftr by lia. f_equal. lia.
  - assert (H2 : 0 <= shr_m (SpecFloat.iter_pos shr_1 p mrs)).
    { rewrite IH by exact Hm. now apply Z.shiftr_nonneg. }
    rewrite IH by exact H2. rewrite IH by exact Hm.
    rewrite !Z.shiftr_shiftr by lia. f_equal. lia.
  - now apply shr_1_div2.
Qed.

Lemma shr_fexp_normal (m e : Z) (l : location) :
  1 <= m -> -148 <= Zdigits2 m + e ->
  1 <= shr_m (fst (shr_fexp 24 128 m e l)) /\
  e <= snd (shr_fexp 24 128 m e l) /\
  Zdigits2 (shr_m (fst (shr_fexp 24 128 m e l))) + snd (shr_fexp 24 128 m e l)
  = Zdigits2 m + e.
Proof.
  intros Hm Hpos. unfold shr_fexp, shr.
  assert (H0 : shr_m (shr_record_of_loc m l) = m) by (destruct l as [|[]]; reflexivity).
  rewrite Zdigits2_log2 in * by lia.
  pose proof (Z.log2_nonneg m) as Hl.
  unfold fexp, emin.
  destruct (Z.max (Z.log2 m + 1 + e - 24) (3 - 128 - 24) - e) as [|n|n] eqn:En; cbn [fst snd].
  - rewrite H0. rewrite Zdigits2_log2 by lia. lia.
  - rewrite iter_shr_1 by (rewrite H0; lia). rewrite H0.
    assert (Hn : Z.pos n <= Z.log2 m) by lia.
    assert (H1 : 1 <= Z.shiftr m (Z.pos n)).
    { rewrite Z.shiftr_div_pow2 by lia.
      apply Z.div_le_lower_bound; [apply Z.pow_pos_nonneg; lia|].
      rewrite Z.mul_1_r.
      transitivity (2 ^ Z.log2 m).
      - apply Z.pow_le_mono_r; lia.
      - apply Z.log2_spec. lia. }
    split; [exact H1|]. split; [lia|].
    rewrite Zdigits2_log2 by lia. rewrite Z.log2_shiftr by lia. lia.
  - rewrite H0. rewrite Zdigits2_log2 by lia. lia.
Qed.

Lemma round_nearest_even_bounds (m : Z) (l : location) :
  m <= round_nearest_even m l <= m + 1.
Proof.
  unfold round_nearest_even.
  destruct l as [|[]]; try destruct (Z.even m); lia.
Qed.

(** Rounding a positive mantissa in the normal range gives a positive
    number whose exponent and whose leading bit are not below those of the
    input. *)
Lemma binary_round_aux_bounds (sx : bool) (mx ex : Z) (lx : location) :
  1 <= mx -> -148 <= Zdigits2 mx + ex ->
  match binary_round_aux 24 128 sx mx ex lx with
  | S754_finite s m e =>
      s = sx /\ ex <= e /\ Zdigits2 mx + ex <= Zdigits2 (Zpos m) + e
  | S754_infinity s => s = sx
  | _ => False
  end.
Proof.
  intros Hm Hpos. unfold binary_round_aux.
  pose proof (shr_fexp_normal mx ex lx Hm Hpos) as (H1 & H2 & H3).
  destruct (shr_fexp 24 128 mx ex lx) as [mrs' e']. cbn [fst snd] in *.
  pose proof (round_nearest_even_bounds (shr_m mrs') (loc_of_shr_record mrs'))
    as Hr.
  set (r := round_nearest_even (shr_m mrs') (loc_of_shr_record mrs')) in *.
  assert (Hd : Zdigits2 (shr_m mrs') <= Zdigits2 r).
  { rewrite !Zdigits2_log2 by lia.
    apply Z.add_le_mono_r, Z.log2_le_mono. lia. }
  assert (Hr1 : 1 <= r) by lia.
  assert (Hpos' : -148 <= Zdigits2 r + e') by lia.
  pose proof (shr_fexp_normal r e' loc_Exact Hr1 Hpos') as (H4 & H5 & H6).
  destruct (shr_fexp 24 128 r e' loc_Exact) as [mrs'' e'']. cbn [fst snd] in *.
  destruct (shr_m mrs'') as [|m|m]; try lia.
  destruct (e'' <=? 128 - 24)%Z; [|reflexivity].
  split; [reflexivity|]. split; lia.
Qed.

Lemma Zpos_iter_xO (p k : positive) :
  Zpos (Pos.iter xO p k) = Zpos p * 2 ^ Zpos k.
Proof.
  rewrite <- Z.shiftl_mul_pow2 by lia. cbn [Z.shiftl].
  apply (Pos.iter_swap_gen _ _ Zpos xO (Z.mul 2)). reflexivity.
Qed.

Lemma of_Z_bounds (x : Z) :
  65536 <= x ->
  match binary_normalize 24 128 x 0 false with
  | S754_finite s m e => s = false /\ -7 <= e /\ 17 <= Zdigits2 (Zpos m) + e
  | S754_infinity s => s = false
  | _ => False
  end.
Proof.
  intros Hx. destruct x as [|p|p]; try lia. cbn [binary_normalize].
  unfold binary_round.
  assert (Hd : 17 <= Zdigits2 (Zpos p)).
  { rewrite Zdigits2_log2 by lia.
    assert (16 <= Z.log2 (Zpos p)); [|lia].
    change 16 with (Z.log2 65536). now apply Z.log2_le_mono. }
  change (Zpos (digits2_pos p)) with (Zdigits2 (Zpos p)).
  assert (Hb : match shl_align p 0 (fexp 24 128 (Zdigits2 (Zpos p) + 0)) with
               | (mz, ez) =>
                   -7 <= ez /\ 17 <= Zdigits2 (Zpos mz) + ez
               end).
  { unfold shl_align, fexp, emin.
    destruct (Z.max (Zdigits2 (Z.pos p) + 0 - 24) (3 - 128 - 24) - 0)
      as [|k|k] eqn:Ek; try lia.
    split; [lia|].
    rewrite (Zdigits2_log2 (Zpos (Pos.iter xO p k))) by lia.
    rewrite Zpos_iter_xO, Z.log2_mul_pow2 by lia.
    rewrite Zdigits2_log2 in * by lia. lia. }
  destruct (shl_align p 0 _) as [mz ez]. destruct Hb as [Hez Hpos].
  pose proof (binary_round_aux_bounds false (Zpos mz) ez loc_Exact) as H.
  destruct (binary_round_aux 24 128 false (Zpos mz) ez loc_Exact);
    try (apply H; lia).
  destruct H as (-> & He & Hp); [lia|lia|]. split; [reflexivity|]. lia.
Qed.

Lemma div_1000_bounds (x : Z) :
  65536 <= x ->
  match SFdiv 24 128 (binary_normalize 24 128 x 0 false)
          (binary_normalize 24 128 1000 0 false) with
  | S754_finite s m e => s = false /\ -17 <= e
  | S754_infinity s => s = false
  | _ => False
  end.
Proof.
  intros Hx. pose proof (of_Z_bounds x Hx) as H1.
  change (binary_normalize 24 128 1000 0 false)
    with (S754_finite false 16384000 (-14)).
  destruct (binary_normalize 24 128 x 0 false) as [s|s| |s m1 e1];
    try contradiction.
  - subst s. reflexivity.
  - destruct H1 as (-> & He1 & Hpos1). unfold SFdiv. cbn [xorb].
    unfold SFdiv_core_binary.
    change (Zdigits2 16384000) with 24.
    set (d1 := Zdigits2 (Z.pos m1)) in *.
    assert (Hd1 : 1 <= d1) by (unfold d1; cbn; lia).
    set (e' := Z.min (fexp 24 128 (d1 + e1 - (24 + -14))) (e1 - -14)).
    assert (He' : -17 <= e' /\ e' <= e1 + 14 /\ e' <= d1 + e1 - 34).
    { unfold e', fexp, emin. lia. }
    set (s := e1 - -14 - e').
    set (m' := match s with
               | 0 => Z.pos m1
               | Z.pos _ => Z.shiftl (Z.pos m1) s
               | Z.neg _ => 0
               end).
    assert (Hm' : m' = Z.pos m1 * 2 ^ s).
    { unfold m'. destruct s as [|k|k] eqn:Es; try lia.
      now rewrite Z.shiftl_mul_pow2 by lia. }
    assert (Hbig : 2 ^ 47 <= m').
    { rewrite Hm'.
      assert (Hm1 : 2 ^ (d1 - 1) <= Z.pos m1).
      { unfold d1. rewrite Zdigits2_log2 by lia.
        replace (Z.log2 (Z.pos m1) + 1 - 1) with (Z.log2 (Z.pos m1)) by lia.
        apply Z.log2_spec. lia. }
      destruct (Z_le_gt_dec d1 48) as [Hle|Hgt].
      - replace 47 with ((d1 - 1) + (48 - d1)) by lia.
        rewrite Z.pow_add_r by lia.
        apply Z.mul_le_mono_nonneg;
          [apply Z.pow_nonneg; lia | exact Hm1 | apply Z.pow_nonneg; lia
          |apply Z.pow_le_mono_r; unfold s; lia].
      - transitivity (Z.pos m1 * 1); [|apply Z.mul_le_mono_nonneg_l; try lia;
          assert (0 < 2 ^ s) by (apply Z.pow_pos_nonneg; unfold s; lia); lia].
        rewrite Z.mul_1_r. transitivity (2 ^ (d1 - 1)); [|exact Hm1].
        apply Z.pow_le_mono_r; lia. }
    pose proof (Z_div_mod m' 16384000 eq_refl) as Hdm.
    destruct (Z.div_eucl m' 16384000) as [q r].
    destruct Hdm as [Hq Hr].
    assert (Hq23 : 2 ^ 23 <= q).
    { change (2 ^ 47) with 140737488355328 in Hbig.
      change (2 ^ 23) with 8388608. lia. }
    assert (Hdq : 24 <= Zdigits2 q).
    { rewrite Zdigits2_log2 by (change (2 ^ 23) with 8388608 in Hq23; lia).
      assert (23 <= Z.log2 q); [|lia].
      change 23 with (Z.log2 (2 ^ 23)). now apply Z.log2_le_mono. }
    pose proof (binary_round_aux_bounds false q e'
                   (new_location 16384000 r)) as H.
    destruct (binary_round_aux 24 128 false q e' (new_location 16384000 r));
      try (apply H; [change (2 ^ 23) with 8388608 in Hq23|]; lia).
    destruct H as (-> & He & _);
      [change (2 ^ 23) with 8388608 in Hq23; lia|lia|].
    split; [reflexivity|lia].
Qed.

(** The comparison of [DetectCountdownEnd] is exact: whatever the two
    readings of the clock, [float(elapsed) / 1000.f < 30] holds exactly
    when [elapsed < 30000], the rounding of the conversion and of the
    division notwithstanding. *)
Lemma countdown_limit_in_milliseconds (now since : Z) :
  F32.ltb (seconds_since now since) (F32.of_Z TEST_COUNTDOWN_SECONDS)
  = (wrap64 (now - since) <? 30000)%Z.
Proof.
  unfold seconds_since. set (elapsed := wrap64 (now - since)).
  assert (H0 : 0 <= elapsed) by (apply Z.mod_pos_bound; reflexivity).
  destruct (Z_lt_le_dec elapsed 65536) as [Hlt|Hge].
  - apply countdown_limit_below_65536. lia.
  - pose proof (div_1000_bounds elapsed Hge) as H.
    replace (elapsed <? 30000)%Z with false by (symmetry; apply Z.ltb_ge; lia).
    unfold F32.div, F32.of_Z, F32.prec, F32.emax.
    destruct (SFdiv 24 128 _ _) as [s|s| |s m e]; try contradiction.
    + subst s. reflexivity.
    + destruct H as [-> He].
      change (F32.ltb (S754_finite false m e)
                (S754_finite false 15728640 (-19)) = false).
      unfold F32.ltb, SFltb, SFcompare.
      destruct (Z.compare_spec e (-19)) as [E|E|E]; first [lia | reflexivity].
Qed.

(** ** More facts of binary32 arithmetic *)

Lemma holds_from_spec (f : Z -> bool) (n : nat) :
  forall from,
    holds_from f n from = true ->
    forall e, from <= e < from + Z.of_nat n -> f e = true.
Proof.
  induction n as [|n IH]; cbn [holds_from]; intros from H e He; [lia|].
  apply andb_true_iff in H. destruct H as [H1 H2].
  destruct (decide (e = from)) as [->|Hne]; [exact H1|].
  apply (IH (from + 1)); [exact H2 | lia].
Qed.

Lemma seconds_since_0 (e : Z) :
  0 <= e < 2 ^ 64 ->
  seconds_since e 0 = F32.div (F32.of_Z e) (F32.of_Z 1000).
Proof.
  intros He. unfold seconds_since. rewrite Z.sub_0_r.
  unfold wrap64. now rewrite Z.mod_small.
Qed.

(** The comparison of [DetectTestEnd] is exact as well:
    [float(elapsed) / 1000.f < 15] exactly when [elapsed < 15000]. *)
Lemma test_limit_in_milliseconds (now since : Z) :
  F32.ltb (seconds_since now since) (F32.of_Z TEST_DURATION_SECONDS)
  = (wrap64 (now - since) <? 15000)%Z.
Proof.
  unfold seconds_since. set (elapsed := wrap64 (now - since)).
  assert (H0 : 0 <= elapsed) by (apply Z.mod_pos_bound; reflexivity).
  destruct (Z_lt_le_dec elapsed 65536) as [Hlt|Hge].
  - assert (Hall : holds_from test_limit_agrees (Z.to_nat 65536) 0 = true)
      by (vm_compute; reflexivity).
    pose proof (holds_from_spec _ _ 0 Hall elapsed) as H.
    unfold test_limit_agrees in H.
    rewrite seconds_since_0 in H by lia.
    apply Bool.eqb_prop, H. lia.
  - pose proof (div_1000_bounds elapsed Hge) as H.
    replace (elapsed <? 15000)%Z with false by (symmetry; apply Z.ltb_ge; lia).
    unfold F32.div, F32.of_Z, F32.prec, F32.emax.
    destruct (SFdiv 24 128 _ _) as [s|s| |s m e]; try contradiction.
    + subst s. reflexivity.
    + destruct H as [-> He].
      change (F32.ltb (S754_finite false m e)
                (S754_finite false 15728640 (-20)) = false).
      unfold F32.ltb, SFltb, SFcompare.
      destruct (Z.compare_spec e (-20)) as [E|E|E]; first [lia | reflexivity].
Qed.

(** So is the comparison at the head of [loop]:
    [elapsed >= 1000.f / 50] exactly when [elapsed >= 20]. *)
Lemma sample_period_in_milliseconds (elapsed : Z) :
  0 <= elapsed ->
  F32.leb sample_period (F32.of_Z elapsed) = (20 <=? elapsed)%Z.
Proof.
  intros H0.
  destruct (Z_lt_le_dec elapsed 65536) as [Hlt|Hge].
  - assert (Hall : holds_from period_agrees (Z.to_nat 65536) 0 = true)
      by (vm_compute; reflexivity).
    pose proof (holds_from_spec _ _ 0 Hall elapsed) as H.
    apply Bool.eqb_prop, H. lia.
  - pose proof (of_Z_bounds elapsed Hge) as H.
    replace (20 <=? elapsed)%Z with true by (symmetry; apply Z.leb_le; lia).
    change sample_period with (S754_finite false 10485760 (-19)).
    unfold F32.of_Z, F32.prec, F32.emax.
    destruct (binary_normalize 24 128 elapsed 0 false) as [s|s| |s m e];
      try contradiction.
    + subst s. reflexivity.
    + destruct H as (-> & He & _).
      unfold F32.leb, SFleb, SFcompare.
      destruct (Z.compare_spec (-19) e) as [E|E|E]; first [lia | reflexivity].
Qed.

(** Until the countdown is over the display counts the whole seconds that
    are left of it. *)
Lemma countdown_count_in_seconds (now since : Z) :
  wrap64 (now - since) <= 30000 ->
  shown_count (seconds_since now since)
  = (30000 - wrap64 (now - since)) / 1000.
Proof.
  unfold seconds_since. set (elapsed := wrap64 (now - since)). intros Hle.
  assert (H0 : 0 <= elapsed) by (apply Z.mod_pos_bound; reflexivity).
  assert (Hall : holds_from countdown_count_agrees (Z.to_nat 30001) 0 = true)
    by (vm_compute; reflexivity).
  pose proof (holds_from_spec _ _ 0 Hall elapsed) as H.
  unfold countdown_count_agrees in H.
  rewrite seconds_since_0 in H by lia.
  apply Z.eqb_eq, H. lia.
Qed.

(** During the test it counts the whole seconds that are left of the
    test. *)
Lemma test_count_in_seconds (now since : Z) :
  wrap64 (now - since) <= 15000 ->
  shown_count (F32.add (seconds_since now since) (F32.of_Z 15))
  = (15000 - wrap64 (now - since)) / 1000.
Proof.
  unfold seconds_since. set (elapsed := wrap64 (now - since)). intros Hle.
  assert (H0 : 0 <= elapsed) by (apply Z.mod_pos_bound; reflexivity).
  assert (Hall : holds_from test_count_agrees (Z.to_nat 15001) 0 = true)
    by (vm_compute; reflexivity).
  pose proof (holds_from_spec _ _ 0 Hall elapsed) as H.
  unfold test_count_agrees in H.
  rewrite seconds_since_0 in H by lia.
  apply Z.eqb_eq, H. lia.
Qed.

(** ** Properties of the sequencer *)

Section Properties.

Variable W : World.
Variable String_of_float : spec_float -> string.
Variable String_of_double : spec_float -> string.
Variable steinhart_hart : Z -> Z -> Z -> spec_float.

Abbreviation Loop := (loop W String_of_float String_of_double steinhart_hart).
Abbreviation Tick := (tick W String_of_float String_of_double steinhart_hart).
Abbreviation Handle :=
  (handle W String_of_float String_of_double steinhart_hart).
Abbreviation Step := (step W String_of_float String_of_double steinhart_hart).
Abbreviation Steps :=
  (steps W String_of_float String_of_double steinhart_hart).
Abbreviation Reachable :=
  (reachable W String_of_float String_of_double steinhart_hart).

Lemma Interrupt_discarded fuel m :
  OPERATION_STATE m <> READY_FOR_COUNTDOWN ->
  InterruptTestStartCommand W fuel m = Some (tt, m).
Proof.
  destruct m as [st ? ? ? ? ? ? ? ? ? ? ? ? ? ?]; cbn; intros Hs.
  destruct st; try congruence; fw_exec; reflexivity.
Qed.

(** Until [setup] has run to its end the state is [STARTUP] or [ERROR], so
    an interrupt that arrives in between returns at once: [setup] with
    interrupts is [setup]. *)
Lemma setup_preempted_eq fuel (fire : nat -> bool) sd :
  setup_preempted W fuel fire (power_on sd) = setup W (power_on sd).
Proof.
  unfold setup_preempted, preempt, power_on.
  destruct (fire 0%nat), (fire 1%nat), (fire 2%nat), (fire 3%nat);
    fw_exec; reflexivity.
Qed.

Lemma tick_total m : exists m', Tick m = Some (tt, m').
Proof.
  destruct m as [st ? ? ? ? ? ? ? ? ? ? ? ? ? ?].
  destruct st; fw_exec; eexists; reflexivity.
Qed.

Lemma loop_total m : exists m', Loop m = Some (tt, m').
Proof.
  unfold loop, bind at 1, millis, ask, bind at 1, ret, bind at 1, gets.
  destruct (F32.leb _ _); [apply tick_total | eexists; reflexivity].
Qed.

(** What the search for a free name leaves behind: a name that is not
    on the card, drawn or handed in, and nothing but probes of the card. *)
Lemma CreateLogFile_while_spec fuel :
  forall (filename : string) (m : Machine) (r : string) (m' : Machine),
    CreateLogFile_while W fuel filename m = Some (r, m') ->
    card m !! r = None /\
    exists (probes : list io) (q' : nat),
      (queries m <= q')%nat /\
      (r = filename \/
       exists k, (queries m <= k < q')%nat /\
                 r = log_file_name (w_random W k `mod` 100)) /\
      Forall (fun e => is_probe e = true) probes /\
      m' = set_trace (probes ++ trace m)%list (set_queries q' m).
Proof.
  induction fuel as [|fuel IH]; intros filename m r m';
    destruct m as [st ? ? ? ? ? ? ? ? ? ? cr ? q tr];
    cbn [CreateLogFile_while]; fw_simpl;
    destruct (bool_decide (is_Some (cr !! filename))) eqn:E; fw_simpl;
    try discriminate.
  - intros [= <- <-]; fw_simpl.
    apply bool_decide_eq_false in E. rewrite <- eq_None_not_Some in E.
    split; [exact E|]. exists [IoSdExists filename], q.
    split; [lia|]. split; [now left|].
    split; [repeat constructor | reflexivity].
  - intros H. apply IH in H. revert H. fw_simpl.
    intros (Hr & probes & q' & Hq & Hn & Hp & ->). fw_simpl.
    split; [exact Hr|].
    exists (probes ++ [IoSdExists filename])%list, q'.
    split; [lia|]. split; [|split].
    + right. destruct Hn as [->|(k & Hk & ->)].
      * exists q. split; [lia | reflexivity].
      * exists k. split; [lia | reflexivity].
    + apply Forall_app. split; [exact Hp | repeat constructor].
    + rewrite <- app_assoc. reflexivity.
  - intros [= <- <-]; fw_simpl.
    apply bool_decide_eq_false in E. rewrite <- eq_None_not_Some in E.
    split; [exact E|]. exists [IoSdExists filename], q.
    split; [lia|]. split; [now left|].
    split; [repeat constructor | reflexivity].
Qed.

Lemma CreateLogFile_while_finds (n : nat) :
  forall (filename : string) (m : Machine),
    card m !! filename = None \/
    (exists i, (i < n)%nat /\
       card m !! log_file_name (w_random W (queries m + i) `mod` 100)
       = None) ->
    exists r m', CreateLogFile_while W n filename m = Some (r, m').
Proof.
  induction n as [|n IH]; intros filename m H;
    destruct m as [st ? ? ? ? ? ? ? ? ? ? cr ? q tr];
    cbn [card queries] in H; cbn [CreateLogFile_while]; fw_simpl;
    destruct (cr !! filename) as [c|] eqn:E;
    try (rewrite bool_decide_eq_false_2 by (intros [? ?]; discriminate);
         eexists _, _; reflexivity);
    rewrite bool_decide_eq_true_2 by (now exists c);
    (destruct H as [H|(i & Hi & H)]; [discriminate|]).
  - lia.
  - apply IH. cbn [card queries]. destruct i as [|i].
    + left. now rewrite Nat.add_0_r in H.
    + right. exists i. split; [lia|].
      now replace (S q + i)%nat with (q + S i)%nat by lia.
Qed.

(** With a free name among the first draws the handler comes back. *)
Lemma Interrupt_returns fuel (m : Machine) :
  OPERATION_STATE m = READY_FOR_COUNTDOWN ->
  (exists i, (i <= fuel)%nat /\
     card m !! log_file_name (w_random W (S (queries m) + i) `mod` 100)
     = None) ->
  exists m', InterruptTestStartCommand W fuel m = Some (tt, m').
Proof.
  destruct m as [st ? ? ? ? ? ? ? ? ? pn cr fl q tr].
  cbn [OPERATION_STATE card queries]. intros -> (i & Hi & Hfree).
  fw_simpl.
  match goal with
  | |- context [CreateLogFile_while W fuel ?f ?m0] =>
      destruct (CreateLogFile_while_finds fuel f m0) as (r & m1 & Hw)
  end.
  { cbn [card queries]. destruct i as [|i].
    - left. now rewrite Nat.add_0_r in Hfree.
    - right. exists i. split; [lia|].
      now replace (S (S q) + i)%nat with (S q + S i)%nat by lia. }
  rewrite Hw. fw_simpl.
  fw_exec; eexists; reflexivity.
Qed.

Lemma string_app_assoc (a b c : string) : (a ++ b) ++ c = a ++ (b ++ c).
Proof.
  induction a as [|x a IH]; [reflexivity|].
  change (String x ((a ++ b) ++ c) = String x (a ++ (b ++ c))).
  now f_equal.
Qed.

Lemma relay_writes_app (l1 l2 : list io) :
  relay_writes (l1 ++ l2)%list = (relay_writes l1 ++ relay_writes l2)%list.
Proof. apply omap_app. Qed.

Lemma relay_writes_probes (probes : list io) :
  Forall (fun e => is_probe e = true) probes -> relay_writes probes = [].
Proof.
  induction 1 as [|e l He _ IH]; [reflexivity|].
  destruct e; try discriminate. exact IH.
Qed.

Lemma opened_probes (probes : list io) :
  Forall (fun e => is_probe e = true) probes -> opened probes = [].
Proof.
  induction 1 as [|e l He _ IH]; [reflexivity|].
  destruct e; try discriminate. exact IH.
Qed.

Lemma opened_app (l1 l2 : list io) :
  opened (l1 ++ l2)%list = (opened l1 ++ opened l2)%list.
Proof. apply omap_app. Qed.

(** The handler on an armed machine, field by field. *)
Lemma Interrupt_armed fuel (m m' : Machine) :
  OPERATION_STATE m = READY_FOR_COUNTDOWN ->
  InterruptTestStartCommand W fuel m = Some (tt, m') ->
  exists (r : string) (probes : list io) (q' : nat),
    card m !! r = None /\
    (exists k, (queries m < k < q')%nat /\
               r = log_file_name (w_random W k `mod` 100)) /\
    Forall (fun e => is_probe e = true) probes /\
    let ok := w_open W q' r in
    m' =
      {| OPERATION_STATE := if ok then COUNTDOWN else ERROR;
         CountdownActivatedTime := wrap32 (w_millis W (queries m));
         TestActivatedTime := TestActivatedTime m;
         Countdown := Countdown m;
         TestDuration := TestDuration m;
         ThermistorData0 := ThermistorData0 m;
         ThermistorData1 := ThermistorData1 m;
         LoadCellForceData := LoadCellForceData m;
         ErrorLog :=
           if ok then ErrorLog m
           else ErrorLog m ++ "STARTUP NOT SUCESSFUL | ";
         MainLoopPrev := MainLoopPrev m;
         pins := <[GPIO_LED_TEST_ACTIVE := HIGH]> (pins m);
         card :=
           if ok then <[r := telemetry_header]> (card m)
           else match File m with
                | Some name =>
                    alter (fun c => c ++ telemetry_header) name (card m)
                | None => card m
                end;
         File := if ok then Some r else File m;
         queries := S q';
         trace :=
           IoFileSync :: IoFilePrint telemetry_header :: IoFileOpen r ok
           :: (probes ++ IoDigitalWrite GPIO_LED_TEST_ACTIVE HIGH :: trace m)%list
      |}.
Proof.
  destruct m as [st ? ? ? ? ? ? ? ? ? pn cr fl q tr]; cbn [OPERATION_STATE].
  intros ->. fw_simpl.
  match goal with
  | |- context [CreateLogFile_while W fuel ?f ?m0] =>
      destruct (CreateLogFile_while W fuel f m0) as [[r m1]|] eqn:Hw
  end; [|discriminate].
  apply CreateLogFile_while_spec in Hw. revert Hw. fw_simpl.
  intros (Hr & probes & q' & Hq & Hn & Hp & ->). fw_simpl. intros H.
  exists r, probes, q'. split; [exact Hr|]. split.
  { destruct Hn as [->|(k & Hk & ->)].
    - exists (S q). split; [lia | reflexivity].
    - exists k. split; [lia | reflexivity]. }
  split; [exact Hp|]. cbv zeta. revert H. rewrite Hr.
  destruct (w_open W q' r); fw_simpl; intros [= <-].
  - rewrite alter_insert_eq. reflexivity.
  - reflexivity.
Qed.

Abbreviation Invariant := (Inv W String_of_float String_of_double).

Lemma Inv_setup (sd : gmap string string) (m : Machine) :
  setup W (power_on sd) = Some (tt, m) -> Invariant sd m.
Proof.
  unfold power_on. fw_exec; intros [= <-];
    (split; [reflexivity | reflexivity | discriminate | auto | ]);
    cbv [log_ok OPERATION_STATE]; auto.
Qed.

Lemma Inv_interrupt sd fuel (m m' : Machine) :
  Invariant sd m ->
  InterruptTestStartCommand W fuel m = Some (tt, m') ->
  Invariant sd m'.
Proof.
  intros HI H.
  destruct (decide (OPERATION_STATE m = READY_FOR_COUNTDOWN)) as [Hs|Hs].
  2:{ rewrite Interrupt_discarded in H by exact Hs. now injection H as <-. }
  destruct (Interrupt_armed _ _ _ Hs H) as (r & probes & q' & Hr & _ & Hp & ->).
  destruct HI as [Hrel Hpin _ Hf Hlog].
  rewrite Hs in Hrel, Hf. unfold log_ok in Hlog. rewrite Hs in Hlog.
  destruct Hlog as (Hop & Hfile & Hcard).
  assert (Hrw : relay_writes
                  (probes ++ IoDigitalWrite GPIO_LED_TEST_ACTIVE HIGH
                          :: trace m)%list = []).
  { rewrite relay_writes_app, relay_writes_probes by exact Hp. exact Hrel. }
  assert (How : opened
                  (probes ++ IoDigitalWrite GPIO_LED_TEST_ACTIVE HIGH
                          :: trace m)%list = []).
  { rewrite opened_app, opened_probes by exact Hp. exact Hop. }
  assert (Hpin' : <[GPIO_LED_TEST_ACTIVE := HIGH]> (pins m)
                    !! GPIO_RELAY_TOGGLE = None).
  { rewrite lookup_insert_ne by discriminate. now rewrite Hpin, Hrel. }
  destruct Hf as [Hf|Hf]; [|discriminate].
  destruct (w_open W q' r) eqn:Hopen; cbv zeta; split;
    cbn [OPERATION_STATE trace pins ErrorLog relay_log_of];
    try discriminate; auto;
    try (change (relay_writes (?a :: ?b :: ?c :: ?l))
           with (relay_writes l); rewrite Hrw; auto).
  - unfold log_ok. cbn [OPERATION_STATE trace File card].
    exists r, "". split; [|split; [reflexivity|split; [|split]]].
    + change (opened (?a :: ?b :: IoFileOpen r true :: ?l))
        with (r :: opened l). now rewrite How.
    + now rewrite <- Hcard.
    + rewrite lookup_insert_eq. reflexivity.
    + constructor.
  - unfold log_ok. cbn [OPERATION_STATE trace File card]. split; [|exact Hfile].
    change (opened (?a :: ?b :: IoFileOpen r false :: ?l))
      with (opened l). exact How.
Qed.

Lemma relay_writes_cons (e : io) (l : list io) :
  relay_writes (e :: l) =
  match relay_write e with
  | Some x => x :: relay_writes l
  | None => relay_writes l
  end.
Proof. reflexivity. Qed.

Lemma opened_cons (e : io) (l : list io) :
  opened (e :: l) =
  match opened_name e with
  | Some x => x :: opened l
  | None => opened l
  end.
Proof. reflexivity. Qed.

Lemma logged_line (cr : gmap string string) (name body line : string) :
  cr !! name = Some (telemetry_header ++ body) ->
  alter (fun c => c ++ line) name cr !! name
  = Some (telemetry_header ++ (body ++ line)).
Proof.
  intros H. rewrite lookup_alter_eq, H. cbn [fmap option_fmap option_map].
  now rewrite string_app_assoc.
Qed.

Ltac fw_obs :=
  cbn [OPERATION_STATE trace pins ErrorLog File card relay_log_of];
  rewrite ?relay_writes_cons, ?opened_cons;
  cbv beta iota delta [relay_write opened_name]; fw_decide; cbv beta iota.

Lemma Inv_tick sd (m m' : Machine) :
  Invariant sd m -> Tick m = Some (tt, m') -> Invariant sd m'.
Proof.
  intros [Hrel Hpin Hst Hf Hlog].
  destruct m as [st ? ? ? ? ? ? ? ? ? pn cr fl q tr].
  unfold log_ok in Hlog.
  cbn [OPERATION_STATE trace pins ErrorLog File card] in *.
  destruct st; try congruence; cbn [relay_log_of] in Hrel;
    try destruct Hlog as (name & body & Hop & -> & Hsd & Hcard & Hrec);
    fw_exec; intros [= <-];
    (split; [fw_obs; try rewrite Hrel; try reflexivity
            |fw_obs; try rewrite Hrel; cbn [head];
             rewrite ?lookup_insert_eq; try reflexivity;
             try (rewrite Hpin, Hrel; reflexivity)
            |fw_obs; discriminate
            |fw_obs; destruct Hf as [Hf|Hf];
             [left; exact Hf | try discriminate; right; reflexivity]
            |unfold log_ok; fw_obs; rewrite ?Hop;
             try (destruct Hlog as (? & ?); now auto);
             try (destruct Hlog as (? & ? & ?); now auto);
             try (exists name, body; now auto);
             try (eexists name, _;
                  split; [reflexivity|]; split; [reflexivity|];
                  split; [exact Hsd|]; split;
                  [apply logged_line; exact Hcard
                  |apply records_snoc; exact Hrec])]).
Qed.

Lemma Inv_loop sd (m m' : Machine) :
  Invariant sd m -> Loop m = Some (tt, m') -> Invariant sd m'.
Proof.
  intros HI. unfold loop, bind at 1, millis, ask, bind at 1, ret.
  unfold bind at 1, gets.
  destruct (F32.leb _ _).
  - apply Inv_tick. destruct HI; split; assumption.
  - intros [= <-]. destruct HI; split; assumption.
Qed.

Lemma Inv_step sd (m : Machine) (e : event) (m' : Machine) :
  Invariant sd m -> Step m e m' -> Invariant sd m'.
Proof.
  intros HI [fuel H]. destruct e; cbn [handle] in H.
  - eapply Inv_loop; eassumption.
  - eapply Inv_interrupt; eassumption.
Qed.

Lemma Inv_reachable sd (m : Machine) : Reachable sd m -> Invariant sd m.
Proof.
  induction 1 as [m H|m e m' _ IH H].
  - apply Inv_setup, H.
  - eapply Inv_step; eassumption.
Qed.

(** *** Runs stay inside the reachable states *)

Lemma Steps_reachable sd (es : list event) :
  forall m m' : Machine, Reachable sd m -> Steps m es m' -> Reachable sd m'.
Proof.
  induction es as [|e es IH]; cbn [steps]; intros m m' Hm H.
  - now subst.
  - destruct H as (m1 & H1 & H). apply (IH m1); [|exact H].
    eapply reachable_step; eassumption.
Qed.

Lemma run_Steps fuel (es : list event) :
  forall m m' : Machine,
    run W String_of_float String_of_double steinhart_hart fuel es m
    = Some (tt, m') ->
    Steps m es m'.
Proof.
  induction es as [|e es IH]; cbn [run steps]; intros m m'.
  - now intros [= <-].
  - unfold bind.
    destruct (Handle fuel e m) as [[[] m1]|] eqn:H1; [|discriminate].
    intros H. exists m1. split; [now exists fuel | now apply IH].
Qed.

Lemma run_reachable sd fuel (es : list event) (m : Machine) :
  (setup W ;; run W String_of_float String_of_double steinhart_hart fuel es)
    (power_on sd) = Some (tt, m) ->
  Reachable sd m.
Proof.
  unfold bind at 1.
  destruct (setup W (power_on sd)) as [[[] m0]|] eqn:H0; [|discriminate].
  intros H. apply (Steps_reachable sd es m0).
  - now apply reachable_setup.
  - eapply run_Steps, H.
Qed.

(** *** The relay *)

(** C1. Relay safety: in every state that [setup] followed by any
    sequence of [loop] iterations and start-button interrupts can reach,
    the relay is engaged -- [ToggleRelay(true)] was called and
    [ToggleRelay(false)] has not been called since -- only in
    [TEST_ACTIVE]; it is not engaged in [STARTUP], [ERROR],
    [READY_FOR_COUNTDOWN], [COUNTDOWN] or [POST_TEST]. *)
Theorem relay_engaged_only_in_test sd (m : Machine) :
  Reachable sd m ->
  (engaged (trace m) = true -> OPERATION_STATE m = TEST_ACTIVE) /\
  (OPERATION_STATE m ∈
     [STARTUP; ERROR; READY_FOR_COUNTDOWN; COUNTDOWN; POST_TEST] ->
   engaged (trace m) = false).
Proof.
  intros Hm. apply Inv_reachable in Hm. destruct Hm as [Hrel _ _ _ _].
  unfold engaged. rewrite Hrel.
  destruct (OPERATION_STATE m); cbn [relay_log_of]; split;
    try discriminate; try reflexivity.
  intros H. exfalso. revert H. rewrite !elem_of_cons, elem_of_nil.
  intuition discriminate.
Qed.

(** *** The states a step can lead to *)

Lemma Tick_state (m m' : Machine) :
  Tick m = Some (tt, m') ->
  match OPERATION_STATE m with
  | COUNTDOWN =>
      OPERATION_STATE m' = COUNTDOWN \/ OPERATION_STATE m' = TEST_ACTIVE
  | TEST_ACTIVE =>
      OPERATION_STATE m' = TEST_ACTIVE \/ OPERATION_STATE m' = POST_TEST
  | s => OPERATION_STATE m' = s
  end.
Proof.
  destruct m as [st ? ? ? ? ? ? ? ? ? ? ? ? ? ?].
  destruct st; fw_exec; intros [= <-]; cbn [OPERATION_STATE]; auto.
Qed.

Lemma Loop_state (m m' : Machine) :
  Loop m = Some (tt, m') ->
  match OPERATION_STATE m with
  | COUNTDOWN =>
      OPERATION_STATE m' = COUNTDOWN \/ OPERATION_STATE m' = TEST_ACTIVE
  | TEST_ACTIVE =>
      OPERATION_STATE m' = TEST_ACTIVE \/ OPERATION_STATE m' = POST_TEST
  | s => OPERATION_STATE m' = s
  end.
Proof.
  unfold loop, bind at 1, millis, ask, bind at 1, ret.
  unfold bind at 1, gets.
  destruct (F32.leb _ _).
  - intros H. apply Tick_state in H. exact H.
  - intros [= <-]. cbn [OPERATION_STATE set_queries].
    destruct (OPERATION_STATE m); auto.
Qed.

Lemma Interrupt_state fuel (m m' : Machine) :
  InterruptTestStartCommand W fuel m = Some (tt, m') ->
  match OPERATION_STATE m with
  | READY_FOR_COUNTDOWN =>
      OPERATION_STATE m' = COUNTDOWN \/ OPERATION_STATE m' = ERROR
  | s => OPERATION_STATE m' = s
  end.
Proof.
  intros H.
  destruct (decide (OPERATION_STATE m = READY_FOR_COUNTDOWN)) as [Hs|Hs].
  - rewrite Hs.
    destruct (Interrupt_armed _ _ _ Hs H) as (r & ? & q' & _ & _ & _ & ->).
    cbn. destruct (w_open W q' r); auto.
  - rewrite Interrupt_discarded in H by exact Hs. injection H as <-.
    destruct (OPERATION_STATE m); congruence.
Qed.

Lemma Step_after_test (m : Machine) (e : event) (m' : Machine) :
  OPERATION_STATE m = TEST_ACTIVE \/ OPERATION_STATE m = POST_TEST ->
  Step m e m' ->
  OPERATION_STATE m' = TEST_ACTIVE \/ OPERATION_STATE m' = POST_TEST.
Proof.
  intros Hs [fuel H]. destruct e; cbn [handle] in H.
  - apply Loop_state in H. destruct Hs as [Hs|Hs]; rewrite Hs in H; tauto.
  - apply Interrupt_state in H.
    destruct Hs as [Hs|Hs]; rewrite Hs in H; tauto.
Qed.

Lemma Steps_after_test (es : list event) :
  forall m m' : Machine,
    OPERATION_STATE m = TEST_ACTIVE \/ OPERATION_STATE m = POST_TEST ->
    Steps m es m' ->
    OPERATION_STATE m' = TEST_ACTIVE \/ OPERATION_STATE m' = POST_TEST.
Proof.
  induction es as [|e es IH]; cbn [steps]; intros m m' Hs H.
  - now subst.
  - destruct H as (m1 & H1 & H). apply (IH m1); [|exact H].
    eapply Step_after_test; eassumption.
Qed.

(** *** The start button *)

(** C3. An arm event outside [READY_FOR_COUNTDOWN] is discarded: delivered
    once or any number of times in a state other than
    [READY_FOR_COUNTDOWN], the handler returns and leaves the whole
    machine as it was, so neither the state nor [CountdownActivatedTime]
    changes and no file is probed or opened; and an arm event changes
    the state only when the state is [READY_FOR_COUNTDOWN] (to
    [COUNTDOWN], or to [ERROR] when the log file does not open). *)
Theorem arm_event_guard (m : Machine) (n : nat) :
  OPERATION_STATE m <> READY_FOR_COUNTDOWN ->
  Steps m (replicate n EvInterrupt) m /\
  (forall m', Steps m (replicate n EvInterrupt) m' -> m' = m) /\
  (forall m0 m1 : Machine,
      Step m0 EvInterrupt m1 ->
      OPERATION_STATE m1 <> OPERATION_STATE m0 ->
      OPERATION_STATE m0 = READY_FOR_COUNTDOWN /\
      (OPERATION_STATE m1 = COUNTDOWN \/ OPERATION_STATE m1 = ERROR)).
Proof.
  intros Hs. split; [|split].
  - induction n as [|n IH]; cbn [replicate steps]; [reflexivity|].
    exists m. split; [|exact IH]. exists 0%nat. cbn [handle].
    now apply Interrupt_discarded.
  - induction n as [|n IH]; cbn [replicate steps]; intros m' H.
    + exact H.
    + destruct H as (m1 & [fuel H1] & H). cbn [handle] in H1.
      rewrite Interrupt_discarded in H1 by exact Hs. injection H1 as <-.
      now apply IH.
  - intros m0 m1 [fuel H] Hne. cbn [handle] in H.
    apply Interrupt_state in H.
    destruct (OPERATION_STATE m0); try congruence. auto.
Qed.

(** *** Fault *)

Lemma pinned_refl (m : Machine) : OPERATION_STATE m = ERROR -> pinned m m.
Proof.
  intros Hs. repeat (split; [assumption || reflexivity|]).
  exists []. split; [reflexivity | constructor].
Qed.

Lemma pinned_trans (m1 m2 m3 : Machine) :
  pinned m1 m2 -> pinned m2 m3 -> pinned m1 m3.
Proof.
  intros (_ & Hl & Hv & Hc & Hp & Hf & fr & Ht & Hfr)
         (Hs' & Hl' & Hv' & Hc' & Hp' & Hf' & fr' & Ht' & Hfr').
  repeat (split; [congruence|]).
  exists (fr' ++ fr)%list. split.
  - unfold calls_between in *. rewrite Ht', Ht. apply app_assoc.
  - apply Forall_app. split; [|exact Hfr]. now rewrite <- Hl.
Qed.

Lemma pinned_step (m : Machine) (e : event) (m' : Machine) :
  OPERATION_STATE m = ERROR -> Step m e m' -> pinned m m'.
Proof.
  intros Hs [fuel H]. destruct e; cbn [handle] in H.
  - destruct m as [st ? ? ? ? ? ? ? el ? ? ? ? ? tr].
    cbn [OPERATION_STATE] in Hs. subst st. revert H.
    fw_exec; intros [= <-]; unfold pinned, latest_sample, calls_between;
      cbn [OPERATION_STATE ErrorLog LoadCellForceData ThermistorData0
           ThermistorData1 card pins File trace];
      repeat (split; [reflexivity|]).
    + eexists [_]. split; [reflexivity|]. repeat constructor.
      eexists. split; [reflexivity|]. split; reflexivity.
    + exists []. split; [reflexivity | constructor].
  - rewrite Interrupt_discarded in H by (rewrite Hs; discriminate).
    injection H as <-. now apply pinned_refl.
Qed.

Lemma pinned_Steps (es : list event) :
  forall m m' : Machine,
    OPERATION_STATE m = ERROR -> Steps m es m' -> pinned m m'.
Proof.
  induction es as [|e es IH]; cbn [steps]; intros m m' Hs H.
  - subst. now apply pinned_refl.
  - destruct H as (m1 & H1 & H). apply pinned_step in H1; [|exact Hs].
    apply (pinned_trans m m1 m'); [exact H1|].
    apply IH; [|exact H]. now destruct H1.
Qed.

Lemma fault_never_hangs (es : list event) :
  forall m : Machine, OPERATION_STATE m = ERROR -> exists m', Steps m es m'.
Proof.
  induction es as [|e es IH]; cbn [steps]; intros m Hs.
  - now exists m.
  - assert (exists m1, Step m e m1) as [m1 H1].
    { destruct e.
      - destruct (loop_total m) as [m1 H]. exists m1. now exists 0%nat.
      - exists m, 0%nat. cbn [handle]. apply Interrupt_discarded.
        rewrite Hs. discriminate. }
    destruct (IH m1) as [m' H].
    + now destruct (pinned_step _ _ _ Hs H1).
    + exists m', m1. auto.
Qed.

(** C8. Fault pinning: once [ErrorLog] is non-empty the state is [ERROR],
    and through every later sequence of [loop] iterations and arm events
    -- each of which returns -- the state stays [ERROR], the error log,
    the sample, the card, the pins and the log file stay as they are, and
    the only calls made draw the fault screen: no sensor is read, nothing
    is logged and the relay is not driven. *)
Theorem fault_pinned sd (m : Machine) (es : list event) :
  Reachable sd m ->
  ErrorLog m <> "" ->
  OPERATION_STATE m = ERROR /\
  (exists m', Steps m es m') /\
  (forall m', Steps m es m' ->
     pinned m m' /\
     forall calls, calls_between m m' calls ->
       Forall (fun e => is_display e = true /\ is_sensor_read e = false /\
                        is_log_call e = false /\ relay_write e = None)
         calls).
Proof.
  intros Hm Hlog. apply Inv_reachable in Hm. destruct Hm as [_ _ _ Hf _].
  destruct Hf as [Hf|Hs]; [contradiction|].
  split; [exact Hs|]. split; [now apply fault_never_hangs|].
  intros m' H. apply pinned_Steps in H; [|exact Hs]. split; [exact H|].
  destruct H as (_ & _ & _ & _ & _ & _ & frames & Ht & Hfr).
  intros calls Hc. unfold calls_between in *. rewrite Ht in Hc.
  apply app_inv_tail in Hc. subst calls.
  eapply Forall_impl; [exact Hfr|].
  intros e (f & -> & _). cbn. auto.
Qed.

(** C2 as the code has it. A transition into [ERROR] -- out of [setup]
    when the card or the load cell fails, or out of the arm event when
    the log file does not open -- starts in [STARTUP] or
    [READY_FOR_COUNTDOWN], appends its reason to [ErrorLog], and makes no
    call to [ToggleRelay]: the relay pin is written neither during the
    transition nor at any time before it. *)
Theorem fault_entry_leaves_relay_alone sd (m m' : Machine) :
  transition W String_of_float String_of_double steinhart_hart sd m m' ->
  OPERATION_STATE m <> ERROR ->
  OPERATION_STATE m' = ERROR ->
  (OPERATION_STATE m = STARTUP \/
   OPERATION_STATE m = READY_FOR_COUNTDOWN) /\
  (exists reason, reason <> "" /\ ErrorLog m' = ErrorLog m ++ reason) /\
  (exists calls, calls_between m m' calls /\ relay_writes calls = []) /\
  relay_writes (trace m') = [] /\
  pins m' !! GPIO_RELAY_TOGGLE = None.
Proof.
  intros Ht Hs Hs'.
  assert (HI : Invariant sd m').
  { destruct Ht as [m0 H|m0 e m0' Hr H].
    - now apply Inv_setup.
    - eapply Inv_step; [apply Inv_reachable|]; eassumption. }
  destruct HI as [Hrel Hpin _ _ _]. rewrite Hs' in Hrel.
  cbn [relay_log_of] in Hrel. rewrite Hrel in Hpin.
  assert (Hcalls : forall calls, calls_between m m' calls ->
                     relay_writes calls = []).
  { intros calls Hc. unfold calls_between in Hc. rewrite Hc in Hrel.
    rewrite relay_writes_app in Hrel. now apply app_eq_nil in Hrel. }
  destruct Ht as [m0 H|m0 e m0' Hr [fuel H]].
  - split; [now left|]. revert H Hs' Hcalls. unfold power_on.
    fw_exec; intros [= <-]; cbn [OPERATION_STATE ErrorLog trace];
      try discriminate; intros _ Hcalls;
      (split; [eexists; split; [|reflexivity]; discriminate|]);
      (split; [eexists; split; [unfold calls_between;
                                cbn [trace]; symmetry; apply app_nil_r
                               |apply Hcalls; unfold calls_between;
                                cbn [trace]; symmetry; apply app_nil_r]|]);
      auto.
  - destruct e; cbn [handle] in H.
    + apply Loop_state in H. destruct (OPERATION_STATE m0);
        try destruct H as [H|H]; congruence.
    + destruct (decide (OPERATION_STATE m0 = READY_FOR_COUNTDOWN))
        as [Hready|Hready].
      2:{ rewrite Interrupt_discarded in H by exact Hready.
          injection H as <-. contradiction. }
      split; [now right|].
      destruct (Interrupt_armed _ _ _ Hready H)
        as (r & probes & q' & _ & _ & _ & ->).
      revert Hs' Hcalls. cbv zeta.
      destruct (w_open W q' r); cbn [OPERATION_STATE ErrorLog trace];
        [discriminate|]. intros _ Hcalls.
      split; [eexists; split; [|reflexivity]; discriminate|].
      split; [|auto].
      eexists (_ :: _ :: _ :: probes ++ [_])%list.
      split; [unfold calls_between; cbn [trace app];
              now rewrite <- app_assoc|].
      apply Hcalls. unfold calls_between. cbn [trace app].
      now rewrite <- app_assoc.
Qed.

(** C9. The relay is driven active-low and is not driven before the
    test: [ToggleRelay(true)] writes [LOW] to the relay pin and
    [ToggleRelay(false)] writes [HIGH]; in every reachable state that
    precedes [BeginTest] -- [READY_FOR_COUNTDOWN], [COUNTDOWN], and
    [ERROR] however it was entered -- no write to the relay pin has been
    made, by [setup] or by anything after it, so the pin stands at the
    reset value of its latch, [LOW], which is the level that engages;
    and the first write the pin ever sees is the [LOW] of [BeginTest]. *)
Theorem relay_pin_untouched_before_test sd (m : Machine) :
  Reachable sd m ->
  (forall (Status : bool) (m0 : Machine),
      let l := if Status then LOW else HIGH in
      ToggleRelay Status m0 =
      Some (tt, set_pins (<[GPIO_RELAY_TOGGLE := l]> (pins m0))
                  (set_trace (IoDigitalWrite GPIO_RELAY_TOGGLE l :: trace m0)
                     m0))) /\
  (OPERATION_STATE m <> TEST_ACTIVE -> OPERATION_STATE m <> POST_TEST ->
   relay_writes (trace m) = [] /\
   pins m !! GPIO_RELAY_TOGGLE = None /\
   relay_level m = LOW) /\
  (OPERATION_STATE m = TEST_ACTIVE \/ OPERATION_STATE m = POST_TEST ->
   last (relay_writes (trace m)) = Some LOW).
Proof.
  intros Hm. split; [|split].
  - intros [] m0; reflexivity.
  - intros H1 H2. apply Inv_reachable in Hm. destruct Hm as [Hrel Hpin _ _ _].
    unfold relay_level. rewrite Hpin, Hrel.
    destruct (OPERATION_STATE m); try congruence; auto.
  - intros H. apply Inv_reachable in Hm. destruct Hm as [Hrel _ _ _ _].
    rewrite Hrel. destruct H as [-> | ->]; reflexivity.
Qed.

(** *** The interrupt handler *)

(** C4 as the code has it. The handler of the start button does the
    arming itself, and there is no pending flag. Outside
    [READY_FOR_COUNTDOWN] it returns and changes nothing. In
    [READY_FOR_COUNTDOWN] it returns as soon as a drawn name is free, and
    then it has lit the LED, stored [millis()] in
    [CountdownActivatedTime], probed the card, opened the file of the
    free name, printed the header and set the state to [COUNTDOWN], or to
    [ERROR] with a reason when the file did not open. An iteration of
    [loop] in [READY_FOR_COUNTDOWN] returns and leaves the state, the
    timestamp, the card and the log file alone. *)
Theorem handler_arms_in_place fuel (m : Machine) :
  (OPERATION_STATE m <> READY_FOR_COUNTDOWN ->
   InterruptTestStartCommand W fuel m = Some (tt, m)) /\
  (OPERATION_STATE m = READY_FOR_COUNTDOWN ->
   ((exists i, (i <= fuel)%nat /\
       card m !! log_file_name (w_random W (S (queries m) + i) `mod` 100)
       = None) ->
    exists m', InterruptTestStartCommand W fuel m = Some (tt, m')) /\
   (forall m', InterruptTestStartCommand W fuel m = Some (tt, m') ->
      exists (r : string) (probes : list io) (q' : nat),
        card m !! r = None /\
        Forall (fun e => is_probe e = true) probes /\
        let ok := w_open W q' r in
        OPERATION_STATE m' = (if ok then COUNTDOWN else ERROR) /\
        CountdownActivatedTime m' = wrap32 (w_millis W (queries m)) /\
        ErrorLog m' =
          (if ok then ErrorLog m
           else ErrorLog m ++ "STARTUP NOT SUCESSFUL | ") /\
        pins m' = <[GPIO_LED_TEST_ACTIVE := HIGH]> (pins m) /\
        File m' = (if ok then Some r else File m) /\
        (ok = true -> card m' = <[r := telemetry_header]> (card m)) /\
        calls_between m m'
          (IoFileSync :: IoFilePrint telemetry_header :: IoFileOpen r ok
           :: probes ++ [IoDigitalWrite GPIO_LED_TEST_ACTIVE HIGH])%list) /\
   exists m',
     Loop m = Some (tt, m') /\
     OPERATION_STATE m' = READY_FOR_COUNTDOWN /\
     CountdownActivatedTime m' = CountdownActivatedTime m /\
     card m' = card m /\
     File m' = File m /\
     opened (trace m') = opened (trace m)).
Proof.
  split; [apply Interrupt_discarded|]. intros Hs.
  split; [now apply Interrupt_returns|]. split.
  - intros m' H.
    destruct (Interrupt_armed _ _ _ Hs H)
      as (r & probes & q' & Hr & _ & Hp & ->).
    exists r, probes, q'. split; [exact Hr|]. split; [exact Hp|].
    cbv zeta. unfold calls_between.
    cbn [OPERATION_STATE CountdownActivatedTime ErrorLog pins File card
         trace].
    repeat (split; [reflexivity|]). split; [now intros ->|].
    cbn [app]. now rewrite <- app_assoc.
  - destruct m as [st ? ? ? ? ? ? ? ? ? ? ? ? ? ?].
    cbn [OPERATION_STATE] in Hs. subst st.
    fw_exec; eexists; repeat split.
Qed.

(** *** Countdown *)

Lemma engagements_of_state sd (m : Machine) :
  Invariant sd m ->
  engagements (trace m) =
  match OPERATION_STATE m with
  | TEST_ACTIVE | POST_TEST => 1%nat
  | _ => 0%nat
  end.
Proof.
  intros [Hrel _ _ _ _]. unfold engagements. rewrite Hrel.
  destruct (OPERATION_STATE m); reflexivity.
Qed.

Lemma Loop_due (m : Machine) :
  tick_due W m = true -> Loop m = Tick (set_queries (S (queries m)) m).
Proof.
  unfold tick_due. intros H.
  unfold loop, bind at 1, millis, ask, bind at 1, ret.
  unfold bind at 1, gets. cbn [MainLoopPrev set_queries]. now rewrite H.
Qed.

(** The block of [loop] in [COUNTDOWN]: the elapsed time it finds
    decides, and [BeginTest] is the only writer of the relay pin. *)
Lemma Tick_countdown (m : Machine) :
  OPERATION_STATE m = COUNTDOWN ->
  let d := seconds_since (wrap32 (w_millis W (4 + queries m)))
             (CountdownActivatedTime m) in
  exists m' calls,
    Tick m = Some (tt, m') /\
    Countdown m' = d /\
    calls_between m m' calls /\
    (if F32.ltb d (F32.of_Z TEST_COUNTDOWN_SECONDS)
     then OPERATION_STATE m' = COUNTDOWN /\ relay_writes calls = []
     else OPERATION_STATE m' = TEST_ACTIVE /\ relay_writes calls = [LOW]).
Proof.
  destruct m as [st cat ? ? ? ? ? ? ? ? ? ? ? q tr].
  cbn [OPERATION_STATE queries CountdownActivatedTime Nat.add].
  intros ->. cbv zeta. unfold calls_between.
  fw_step; fw_decide; fw_step.
  destruct (w_loadcell W (S (S q))); fw_simpl;
    destruct (F32.ltb _ _); fw_simpl.
  - eexists _, (_ :: _ :: _ :: _ :: _ :: [_]).
    repeat (split; [reflexivity|]). split; reflexivity.
  - eexists _, (_ :: _ :: _ :: _ :: _ :: _ :: [_]).
    repeat (split; [reflexivity|]). split; reflexivity.
  - eexists _, (_ :: _ :: _ :: _ :: _ :: [_]).
    repeat (split; [reflexivity|]). split; reflexivity.
  - eexists _, (_ :: _ :: _ :: _ :: _ :: _ :: [_]).
    repeat (split; [reflexivity|]). split; reflexivity.
Qed.

(** An iteration of [loop] that runs its block in [COUNTDOWN], in terms
    of the value [d] that [DetectCountdownEnd] computes from the two
    readings of the clock it has, [float(millis() - CountdownActivatedTime)
    / 1000.f]. Either [d < 30] or [30 <= d], and [d < 30] exactly when
    the difference of the readings, taken in [uint64_t], is below 30000.
    With [d < 30] the state stays [COUNTDOWN] and the relay has not been
    engaged; with [30 <= d] the state becomes [TEST_ACTIVE] and
    [ToggleRelay(true)] is called once. Whatever follows, the state does
    not come back to [COUNTDOWN] and the relay is never engaged a second
    time. *)
Lemma Loop_countdown sd (m : Machine) :
  Reachable sd m ->
  OPERATION_STATE m = COUNTDOWN ->
  tick_due W m = true ->
  let d := seconds_since (wrap32 (w_millis W (5 + queries m)))
             (CountdownActivatedTime m) in
  let limit := F32.of_Z TEST_COUNTDOWN_SECONDS in
  exists m',
    Loop m = Some (tt, m') /\
    Countdown m' = d /\
    (F32.ltb d limit = true \/ F32.leb limit d = true) /\
    (F32.ltb d limit = true <->
     wrap64 (wrap32 (w_millis W (5 + queries m)) - CountdownActivatedTime m)
     < 30000) /\
    (F32.ltb d limit = true ->
     OPERATION_STATE m' = COUNTDOWN /\ engagements (trace m') = 0%nat) /\
    (F32.leb limit d = true ->
     OPERATION_STATE m' = TEST_ACTIVE /\
     engagements (trace m') = 1%nat /\
     exists calls, calls_between m m' calls /\ relay_writes calls = [LOW]) /\
    (forall es m'',
        Steps m' es m'' ->
        (engagements (trace m'') <= 1)%nat /\
        (OPERATION_STATE m' = TEST_ACTIVE ->
         OPERATION_STATE m'' <> COUNTDOWN /\
         engagements (trace m'') = 1%nat)).
Proof.
  intros Hm Hs Hdue d limit.
  destruct (Tick_countdown (set_queries (S (queries m)) m) Hs)
    as (m' & calls & Htick & Hd & Hcalls & Hcase).
  rewrite <- (Loop_due m Hdue) in Htick.
  change (calls_between m m' calls) in Hcalls.
  change (Countdown m' = d) in Hd.
  change (if F32.ltb d limit
          then OPERATION_STATE m' = COUNTDOWN /\ relay_writes calls = []
          else OPERATION_STATE m' = TEST_ACTIVE /\
               relay_writes calls = [LOW]) in Hcase.
  exists m'. split; [exact Htick|]. split; [exact Hd|].
  assert (Hm' : Reachable sd m').
  { apply (reachable_step _ _ _ _ _ m EvLoop); [exact Hm|now exists 0%nat]. }
  pose proof (engagements_of_state sd m' (Inv_reachable sd m' Hm')) as He.
  split; [|split; [|split; [|split]]].
  - apply F32_ltb_or_leb; [apply seconds_since_not_nan|apply of_Z_not_nan].
  - subst d limit. rewrite countdown_limit_in_milliseconds.
    apply Z.ltb_lt.
  - intros Hlt. rewrite Hlt in Hcase. destruct Hcase as [Hs' _].
    rewrite Hs' in He. auto.
  - intros Hle. apply F32_leb_ltb in Hle. rewrite Hle in Hcase.
    destruct Hcase as [Hs' Hw]. rewrite Hs' in He.
    split; [exact Hs'|]. split; [exact He|]. now exists calls.
  - intros es m'' H.
    pose proof (Steps_reachable sd es m' m'' Hm' H) as HI.
    apply Inv_reachable in HI.
    rewrite (engagements_of_state sd m'' HI). split.
    + destruct (OPERATION_STATE m''); lia.
    + intros E.
      destruct (Steps_after_test es m' m'' (or_introl E) H) as [-> | ->];
        (split; [discriminate | reflexivity]).
Qed.

(** *** Sampling and display *)

Ltac pick_calls :=
  first
    [ eexists _, []; split; [reflexivity|]; split; [reflexivity|]
    | eexists _, [_]; split; [reflexivity|]; split; [reflexivity|]
    | eexists _, [_; _]; split; [reflexivity|]; split; [reflexivity|]
    | eexists _, [_; _; _]; split; [reflexivity|]; split; [reflexivity|]
    | eexists _, [_; _; _; _]; split; [reflexivity|]; split; [reflexivity|]
    | eexists _, [_; _; _; _; _];
      split; [reflexivity|]; split; [reflexivity|]
    | eexists _, [_; _; _; _; _; _];
      split; [reflexivity|]; split; [reflexivity|]
    | eexists _, [_; _; _; _; _; _; _];
      split; [reflexivity|]; split; [reflexivity|]
    | eexists _, [_; _; _; _; _; _; _; _];
      split; [reflexivity|]; split; [reflexivity|]
    | eexists _, [_; _; _; _; _; _; _; _; _];
      split; [reflexivity|]; split; [reflexivity|] ].

(** C5 as the code has it. Every run of the block of [loop] returns and
    first draws the display, from the state, the error log and the
    sample as the previous run left them; it draws it once. After that,
    in [READY_FOR_COUNTDOWN], [COUNTDOWN], [TEST_ACTIVE] and [POST_TEST]
    both thermistors are read and stored, the load cell is polled, and
    the force is stored when the load cell has a new conversion; in
    [STARTUP] and [ERROR] no sensor is read and the sample stays as it
    was. *)
Theorem tick_display_then_sample (m : Machine) :
  exists m' later,
    Tick m = Some (tt, m') /\
    calls_between m m'
      (later ++ [IoDisplay (render String_of_float m)])%list /\
    Forall (fun e => is_display e = false) later /\
    match OPERATION_STATE m with
    | STARTUP | ERROR => later = [] /\ latest_sample m' = latest_sample m
    | _ =>
        IoAnalogRead GPIO_THERMISTOR_1 ∈ later /\
        IoAnalogRead GPIO_THERMISTOR_2 ∈ later /\
        IoLoadCellUpdate ∈ later /\
        ThermistorData0 m' =
          steinhart_hart (w_analog W (queries m) GPIO_THERMISTOR_1)
            THERMISTOR_1_RESISTANCE 40 /\
        ThermistorData1 m' =
          steinhart_hart (w_analog W (S (queries m)) GPIO_THERMISTOR_2)
            THERMISTOR_2_RESISTANCE 40 /\
        LoadCellForceData m' =
          match w_loadcell W (S (S (queries m))) with
          | Some data => F32.div data (F32.of_Z 100000)
          | None => LoadCellForceData m
          end
    end.
Proof.
  destruct m as [st ? ? ? ? ? ? ? ? ? ? ? ? q tr].
  unfold calls_between, latest_sample.
  destruct st; cbn [OPERATION_STATE queries trace LoadCellForceData];
    fw_step; fw_decide; fw_step;
    try (destruct (w_loadcell W (S (S q))); fw_simpl);
    try (destruct (F32.ltb _ _); fw_simpl);
    pick_calls;
    (split; [repeat constructor|]);
    rewrite ?elem_of_cons; repeat split; auto 10.
Qed.

(** *** The log file *)

(** C7 as the code has it. A file the firmware has opened did not exist
    when the power came on, and holds the header line
    "Time (s), Force (N), Temperature #1 (*C), Temperature #2 (*C)" once,
    at its head, followed by the lines of [LogTestData] and nothing
    else; the firmware opens at most one file. Every call of
    [LogTestData] makes one line: [millis() / 1000.f], the seconds since
    the processor started and not since the countdown did, then the
    force and the two temperatures, separated by a comma and a space,
    and a line feed. *)
Theorem log_holds_header_then_records sd (m : Machine) (name : string) :
  Reachable sd m ->
  name ∈ opened (trace m) ->
  (sd !! name = None /\
   opened (trace m) = [name] /\
   exists body,
     card m !! name = Some (telemetry_header ++ body) /\
     records W String_of_float String_of_double body) /\
  (forall m0 : Machine,
      let t := wrap32 (w_millis W (queries m0)) in
      let line :=
        String_of_float (F32.div (F32.of_Z t) (F32.of_Z 1000)) ++ ", " ++
        String_of_double (LoadCellForceData m0) ++ ", " ++
        String_of_double (ThermistorData0 m0) ++ ", " ++
        String_of_double (ThermistorData1 m0) ++ LF in
      exists m1,
        LogTestData W String_of_float String_of_double m0 = Some (tt, m1) /\
        calls_between m0 m1 [IoFileSync; IoFilePrint line]).
Proof.
  intros Hm Hin. split.
  - apply Inv_reachable in Hm. destruct Hm as [_ _ _ _ Hlog].
    unfold log_ok in Hlog.
    destruct (OPERATION_STATE m);
      try (destruct Hlog as (Hop & _); rewrite Hop in Hin;
           now apply elem_of_nil in Hin);
      destruct Hlog as (name' & body & Hop & _ & Hsd & Hcard & Hrec);
      rewrite Hop in Hin; apply list_elem_of_singleton in Hin; subst name';
      (split; [exact Hsd|]); (split; [exact Hop|]); exists body; auto.
  - intros m0. cbv zeta. eexists. split; [reflexivity|].
    unfold calls_between. reflexivity.
Qed.

(** *** Naming the log file *)

(** C10. Opening the log file. [CreateLogFile] draws names
    [Motor Test Data #N.csv], [N] being [random(100)] and so in
    [0, 100), until it has drawn one that is not on the card. Provided
    the draws are fair -- each of the hundred numbers comes up at some
    later draw -- it returns if and only if one of the hundred names is
    free; and whenever it returns, the file it tried to open bears one
    of these names, and that name was not on the card before. *)
Theorem CreateLogFile_terminates (m : Machine) :
  (forall n, 0 <= n < 100 ->
     exists k, (queries m <= k)%nat /\ w_random W k `mod` 100 = n) ->
  ((exists fuel ok m', CreateLogFile W fuel m = Some (ok, m')) <->
   (exists n, 0 <= n < 100 /\ card m !! log_file_name n = None)) /\
  (forall fuel ok (m' : Machine),
      CreateLogFile W fuel m = Some (ok, m') ->
      exists n,
        0 <= n < 100 /\
        card m !! log_file_name n = None /\
        head (trace m') = Some (IoFileOpen (log_file_name n) ok) /\
        (ok = true -> File m' = Some (log_file_name n) /\
                      card m' !! log_file_name n = Some "")).
Proof.
  intros Hfair.
  assert (Hret : forall fuel ok (m' : Machine),
             CreateLogFile W fuel m = Some (ok, m') ->
             exists n,
               0 <= n < 100 /\
               card m !! log_file_name n = None /\
               head (trace m') = Some (IoFileOpen (log_file_name n) ok) /\
               (ok = true -> File m' = Some (log_file_name n) /\
                             card m' !! log_file_name n = Some "")).
  { intros fuel ok m'. destruct m as [st ? ? ? ? ? ? ? ? ? ? cr ? q tr].
    fw_simpl.
    match goal with
    | |- context [CreateLogFile_while W fuel ?f ?m0] =>
        destruct (CreateLogFile_while W fuel f m0) as [[r m1]|] eqn:Hw
    end; [|discriminate].
    apply CreateLogFile_while_spec in Hw. revert Hw. fw_simpl.
    intros (Hr & probes & q' & Hq & Hn & Hp & ->). fw_simpl.
    intros [= <- <-]. cbn [trace File card head].
    assert (exists n, 0 <= n < 100 /\ r = log_file_name n) as (n & Hn' & ->).
    { destruct Hn as [->|(k & _ & ->)]; eexists;
        (split; [apply Z.mod_pos_bound; lia | reflexivity]). }
    exists n. split; [exact Hn'|]. split; [exact Hr|].
    split; [reflexivity|]. intros ->. split; [reflexivity|].
    rewrite Hr. apply lookup_insert_eq. }
  split; [split|exact Hret].
  - intros (fuel & ok & m' & H).
    destruct (Hret fuel ok m' H) as (n & Hn & Hfree & _). eauto.
  - intros (n & Hn & Hfree).
    destruct (Hfair n Hn) as (k & Hk & Hdraw).
    destruct m as [st ? ? ? ? ? ? ? ? ? ? cr ? q tr].
    cbn [queries card] in *.
    exists (S (k - q)).
    assert (exists r m', CreateLogFile_while W (S (k - q))
              (log_file_name (w_random W q `mod` 100))
              (set_queries (S q)
                 (mkMachine st CountdownActivatedTime0 TestActivatedTime0
                    Countdown0 TestDuration0 ThermistorData2 ThermistorData3
                    LoadCellForceData0 ErrorLog0 MainLoopPrev0 pins0 cr
                    File0 q tr)) = Some (r, m')) as (r & m' & Hw).
    { apply CreateLogFile_while_finds. cbn [card queries set_queries].
      destruct (decide (k = q)) as [->|Hne].
      - left. now rewrite Hdraw.
      - right. exists (k - S q)%nat. split; [lia|].
        replace (S q + (k - S q))%nat with k by lia. now rewrite Hdraw. }
    revert Hw. fw_simpl. intros Hw. rewrite Hw. fw_simpl.
    eexists _, _. reflexivity.
Qed.
End Properties.

(** ** The rest of the sequence *)

Section Sequence.

Variable W : World.
Variable String_of_float : spec_float -> string.
Variable String_of_double : spec_float -> string.
Variable steinhart_hart : Z -> Z -> Z -> spec_float.

Abbreviation Loop := (loop W String_of_float String_of_double steinhart_hart).
Abbreviation Tick := (tick W String_of_float String_of_double steinhart_hart).
Abbreviation Step := (step W String_of_float String_of_double steinhart_hart).
Abbreviation Steps :=
  (steps W String_of_float String_of_double steinhart_hart).
Abbreviation Reachable :=
  (reachable W String_of_float String_of_double steinhart_hart).
Abbreviation Invariant := (Inv W String_of_float String_of_double).

(** *** [setup] *)

(** X1. [setup] returns, whatever the card and the load cell do. It
    leaves [READY_FOR_COUNTDOWN] when the card mounts and the tare does not
    time out, and [ERROR] otherwise; the error log names every initializer
    that failed, the card before the load cell; it configures the five pins
    and attaches the interrupt, in this order, and it drives no pin, reads
    no clock and touches no file. *)
Theorem setup_outcome (sd : gmap string string) :
  exists m,
    setup W (power_on sd) = Some (tt, m) /\
    OPERATION_STATE m =
      (if w_sd_begin W && negb (w_tare_timeout W)
       then READY_FOR_COUNTDOWN else ERROR) /\
    ErrorLog m =
      (if w_sd_begin W then "" else "SD-CARD NOT FOUND | ") ++
      (if w_tare_timeout W then "LOAD CELL TARE UNSUCESSFUL | " else "") /\
    trace m =
      [IoAttachInterrupt GPIO_BUTTON_ACTIVATE_TEST;
       IoPinMode GPIO_BUTTON_ACTIVATE_TEST false;
       IoPinMode GPIO_LED_TEST_ACTIVE true;
       IoPinMode GPIO_RELAY_TOGGLE true;
       IoPinMode GPIO_THERMISTOR_2 false;
       IoPinMode GPIO_THERMISTOR_1 false] /\
    pins m = ∅ /\ card m = sd /\ File m = None /\ queries m = 0%nat.
Proof.
  unfold power_on. fw_exec; eexists; (split; [reflexivity|]);
    cbn [OPERATION_STATE ErrorLog trace pins card File queries andb negb];
    repeat split.
Qed.

(** *** The scheduler *)

Lemma Tick_prev (m m' : Machine) :
  Tick m = Some (tt, m') ->
  exists k,
    (queries m <= k)%nat /\ queries m' = S k /\
    MainLoopPrev m' = wrap32 (w_millis W k).
Proof.
  destruct m as [st cat tat cd td t0 t1 fc el mp pn cr fl q tr].
  destruct st; fw_exec; intros [= <-]; cbn [queries MainLoopPrev];
    eexists; (split; [|split; reflexivity]); lia.
Qed.

(** X2. The gate of [loop]. An iteration reads the clock and runs its
    block exactly when at least 20 ms lie between this reading and
    [MainLoopPrev], the subtraction taken in [uint64_t]: the comparison
    which the code makes on floats, with [1000.f / 50], is this comparison
    of integers. Short of 20 ms the iteration does nothing else. When the
    block runs, the iteration returns and [MainLoopPrev] becomes a reading
    of the clock taken after the block, not the reading that opened the
    gate. *)
Theorem loop_gate (m : Machine) :
  let now := wrap32 (w_millis W (queries m)) in
  let elapsed := wrap64 (now - MainLoopPrev m) in
  tick_due W m = (20 <=? elapsed)%Z /\
  exists m',
    Loop m = Some (tt, m') /\
    (elapsed < 20 -> m' = set_queries (S (queries m)) m) /\
    (20 <= elapsed ->
     Tick (set_queries (S (queries m)) m) = Some (tt, m') /\
     exists k,
       (queries m < k)%nat /\ queries m' = S k /\
       MainLoopPrev m' = wrap32 (w_millis W k)).
Proof.
  intros now elapsed.
  assert (H0 : 0 <= elapsed) by (apply Z.mod_pos_bound; reflexivity).
  assert (Hdue : tick_due W m = (20 <=? elapsed)%Z)
    by (apply sample_period_in_milliseconds, H0).
  split; [exact Hdue|].
  destruct (Z.leb_spec 20 elapsed) as [Hle|Hlt].
  - rewrite (Loop_due W String_of_float String_of_double steinhart_hart m Hdue).
    destruct (tick_total W String_of_float String_of_double steinhart_hart
                (set_queries (S (queries m)) m)) as [m' H].
    exists m'. split; [exact H|]. split; [lia|]. intros _.
    split; [exact H|].
    destruct (Tick_prev _ _ H) as (k & Hk & Hq & Hp).
    exists k. cbn [queries set_queries] in Hk. split; [lia|]. auto.
  - exists (set_queries (S (queries m)) m). split; [|split; [auto|lia]].
    unfold tick_due in Hdue. fold now in Hdue. fold elapsed in Hdue.
    unfold loop, bind at 1, millis, ask, bind at 1, ret.
    unfold bind at 1, gets. cbn [MainLoopPrev set_queries].
    fold now. fold elapsed. rewrite Hdue. reflexivity.
Qed.

(** *** The board invariant *)

Lemma wrap32_uint32 (z : Z) : is_uint32 (wrap32 z).
Proof. apply Z.mod_pos_bound. reflexivity. Qed.

Lemma Inv_board_setup (sd : gmap string string) (m : Machine) :
  setup W (power_on sd) = Some (tt, m) -> Inv_board sd m.
Proof.
  unfold power_on. fw_exec; intros [= <-];
    (split;
     [ cbv [led_ok OPERATION_STATE pins]; auto
     | cbv; split; congruence
     | cbv; split; congruence
     | cbv; split; congruence
     | cbn [card]; reflexivity ]).
Qed.

Lemma opened_not_in_app (name : string) (l1 l2 : list io) :
  opened l1 = [] -> name ∉ opened (l1 ++ l2)%list -> name ∉ opened l2.
Proof.
  intros H. unfold opened in *. rewrite omap_app, H. auto.
Qed.

Lemma Inv_board_interrupt sd fuel (m m' : Machine) :
  Invariant sd m -> Inv_board sd m ->
  InterruptTestStartCommand W fuel m = Some (tt, m') ->
  Inv_board sd m'.
Proof.
  intros HI HB H.
  destruct (decide (OPERATION_STATE m = READY_FOR_COUNTDOWN)) as [Hs|Hs].
  2:{ rewrite (Interrupt_discarded W fuel m Hs) in H. now injection H as <-. }
  destruct (Interrupt_armed W fuel m m' Hs H)
    as (r & probes & q' & Hr & _ & Hp & ->).
  destruct HI as [_ _ _ _ Hlog]. unfold log_ok in Hlog. rewrite Hs in Hlog.
  destruct Hlog as (Hop & Hfile & Hcard).
  destruct HB as [_ Hc Ht Hv Hk].
  assert (How : opened
                  (probes ++ IoDigitalWrite GPIO_LED_TEST_ACTIVE HIGH
                          :: trace m)%list = []).
  { rewrite opened_app, opened_probes by exact Hp. exact Hop. }
  cbv zeta. split;
    cbn [CountdownActivatedTime TestActivatedTime MainLoopPrev];
    try assumption; try apply wrap32_uint32.
  - unfold led_ok. cbn [OPERATION_STATE pins].
    destruct (w_open W q' r); [|right]; apply lookup_insert_eq.
  - cbn [trace card]. intros name. rewrite Hfile.
    destruct (w_open W q' r).
    + change (opened (?a :: ?b :: IoFileOpen r true :: ?l))
        with (r :: opened l). rewrite How.
      intros Hn. rewrite lookup_insert_ne.
      * rewrite Hcard. reflexivity.
      * intros ->. apply Hn. apply list_elem_of_here.
    + intros _. rewrite Hcard. reflexivity.
Qed.

Lemma Inv_board_tick sd (m m' : Machine) :
  Invariant sd m -> Inv_board sd m ->
  Tick m = Some (tt, m') -> Inv_board sd m'.
Proof.
  intros [_ _ Hst _ Hlog] [Hled Hc Ht Hv Hk].
  destruct m as [st cat tat cd td t0 t1 fc el mp pn cr fl q tr].
  unfold log_ok in Hlog. unfold led_ok in Hled.
  cbn [OPERATION_STATE trace pins ErrorLog File card CountdownActivatedTime
       TestActivatedTime MainLoopPrev] in *.
  destruct st; try congruence;
    try destruct Hlog as (name & body & Hop & -> & Hsd & Hcard & Hrec);
    fw_exec; intros [= <-];
    (split;
     [ unfold led_ok; cbn [OPERATION_STATE pins];
       rewrite ?lookup_insert_eq;
       try (rewrite lookup_insert_ne by discriminate);
       rewrite ?lookup_insert_eq; try assumption; try reflexivity
     | cbn [CountdownActivatedTime]; assumption
     | cbn [TestActivatedTime]; try assumption; apply wrap32_uint32
     | cbn [MainLoopPrev]; apply wrap32_uint32
     | cbn [trace card]; rewrite ?opened_cons;
       cbv beta iota delta [opened_name]; intros n Hn;
       try (rewrite lookup_alter_ne;
            [|intros ->; apply Hn; rewrite Hop; apply list_elem_of_here]);
       apply Hk, Hn ]).
Qed.

Lemma Inv_board_loop sd (m m' : Machine) :
  Invariant sd m -> Inv_board sd m ->
  Loop m = Some (tt, m') -> Inv_board sd m'.
Proof.
  intros HI HB. unfold loop, bind at 1, millis, ask, bind at 1, ret.
  unfold bind at 1, gets.
  destruct (F32.leb _ _).
  - apply Inv_board_tick.
    + destruct HI; split; assumption.
    + destruct HB; split; assumption.
  - intros [= <-]. destruct HB; split; assumption.
Qed.

Lemma Inv_board_reachable sd (m : Machine) :
  Reachable sd m -> Inv_board sd m.
Proof.
  induction 1 as [m H|m e m' Hm IH [fuel H]].
  - apply Inv_board_setup, H.
  - pose proof (Inv_reachable W String_of_float String_of_double
                  steinhart_hart sd m Hm) as HI.
    destruct e; cbn [handle] in H.
    + eapply Inv_board_loop; eassumption.
    + eapply Inv_board_interrupt; eassumption.
Qed.

(** *** The lamp *)

(** X3. The lamp on [GPIO_LED_TEST_ACTIVE] follows the state. In every
    state that [setup] followed by any sequence of [loop] iterations and
    start-button interrupts can reach: before the button is pressed the
    lamp pin has never been written; in [COUNTDOWN] and [TEST_ACTIVE] the
    last write to it is [HIGH]; in [POST_TEST] it is [LOW]; and in [ERROR]
    the pin was never written, or it was written [HIGH] by an arming that
    failed and has been left lit. *)
Theorem lamp_follows_state sd (m : Machine) :
  Reachable sd m ->
  match OPERATION_STATE m with
  | STARTUP | READY_FOR_COUNTDOWN => pins m !! GPIO_LED_TEST_ACTIVE = None
  | COUNTDOWN | TEST_ACTIVE => pins m !! GPIO_LED_TEST_ACTIVE = Some HIGH
  | POST_TEST => pins m !! GPIO_LED_TEST_ACTIVE = Some LOW
  | ERROR =>
      pins m !! GPIO_LED_TEST_ACTIVE = None \/
      pins m !! GPIO_LED_TEST_ACTIVE = Some HIGH
  end.
Proof.
  intros Hm. apply Inv_board_reachable in Hm. destruct Hm as [Hled _ _ _ _].
  exact Hled.
Qed.

(** *** The files that were on the card *)

(** X4. The firmware leaves alone what was on the card. In every
    reachable state a file that was on the card when the power came on has
    not been opened and holds what it held then: the logs of earlier tests
    are neither overwritten nor appended to. *)
Theorem earlier_logs_preserved sd (m : Machine) (name content : string) :
  Reachable sd m ->
  sd !! name = Some content ->
  card m !! name = Some content /\
  (name ∉ opened (trace m)) /\
  File m <> Some name.
Proof.
  intros Hm Hsd.
  pose proof (Inv_board_reachable sd m Hm) as [_ _ _ _ Hk].
  pose proof (Inv_reachable W String_of_float String_of_double
                steinhart_hart sd m Hm) as [_ _ _ _ Hlog].
  unfold log_ok in Hlog.
  assert (Hn : (name ∉ opened (trace m)) /\ File m <> Some name).
  { destruct (OPERATION_STATE m);
      try (destruct Hlog as (Hop & Hf & _); rewrite Hop, Hf;
           split; [apply not_elem_of_nil | discriminate]);
      try (destruct Hlog as (Hop & Hf); rewrite Hop, Hf;
           split; [apply not_elem_of_nil | discriminate]);
      destruct Hlog as (name' & body & Hop & Hf & Hsd' & _);
      rewrite Hop, Hf;
      (split; [rewrite list_elem_of_singleton; congruence
              | try discriminate; congruence]). }
  destruct Hn as [Hn Hf]. split; [|split; assumption].
  rewrite (Hk name Hn). exact Hsd.
Qed.

(** *** The end of the test *)

(** The block of [loop] in [TEST_ACTIVE]: the elapsed time it finds
    decides, and [EndTest] puts out the lamp, closes the file and releases
    the relay, in this order. *)
Lemma Tick_test (m : Machine) :
  OPERATION_STATE m = TEST_ACTIVE ->
  let d := seconds_since (wrap32 (w_millis W (4 + queries m)))
             (TestActivatedTime m) in
  exists m' calls,
    Tick m = Some (tt, m') /\
    TestDuration m' = d /\
    Countdown m' = F32.add d (F32.of_Z 15) /\
    calls_between m m' calls /\
    (if F32.ltb d (F32.of_Z TEST_DURATION_SECONDS)
     then OPERATION_STATE m' = TEST_ACTIVE /\ relay_writes calls = [] /\
          pins m' = pins m /\ File m' = File m
     else OPERATION_STATE m' = POST_TEST /\
          (exists earlier,
              calls = (IoDigitalWrite GPIO_RELAY_TOGGLE HIGH :: IoFileClose
                       :: IoDigitalWrite GPIO_LED_TEST_ACTIVE LOW
                       :: earlier)%list /\
              relay_writes earlier = []) /\
          pins m' = <[GPIO_RELAY_TOGGLE := HIGH]>
                      (<[GPIO_LED_TEST_ACTIVE := LOW]> (pins m)) /\
          File m' = None).
Proof.
  destruct m as [st cat tat cd td t0 t1 fc el mp pn cr fl q tr].
  cbn [OPERATION_STATE queries TestActivatedTime Nat.add pins File].
  intros ->. cbv zeta. unfold calls_between.
  fw_step; fw_decide; fw_step.
  destruct (w_loadcell W (S (S q))); fw_simpl;
    destruct (F32.ltb _ _); fw_simpl.
  - eexists _, (_ :: _ :: _ :: _ :: _ :: [_]).
    repeat (split; [reflexivity|]). repeat split; reflexivity.
  - eexists _, (_ :: _ :: _ :: _ :: _ :: _ :: _ :: _ :: [_]).
    repeat (split; [reflexivity|]).
    split; [eexists; split; reflexivity|]. split; reflexivity.
  - eexists _, (_ :: _ :: _ :: _ :: _ :: [_]).
    repeat (split; [reflexivity|]). repeat split; reflexivity.
  - eexists _, (_ :: _ :: _ :: _ :: _ :: _ :: _ :: _ :: [_]).
    repeat (split; [reflexivity|]).
    split; [eexists; split; reflexivity|]. split; reflexivity.
Qed.

Lemma Loop_reachable sd (m m' : Machine) :
  Reachable sd m -> Loop m = Some (tt, m') -> Reachable sd m'.
Proof.
  intros Hm H.
  apply (reachable_step _ _ _ _ _ m EvLoop); [exact Hm | now exists 0%nat].
Qed.

(** X5. The end of the test. On an iteration of [loop] that runs its
    block in [TEST_ACTIVE] the test ends exactly when at least 15000 ms lie
    between [TestActivatedTime] and the reading of the clock that
    [DetectTestEnd] takes, the subtraction taken in [uint64_t]: the
    comparison which the code makes on floats is this comparison of
    integers. Short of that the state stays [TEST_ACTIVE], the relay stays
    engaged and the log file stays open. From then on the state is
    [POST_TEST]: the lamp was put out, then the log file closed, then the
    relay released, whose pin is [HIGH]. *)
Theorem test_expiry sd (m : Machine) :
  Reachable sd m ->
  OPERATION_STATE m = TEST_ACTIVE ->
  tick_due W m = true ->
  let now := wrap32 (w_millis W (5 + queries m)) in
  let elapsed := wrap64 (now - TestActivatedTime m) in
  exists m',
    Loop m = Some (tt, m') /\
    TestDuration m' = seconds_since now (TestActivatedTime m) /\
    (elapsed < 15000 ->
     OPERATION_STATE m' = TEST_ACTIVE /\
     engaged (trace m') = true /\
     relay_level m' = LOW /\
     File m' = File m /\ is_Some (File m')) /\
    (15000 <= elapsed ->
     OPERATION_STATE m' = POST_TEST /\
     engaged (trace m') = false /\
     relay_level m' = HIGH /\
     pins m' !! GPIO_LED_TEST_ACTIVE = Some LOW /\
     File m' = None /\
     exists earlier,
       calls_between m m'
         (IoDigitalWrite GPIO_RELAY_TOGGLE HIGH :: IoFileClose
          :: IoDigitalWrite GPIO_LED_TEST_ACTIVE LOW :: earlier) /\
       relay_writes earlier = []).
Proof.
  intros Hm Hs Hdue now elapsed.
  destruct (Tick_test (set_queries (S (queries m)) m) Hs)
    as (m' & calls & Htick & Hd & _ & Hcalls & Hcase).
  rewrite <- (Loop_due W String_of_float String_of_double steinhart_hart
                m Hdue) in Htick.
  change (calls_between m m' calls) in Hcalls.
  change (TestDuration m' = seconds_since now (TestActivatedTime m)) in Hd.
  change (F32.ltb _ _)
    with (F32.ltb (seconds_since now (TestActivatedTime m))
            (F32.of_Z TEST_DURATION_SECONDS)) in Hcase.
  rewrite test_limit_in_milliseconds in Hcase. fold elapsed in Hcase.
  change (pins (set_queries _ m)) with (pins m) in Hcase.
  change (File (set_queries _ m)) with (File m) in Hcase.
  exists m'. split; [exact Htick|]. split; [exact Hd|].
  pose proof (Loop_reachable sd m m' Hm Htick) as Hm'.
  pose proof (Inv_reachable W String_of_float String_of_double
                steinhart_hart sd m' Hm') as [Hrel Hpin _ _ _].
  pose proof (Inv_reachable W String_of_float String_of_double
                steinhart_hart sd m Hm) as [_ _ _ _ Hlog].
  unfold log_ok in Hlog. rewrite Hs in Hlog.
  destruct Hlog as (name & body & _ & Hfile & _).
  unfold engaged, relay_level. rewrite Hpin, Hrel.
  split; intros He.
  - replace (elapsed <? 15000)%Z with true in Hcase
      by (symmetry; apply Z.ltb_lt; exact He).
    destruct Hcase as (Hs' & _ & _ & Hf). rewrite Hs'.
    repeat (split; [reflexivity || assumption|]).
    rewrite Hf, Hfile. now exists name.
  - replace (elapsed <? 15000)%Z with false in Hcase
      by (symmetry; apply Z.ltb_ge; exact He).
    destruct Hcase as (Hs' & (earlier & -> & Hw) & Hp & Hf). rewrite Hs'.
    repeat (split; [reflexivity || assumption|]).
    split; [|split; [exact Hf|]].
    + rewrite Hp. rewrite lookup_insert_ne by discriminate.
      apply lookup_insert_eq.
    + exists earlier. split; [exact Hcalls | exact Hw].
Qed.

(** *** A clock that wraps around *)

Lemma wrapped_elapsed (now since : Z) :
  is_uint32 now -> is_uint32 since -> now < since ->
  2 ^ 64 - 2 ^ 32 < wrap64 (now - since).
Proof.
  unfold is_uint32, wrap64. intros Hn Hs Hlt.
  rewrite <- (Z.mod_add (now - since) 1 (2 ^ 64)) by lia.
  rewrite Z.mod_small; lia.
Qed.

(** X6. The 32-bit clock against the 64-bit subtraction. [millis()]
    wraps around after 2^32 ms, but the elapsed times are computed in
    [uint64_t], where the difference of a reading and a later timestamp is
    not the time gone by but a number above 2^64 - 2^32. So when the block
    of [loop] reads a clock that has wrapped since the button was pressed,
    the countdown is over at once, however little of it has gone by, and
    the relay is engaged; and when the clock has wrapped since the test
    began, the test is over at once and the relay is released. *)
Theorem clock_wrap_cuts_short sd (m : Machine) :
  Reachable sd m ->
  tick_due W m = true ->
  let now := wrap32 (w_millis W (5 + queries m)) in
  exists m',
    Loop m = Some (tt, m') /\
    (OPERATION_STATE m = COUNTDOWN ->
     now < CountdownActivatedTime m ->
     OPERATION_STATE m' = TEST_ACTIVE /\ engaged (trace m') = true) /\
    (OPERATION_STATE m = TEST_ACTIVE ->
     now < TestActivatedTime m ->
     OPERATION_STATE m' = POST_TEST /\ engaged (trace m') = false).
Proof.
  intros Hm Hdue now.
  destruct (loop_total W String_of_float String_of_double steinhart_hart m)
    as [m' Hloop].
  exists m'. split; [exact Hloop|].
  pose proof (Inv_board_reachable sd m Hm) as [_ Hc Ht _ _].
  pose proof (Loop_reachable sd m m' Hm Hloop) as Hm'.
  pose proof (Inv_reachable W String_of_float String_of_double
                steinhart_hart sd m' Hm') as [Hrel _ _ _ _].
  unfold engaged. rewrite Hrel.
  rewrite (Loop_due W String_of_float String_of_double steinhart_hart
             m Hdue) in Hloop.
  split; intros Hs Hlt.
  - destruct (Tick_countdown W String_of_float String_of_double
                steinhart_hart (set_queries (S (queries m)) m) Hs)
      as (m1 & calls & Htick & _ & _ & Hcase).
    rewrite Hloop in Htick. injection Htick as <-.
    change (F32.ltb _ _)
      with (F32.ltb (seconds_since now (CountdownActivatedTime m))
              (F32.of_Z TEST_COUNTDOWN_SECONDS)) in Hcase.
    rewrite countdown_limit_in_milliseconds in Hcase.
    pose proof (wrapped_elapsed now _ (wrap32_uint32 _) Hc Hlt) as Hbig.
    replace (_ <? 30000)%Z with false in Hcase
      by (symmetry; apply Z.ltb_ge; lia).
    destruct Hcase as [Hs' _]. rewrite Hs'. split; reflexivity.
  - destruct (Tick_test (set_queries (S (queries m)) m) Hs)
      as (m1 & calls & Htick & _ & _ & _ & Hcase).
    rewrite Hloop in Htick. injection Htick as <-.
    change (F32.ltb _ _)
      with (F32.ltb (seconds_since now (TestActivatedTime m))
              (F32.of_Z TEST_DURATION_SECONDS)) in Hcase.
    rewrite test_limit_in_milliseconds in Hcase.
    pose proof (wrapped_elapsed now _ (wrap32_uint32 _) Ht Hlt) as Hbig.
    replace (_ <? 15000)%Z with false in Hcase
      by (symmetry; apply Z.ltb_ge; lia).
    destruct Hcase as [Hs' _]. rewrite Hs'. split; reflexivity.
Qed.

(** *** The number on the display *)

(** X7. What the display counts. After an iteration of [loop] that ran
    its block in [COUNTDOWN] no more than 30000 ms after the button was
    pressed, the number the display will draw in large digits,
    [int(TEST_COUNTDOWN_SECONDS - Countdown)], is the number of whole
    seconds left of the countdown. After one that ran it in [TEST_ACTIVE]
    no more than 15000 ms into the test, where [Countdown] is
    [TestDuration + 15], it is the number of whole seconds left of the
    test. *)
Theorem display_counts_down (m : Machine) :
  tick_due W m = true ->
  let now := wrap32 (w_millis W (5 + queries m)) in
  exists m',
    Loop m = Some (tt, m') /\
    (OPERATION_STATE m = COUNTDOWN ->
     let elapsed := wrap64 (now - CountdownActivatedTime m) in
     elapsed <= 30000 ->
     fr_count (render String_of_float m')
     = pretty ((30000 - elapsed) / 1000)) /\
    (OPERATION_STATE m = TEST_ACTIVE ->
     let elapsed := wrap64 (now - TestActivatedTime m) in
     elapsed <= 15000 ->
     fr_count (render String_of_float m')
     = pretty ((15000 - elapsed) / 1000)).
Proof.
  intros Hdue now.
  destruct (loop_total W String_of_float String_of_double steinhart_hart m)
    as [m' Hloop].
  exists m'. split; [exact Hloop|].
  rewrite (Loop_due W String_of_float String_of_double steinhart_hart
             m Hdue) in Hloop.
  change (fr_count (render String_of_float m'))
    with (pretty (shown_count (Countdown m'))).
  split; intros Hs elapsed Hle.
  - destruct (Tick_countdown W String_of_float String_of_double
                steinhart_hart (set_queries (S (queries m)) m) Hs)
      as (m1 & calls & Htick & Hd & _).
    rewrite Hloop in Htick. injection Htick as <-.
    rewrite Hd.
    change (seconds_since _ _)
      with (seconds_since now (CountdownActivatedTime m)).
    now rewrite countdown_count_in_seconds.
  - destruct (Tick_test (set_queries (S (queries m)) m) Hs)
      as (m1 & calls & Htick & _ & Hd & _).
    rewrite Hloop in Htick. injection Htick as <-.
    rewrite Hd.
    change (seconds_since _ _)
      with (seconds_since now (TestActivatedTime m)).
    now rewrite test_count_in_seconds.
Qed.

(** *** The order of the states *)

Lemma reaches_refl (s : E_OPERATION_STATE) : reaches s s = true.
Proof. now destruct s. Qed.

Lemma reaches_trans (a b c : E_OPERATION_STATE) :
  reaches a b = true -> reaches b c = true -> reaches a c = true.
Proof. destruct a, b, c; cbn; congruence. Qed.

Lemma Step_reaches (m : Machine) (e : event) (m' : Machine) :
  Step m e m' -> reaches (OPERATION_STATE m) (OPERATION_STATE m') = true.
Proof.
  intros [fuel H]. destruct e; cbn [handle] in H.
  - apply (Loop_state W String_of_float String_of_double steinhart_hart)
      in H.
    destruct (OPERATION_STATE m); try destruct H as [H|H]; now rewrite H.
  - apply Interrupt_state in H.
    destruct (OPERATION_STATE m); try destruct H as [H|H]; now rewrite H.
Qed.

(** X8. The sequence runs one way. Whatever [loop] iterations and
    start-button interrupts follow one another, the state moves along
    [READY_FOR_COUNTDOWN], [COUNTDOWN], [TEST_ACTIVE], [POST_TEST] and
    never back, [ERROR] is entered from [READY_FOR_COUNTDOWN] only and
    never left, and so is [POST_TEST]: [reaches] is this table. In
    particular the firmware is never armed a second time: a state that is
    [READY_FOR_COUNTDOWN] has been so since [setup]. *)
Theorem states_in_order (m : Machine) (es : list event) (m' : Machine) :
  Steps m es m' ->
  reaches (OPERATION_STATE m) (OPERATION_STATE m') = true /\
  (OPERATION_STATE m' = READY_FOR_COUNTDOWN ->
   OPERATION_STATE m = READY_FOR_COUNTDOWN) /\
  (OPERATION_STATE m = POST_TEST -> OPERATION_STATE m' = POST_TEST) /\
  (OPERATION_STATE m = ERROR -> OPERATION_STATE m' = ERROR).
Proof.
  intros H.
  assert (Hr : reaches (OPERATION_STATE m) (OPERATION_STATE m') = true).
  { revert m H. induction es as [|e es IH]; cbn [steps]; intros m H.
    - subst. apply reaches_refl.
    - destruct H as (m1 & H1 & H).
      eapply reaches_trans; [apply (Step_reaches _ _ _ H1) | now apply IH]. }
  split; [exact Hr|].
  destruct (OPERATION_STATE m), (OPERATION_STATE m');
    cbn in Hr; repeat split; congruence.
Qed.

(** *** After the test *)

Lemma settled_refl (m : Machine) :
  OPERATION_STATE m = POST_TEST -> settled m m.
Proof.
  intros Hs. repeat (split; [assumption || reflexivity|]).
  exists []. split; [reflexivity | constructor].
Qed.

Lemma settled_trans (m1 m2 m3 : Machine) :
  settled m1 m2 -> settled m2 m3 -> settled m1 m3.
Proof.
  intros (_ & H1 & H2 & H3 & H4 & H5 & H6 & H7 & H8 & c & Ht & Hc)
         (Hs' & H1' & H2' & H3' & H4' & H5' & H6' & H7' & H8' & c' & Ht' & Hc').
  repeat (split; [congruence|]).
  exists (c' ++ c)%list. split.
  - unfold calls_between in *. rewrite Ht', Ht. apply app_assoc.
  - apply Forall_app. split; assumption.
Qed.

Lemma settled_step (m : Machine) (e : event) (m' : Machine) :
  OPERATION_STATE m = POST_TEST -> Step m e m' -> settled m m'.
Proof.
  intros Hs [fuel H]. destruct e; cbn [handle] in H.
  - destruct m as [st cat tat cd td t0 t1 fc el mp pn cr fl q tr].
    cbn [OPERATION_STATE] in Hs. subst st. revert H.
    fw_exec; intros [= <-]; unfold settled, calls_between;
      cbn [OPERATION_STATE CountdownActivatedTime TestActivatedTime Countdown
           TestDuration ErrorLog card pins File trace];
      repeat (split; [reflexivity|]).
    + eexists [_; _; _; _]. split; [reflexivity|].
      repeat (constructor; [cbn; auto|]). constructor.
    + eexists [_; _; _; _]. split; [reflexivity|].
      repeat (constructor; [cbn; auto|]). constructor.
    + exists []. split; [reflexivity | constructor].
  - rewrite Interrupt_discarded in H by (rewrite Hs; discriminate).
    injection H as <-. now apply settled_refl.
Qed.

Lemma settled_Steps (es : list event) :
  forall m m' : Machine,
    OPERATION_STATE m = POST_TEST -> Steps m es m' -> settled m m'.
Proof.
  induction es as [|e es IH]; cbn [steps]; intros m m' Hs H.
  - subst. now apply settled_refl.
  - destruct H as (m1 & H1 & H). apply settled_step in H1; [|exact Hs].
    apply (settled_trans m m1 m'); [exact H1|].
    apply IH; [|exact H]. now destruct H1.
Qed.

Lemma Steps_total (es : list event) :
  forall m : Machine,
    OPERATION_STATE m <> READY_FOR_COUNTDOWN -> exists m', Steps m es m'.
Proof.
  induction es as [|e es IH]; cbn [steps]; intros m Hs.
  - now exists m.
  - assert (exists m1, Step m e m1) as [m1 H1].
    { destruct e.
      - destruct (loop_total W String_of_float String_of_double
                    steinhart_hart m) as [m1 H].
        exists m1. now exists 0%nat.
      - exists m, 0%nat. cbn [handle]. now apply Interrupt_discarded. }
    destruct (IH m1) as [m' H].
    + intros Hs'. apply Hs.
      now apply (states_in_order m [e] m1); [exists m1|].
    + exists m', m1. auto.
Qed.

(** X9. After the test the firmware only watches. From [POST_TEST] every
    later sequence of [loop] iterations and start-button interrupts
    returns and stays in [POST_TEST]; the card, the pins, the closed log
    file, the error log, both timestamps, [Countdown] and [TestDuration]
    stay as the test left them; and every call made draws the display or
    reads a sensor: nothing more is logged and the relay is not driven
    again. *)
Theorem post_test_settled (m : Machine) (es : list event) :
  OPERATION_STATE m = POST_TEST ->
  (exists m', Steps m es m') /\
  (forall m', Steps m es m' ->
     settled m m' /\
     forall calls, calls_between m m' calls ->
       Forall (fun e => is_log_call e = false /\ relay_write e = None)
         calls).
Proof.
  intros Hs. split.
  - apply Steps_total. rewrite Hs. discriminate.
  - intros m' H. apply settled_Steps in H; [|exact Hs]. split; [exact H|].
    destruct H as (_ & _ & _ & _ & _ & _ & _ & _ & _ & c & Ht & Hc).
    intros calls Hcalls. unfold calls_between in *. rewrite Ht in Hcalls.
    apply app_inv_tail in Hcalls. subst calls.
    eapply Forall_impl; [exact Hc|].
    intros e [He|He]; destruct e; try discriminate; cbn; auto.
Qed.

(** *** [TestEndCommand] *)

(** X10. [TestEndCommand], which nothing calls, is not [EndTest]. Outside
    [TEST_ACTIVE] it returns and changes nothing. In [TEST_ACTIVE] it sets
    [POST_TEST], puts out the lamp and closes the log file, and that is
    all it does: it does not call [ToggleRelay], so from a reachable state
    it would leave the relay engaged, its pin [LOW], in [POST_TEST]. *)
Theorem TestEndCommand_leaves_relay_engaged sd (m : Machine) :
  Reachable sd m ->
  exists m',
    TestEndCommand m = Some (tt, m') /\
    (OPERATION_STATE m <> TEST_ACTIVE -> m' = m) /\
    (OPERATION_STATE m = TEST_ACTIVE ->
     OPERATION_STATE m' = POST_TEST /\
     calls_between m m'
       [IoFileClose; IoDigitalWrite GPIO_LED_TEST_ACTIVE LOW] /\
     pins m' = <[GPIO_LED_TEST_ACTIVE := LOW]> (pins m) /\
     File m' = None /\
     card m' = card m /\
     engaged (trace m') = true /\
     relay_level m' = LOW).
Proof.
  intros Hm.
  pose proof (Inv_reachable W String_of_float String_of_double
                steinhart_hart sd m Hm) as [Hrel Hpin _ _ _].
  destruct m as [st cat tat cd td t0 t1 fc el mp pn cr fl q tr].
  cbn [OPERATION_STATE trace pins] in *.
  destruct st; fw_exec; eexists; (split; [reflexivity|]);
    (split; [try reflexivity; intros Hs; now contradiction Hs|]);
    intros Hs; try discriminate.
  unfold calls_between, engaged, relay_level.
  cbn [OPERATION_STATE trace pins File card relay_log_of] in *.
  repeat (split; [reflexivity|]).
  change (relay_writes (IoFileClose :: IoDigitalWrite GPIO_LED_TEST_ACTIVE LOW
                        :: tr)) with (relay_writes tr).
  rewrite lookup_insert_ne by discriminate.
  rewrite Hpin, Hrel. split; reflexivity.
Qed.

(** *** The record of a block *)

(** X11. What a block of [loop] writes to the log. In [COUNTDOWN] and in
    [TEST_ACTIVE] the block returns and appends one line to the file that
    is open, and changes nothing else on the card. The line holds the
    readings the block has just taken, not the ones the display was drawn
    from: [millis() / 1000.f] as read after the sensors, the force as
    updated when the load cell had a new conversion, and the temperatures
    of the first and second thermistor. *)
Theorem tick_logs_fresh_sample sd (m : Machine) :
  Reachable sd m ->
  OPERATION_STATE m = COUNTDOWN \/ OPERATION_STATE m = TEST_ACTIVE ->
  let temp1 :=
    steinhart_hart (w_analog W (queries m) GPIO_THERMISTOR_1)
      THERMISTOR_1_RESISTANCE 40 in
  let temp2 :=
    steinhart_hart (w_analog W (1 + queries m) GPIO_THERMISTOR_2)
      THERMISTOR_2_RESISTANCE 40 in
  let force :=
    match w_loadcell W (2 + queries m) with
    | Some data => F32.div data (F32.of_Z 100000)
    | None => LoadCellForceData m
    end in
  let now := wrap32 (w_millis W (3 + queries m)) in
  let line :=
    String_of_float (F32.div (F32.of_Z now) (F32.of_Z 1000)) ++ ", " ++
    String_of_double force ++ ", " ++
    String_of_double temp1 ++ ", " ++
    String_of_double temp2 ++ LF in
  exists m' name logged,
    Tick m = Some (tt, m') /\
    File m = Some name /\
    card m !! name = Some logged /\
    card m' = <[name := logged ++ line]> (card m) /\
    latest_sample m' = (force, temp1, temp2) /\
    IoFilePrint line ∈ trace m'.
Proof.
  intros Hm Hs.
  pose proof (Inv_reachable W String_of_float String_of_double
                steinhart_hart sd m Hm) as [_ _ _ _ Hlog].
  unfold log_ok in Hlog.
  destruct m as [st cat tat cd td t0 t1 fc el mp pn cr fl q tr].
  cbn [OPERATION_STATE trace File card queries LoadCellForceData Nat.add]
    in *.
  assert (Halter : forall (name body line : string),
             cr !! name = Some body ->
             alter (fun c => c ++ line) name cr = <[name := body ++ line]> cr).
  { intros name body line H. apply map_eq. intros n.
    destruct (decide (n = name)) as [->|Hn].
    - now rewrite lookup_alter_eq, lookup_insert_eq, H.
    - now rewrite lookup_alter_ne, lookup_insert_ne by congruence. }
  destruct Hs as [-> | ->];
    destruct Hlog as (name & body & _ & -> & _ & Hcard & _);
    cbv zeta; fw_step; fw_decide; fw_step;
    destruct (w_loadcell W (S (S q))); fw_simpl;
    destruct (F32.ltb _ _); fw_simpl;
    eexists _, name, _; (split; [reflexivity|]); (split; [reflexivity|]);
    (split; [exact Hcard|]);
    cbn [card trace]; unfold latest_sample, telemetry_line;
    cbn [LoadCellForceData ThermistorData0 ThermistorData1];
    (split; [apply Halter, Hcard|]); (split; [reflexivity|]);
    rewrite !elem_of_cons; auto 12.
Qed.

(** *** The timestamps *)

Lemma Tick_stamps (m m' : Machine) :
  Tick m = Some (tt, m') ->
  CountdownActivatedTime m' = CountdownActivatedTime m /\
  (OPERATION_STATE m <> COUNTDOWN ->
   TestActivatedTime m' = TestActivatedTime m).
Proof.
  destruct m as [st cat tat cd td t0 t1 fc el mp pn cr fl q tr].
  destruct st; fw_exec; intros [= <-];
    cbn [OPERATION_STATE CountdownActivatedTime TestActivatedTime];
    split; congruence.
Qed.

Lemma Step_stamps (m : Machine) (e : event) (m' : Machine) :
  Step m e m' ->
  (OPERATION_STATE m <> READY_FOR_COUNTDOWN ->
   CountdownActivatedTime m' = CountdownActivatedTime m) /\
  (OPERATION_STATE m <> READY_FOR_COUNTDOWN ->
   OPERATION_STATE m <> COUNTDOWN ->
   TestActivatedTime m' = TestActivatedTime m).
Proof.
  intros [fuel H]. destruct e; cbn [handle] in H.
  - revert H. unfold loop, bind at 1, millis, ask, bind at 1, ret.
    unfold bind at 1, gets.
    destruct (F32.leb _ _).
    + intros H. apply Tick_stamps in H. destruct H as [H1 H2].
      split; [intros _; exact H1 | intros _; exact H2].
    + intros [= <-]. split; reflexivity.
  - split; intros Hs; rewrite Interrupt_discarded in H by exact Hs;
      now injection H as <-.
Qed.

(** X12. The timestamps are written once. [CountdownActivatedTime] is
    written by the interrupt that arms and [TestActivatedTime] by
    [BeginTest], and by nothing else: once the state has left
    [READY_FOR_COUNTDOWN] the first keeps its value, and from [TEST_ACTIVE]
    on so does the second, through whatever [loop] iterations and
    start-button interrupts follow. Every elapsed time of one countdown is
    taken from one and the same press of the button. *)
Theorem timestamps_fixed (m : Machine) (es : list event) (m' : Machine) :
  Steps m es m' ->
  OPERATION_STATE m <> READY_FOR_COUNTDOWN ->
  CountdownActivatedTime m' = CountdownActivatedTime m /\
  (OPERATION_STATE m <> COUNTDOWN ->
   TestActivatedTime m' = TestActivatedTime m).
Proof.
  revert m. induction es as [|e es IH]; cbn [steps]; intros m H Hs.
  - subst. auto.
  - destruct H as (m1 & H1 & H).
    destruct (Step_stamps _ _ _ H1) as [Hc Ht].
    pose proof (Step_reaches _ _ _ H1) as Hr.
    assert (Hs1 : OPERATION_STATE m1 <> READY_FOR_COUNTDOWN).
    { destruct (OPERATION_STATE m), (OPERATION_STATE m1);
        cbn in Hr; congruence. }
    destruct (IH m1 H Hs1) as [Hc' Ht'].
    split; [now rewrite Hc', Hc|].
    intros Hn.
    assert (Hn1 : OPERATION_STATE m1 <> COUNTDOWN).
    { destruct (OPERATION_STATE m), (OPERATION_STATE m1);
        cbn in Hr; congruence. }
    now rewrite (Ht' Hn1), (Ht Hs Hn).
Qed.

(** *** An arming that fails *)

(** X13. An arming that fails is final and leaves the lamp lit. When the
    interrupt that arms ends in [ERROR], because the log file did not
    open, the error log reads "STARTUP NOT SUCESSFUL | ", the card is as it
    was -- the header went to a file that is not open -- and the lamp,
    which the handler lit before it tried the card, is [HIGH]. Through
    whatever follows the state stays [ERROR], the lamp stays lit, the card
    stays as it was and the relay pin is never written. *)
Theorem failed_arming_is_final sd (m m' : Machine) :
  Reachable sd m ->
  Step m EvInterrupt m' ->
  OPERATION_STATE m <> ERROR ->
  OPERATION_STATE m' = ERROR ->
  OPERATION_STATE m = READY_FOR_COUNTDOWN /\
  ErrorLog m' = "STARTUP NOT SUCESSFUL | " /\
  card m' = card m /\
  File m' = None /\
  pins m' !! GPIO_LED_TEST_ACTIVE = Some HIGH /\
  forall es m'',
    Steps m' es m'' ->
    OPERATION_STATE m'' = ERROR /\
    pins m'' !! GPIO_LED_TEST_ACTIVE = Some HIGH /\
    pins m'' !! GPIO_RELAY_TOGGLE = None /\
    card m'' = card m.
Proof.
  intros Hm Hstep Hs Hs'.
  pose proof (reachable_step _ _ _ _ _ m EvInterrupt m' Hm Hstep) as Hm'.
  pose proof (Inv_reachable W String_of_float String_of_double
                steinhart_hart sd m' Hm') as [Hrel' Hpin' _ _ _].
  rewrite Hrel', Hs' in Hpin'. cbn [relay_log_of head] in Hpin'.
  pose proof (Inv_reachable W String_of_float String_of_double
                steinhart_hart sd m Hm) as [_ _ _ Hf Hlog].
  destruct Hstep as [fuel H]. cbn [handle] in H.
  destruct (decide (OPERATION_STATE m = READY_FOR_COUNTDOWN)) as [Hr|Hr].
  2:{ rewrite (Interrupt_discarded W fuel m Hr) in H. injection H as <-.
      contradiction. }
  destruct Hf as [Hf|Hf]; [|contradiction].
  unfold log_ok in Hlog. rewrite Hr in Hlog. destruct Hlog as (_ & Hfile & _).
  destruct (Interrupt_armed W fuel m m' Hr H)
    as (r & probes & q' & _ & _ & _ & Heq).
  cbv zeta in Heq.
  destruct (w_open W q' r); [rewrite Heq in Hs'; discriminate|].
  rewrite Hfile, Hf in Heq.
  assert (Hlog' : ErrorLog m' = "STARTUP NOT SUCESSFUL | ")
    by (rewrite Heq; reflexivity).
  assert (Hcard' : card m' = card m) by (rewrite Heq; reflexivity).
  assert (Hfile' : File m' = None) by (rewrite Heq; reflexivity).
  assert (Hled' : pins m' !! GPIO_LED_TEST_ACTIVE = Some HIGH)
    by (rewrite Heq; apply lookup_insert_eq).
  repeat (split; [assumption|]).
  intros es m'' Hsteps.
  apply (pinned_Steps W String_of_float String_of_double steinhart_hart)
    in Hsteps; [|exact Hs'].
  destruct Hsteps as (Hs'' & _ & _ & Hc'' & Hp'' & _).
  rewrite Hp'', Hc''. auto.
Qed.

(** *** The countdown, from the press of the button *)

Lemma Steps_countdown_stamp (es : list event) :
  forall m m' : Machine,
    Steps m es m' ->
    OPERATION_STATE m <> READY_FOR_COUNTDOWN ->
    CountdownActivatedTime m' = CountdownActivatedTime m.
Proof.
  induction es as [|e es IH]; cbn [steps]; intros m m' H Hs.
  - now subst.
  - destruct H as (m1 & H1 & H).
    destruct (Step_stamps _ _ _ H1) as [Hc _].
    pose proof (Step_reaches _ _ _ H1) as Hr.
    rewrite (IH m1 m' H), (Hc Hs); [reflexivity|].
    destruct (OPERATION_STATE m), (OPERATION_STATE m1);
      cbn in Hr; congruence.
Qed.

(** Two readings of the counter between which it has not wrapped around:
    the difference of what [millis()] returned, taken in [uint64_t], is the
    time gone by. *)
Lemma elapsed_same_epoch (pressed now : Z) :
  pressed <= now ->
  now / 2 ^ 32 = pressed / 2 ^ 32 ->
  wrap64 (wrap32 now - wrap32 pressed) = now - pressed.
Proof.
  intros Hle Hq. unfold wrap64, wrap32.
  pose proof (Z.mod_pos_bound now (2 ^ 32) eq_refl) as Hn.
  pose proof (Z.mod_pos_bound pressed (2 ^ 32) eq_refl) as Hp.
  pose proof (Z.div_mod now (2 ^ 32) ltac:(lia)) as En.
  pose proof (Z.div_mod pressed (2 ^ 32) ltac:(lia)) as Ep.
  rewrite Hq in En.
  assert (E : now mod 2 ^ 32 - pressed mod 2 ^ 32 = now - pressed) by lia.
  rewrite E. apply Z.mod_small. lia.
Qed.

(** C6 as the code has it. Countdown expiry, in terms of the time gone
    by. The start button is pressed in [READY_FOR_COUNTDOWN] and arms;
    any [loop] iterations and further presses follow, and the state is
    [COUNTDOWN] still when an iteration of [loop] runs its block. Let [d]
    be the milliseconds that have gone by between the reading of the
    counter in the handler and its reading in [DetectCountdownEnd], the
    counter going forward and -- this is what the code needs -- not having
    wrapped around its 32 bits in between. Then the block sets [Countdown]
    to [float(d) / 1000.f]; while [d < 30000] the state stays [COUNTDOWN]
    and the relay has not been engaged; and as soon as a block finds
    [30000 <= d] -- a comparison, not an equality, so however far past the
    limit -- the state becomes [TEST_ACTIVE] and [ToggleRelay(true)] is
    called once. Whatever follows, the state does not come back to
    [COUNTDOWN] and the relay is never engaged a second time. *)
Theorem countdown_expiry sd (m0 m1 m : Machine) (es : list event) :
  Reachable sd m0 ->
  OPERATION_STATE m0 = READY_FOR_COUNTDOWN ->
  Step m0 EvInterrupt m1 ->
  Steps m1 es m ->
  OPERATION_STATE m = COUNTDOWN ->
  tick_due W m = true ->
  let pressed := w_millis W (queries m0) in
  let now := w_millis W (5 + queries m) in
  let d := now - pressed in
  pressed <= now ->
  now / 2 ^ 32 = pressed / 2 ^ 32 ->
  exists m',
    Loop m = Some (tt, m') /\
    Countdown m' = F32.div (F32.of_Z d) (F32.of_Z 1000) /\
    (d < 30000 ->
     OPERATION_STATE m' = COUNTDOWN /\ engagements (trace m') = 0%nat) /\
    (30000 <= d ->
     OPERATION_STATE m' = TEST_ACTIVE /\
     engagements (trace m') = 1%nat /\
     exists calls, calls_between m m' calls /\ relay_writes calls = [LOW]) /\
    (forall es' m'',
        Steps m' es' m'' ->
        (engagements (trace m'') <= 1)%nat /\
        (OPERATION_STATE m' = TEST_ACTIVE ->
         OPERATION_STATE m'' <> COUNTDOWN /\
         engagements (trace m'') = 1%nat)).
Proof.
  intros Hm0 Hs0 Hstep Hsteps Hs Hdue pressed now d Hle Hq.
  assert (Hm1 : Reachable sd m1)
    by (eapply reachable_step; eassumption).
  assert (Hm : Reachable sd m)
    by (eapply Steps_reachable; eassumption).
  assert (Hstamp : CountdownActivatedTime m = wrap32 pressed).
  { destruct Hstep as [fuel H]. cbn [handle] in H.
    destruct (Interrupt_armed W fuel m0 m1 Hs0 H)
      as (r & probes & q' & _ & _ & _ & Heq).
    cbv zeta in Heq.
    rewrite (Steps_countdown_stamp es m1 m Hsteps).
    - rewrite Heq. reflexivity.
    - rewrite Heq. cbn [OPERATION_STATE].
      destruct (w_open W q' r); discriminate. }
  destruct (Loop_countdown W String_of_float String_of_double steinhart_hart
              sd m Hm Hs Hdue)
    as (m' & Hloop & Hd & Hor & Hiff & Hlt & Hge & Hafter).
  fold now in Hd, Hor, Hiff, Hlt, Hge.
  rewrite Hstamp in Hd, Hor, Hiff, Hlt, Hge.
  rewrite (elapsed_same_epoch pressed now Hle Hq) in Hiff.
  fold d in Hiff.
  unfold seconds_since in Hd.
  rewrite (elapsed_same_epoch pressed now Hle Hq) in Hd. fold d in Hd.
  exists m'. split; [exact Hloop|]. split; [exact Hd|].
  split; [|split; [|exact Hafter]].
  - intros H. apply Hlt, Hiff, H.
  - intros H. apply Hge. destruct Hor as [Hor|Hor]; [|exact Hor].
    apply Hiff in Hor. lia.
Qed.

End Sequence.

(** ** The firmware on the bench *)

Lemma bench_run (W : World) (es : list event) (m : Machine) :
  (setup W ;; run W Bench.show Bench.show Bench.degrees 5 es)
    (power_on Bench.sd) = Some (tt, m) ->
  reachable W Bench.show Bench.show Bench.degrees Bench.sd m.
Proof. apply run_reachable. Qed.

(** The bench goes through the whole sequence. *)
Example bench_sequence :
  map (fun es => OPERATION_STATE (Bench.after Bench.world es))
    [ []; [EvLoop]; [EvInterrupt]; EvInterrupt :: replicate 3 EvLoop;
      Bench.to_test_active; EvInterrupt :: replicate 6 EvLoop;
      Bench.to_post_test ]
  = [ READY_FOR_COUNTDOWN; READY_FOR_COUNTDOWN; COUNTDOWN; COUNTDOWN;
      TEST_ACTIVE; TEST_ACTIVE; POST_TEST ].
Proof. vm_compute. reflexivity. Qed.

(** 29.999 s is short of the limit, 30.000 s is not, and a counter that
    has wrapped reads as a very long time. *)
Example countdown_limit_around_30_s :
  F32.ltb (seconds_since 29999 0) (F32.of_Z TEST_COUNTDOWN_SECONDS) = true /\
  F32.ltb (seconds_since 30000 0) (F32.of_Z TEST_COUNTDOWN_SECONDS) = false /\
  F32.ltb (seconds_since 5 4294967000) (F32.of_Z TEST_COUNTDOWN_SECONDS)
  = false.
Proof. vm_compute. auto. Qed.

Example sample_period_is_20_ms :
  sample_period = F32.of_Z 20 /\
  F32.leb sample_period (F32.of_Z 19) = false /\
  F32.leb sample_period (F32.of_Z 20) = true.
Proof. vm_compute. auto. Qed.

(** *** C1 *)

Lemma relay_engaged_only_in_test_witness :
  let m := Bench.after Bench.world Bench.to_test_active in
  reachable Bench.world Bench.show Bench.show Bench.degrees Bench.sd m /\
  engaged (trace m) = true /\
  OPERATION_STATE m = TEST_ACTIVE.
Proof.
  intros m.
  assert (Hm : reachable Bench.world Bench.show Bench.show Bench.degrees
                 Bench.sd m)
    by (apply (bench_run _ Bench.to_test_active); vm_compute; reflexivity).
  assert (He : engaged (trace m) = true) by (vm_compute; reflexivity).
  split; [exact Hm|]. split; [exact He|].
  exact (proj1 (relay_engaged_only_in_test Bench.world Bench.show Bench.show
                  Bench.degrees Bench.sd m Hm) He).
Defined.

(** *** C2 *)

(** With no card in the slot [setup] goes from [STARTUP] to [ERROR]; the
    calls it makes configure the pins and attach the interrupt, and none
    of them is [digitalWrite(GPIO_RELAY_TOGGLE, HIGH)]. *)
Lemma fault_entry_without_disengage :
  let m := power_on Bench.sd in
  let m' := Bench.after Bench.no_card [] in
  setup Bench.no_card m = Some (tt, m') /\
  OPERATION_STATE m = STARTUP /\
  OPERATION_STATE m' = ERROR /\
  ErrorLog m' = "SD-CARD NOT FOUND | " /\
  calls_between m m'
    [IoAttachInterrupt 33; IoPinMode 33 false; IoPinMode 32 true;
     IoPinMode 14 true; IoPinMode 25 false; IoPinMode 24 false] /\
  ~ (exists calls,
        calls_between m m' calls /\
        IoDigitalWrite GPIO_RELAY_TOGGLE HIGH ∈ calls).
Proof.
  intros m m'. repeat (split; [vm_compute; reflexivity|]).
  intros (calls & Hc & Hin). unfold calls_between in Hc.
  change (trace m) with (@nil io) in Hc. rewrite app_nil_r in Hc.
  subst calls. revert Hin. vm_compute.
  intros H. repeat (inversion_clear H as [|? ? ? H0]; rename H0 into H).
Qed.

Lemma fault_entry_leaves_relay_alone_witness :
  let m := Bench.after Bench.read_only [] in
  let m' := Bench.after Bench.read_only [EvInterrupt] in
  transition Bench.read_only Bench.show Bench.show Bench.degrees Bench.sd
    m m' /\
  OPERATION_STATE m <> ERROR /\
  OPERATION_STATE m' = ERROR /\
  relay_writes (trace m') = [].
Proof.
  intros m m'.
  assert (Ht : transition Bench.read_only Bench.show Bench.show Bench.degrees
                 Bench.sd m m').
  { apply (transition_step _ _ _ _ _ m EvInterrupt).
    - apply (bench_run _ []). vm_compute. reflexivity.
    - exists 5%nat. vm_compute. reflexivity. }
  assert (Hs : OPERATION_STATE m <> ERROR) by (vm_compute; discriminate).
  assert (Hs' : OPERATION_STATE m' = ERROR) by (vm_compute; reflexivity).
  split; [exact Ht|]. split; [exact Hs|]. split; [exact Hs'|].
  exact (proj1 (proj2 (proj2 (proj2
           (fault_entry_leaves_relay_alone Bench.read_only Bench.show
              Bench.show Bench.degrees Bench.sd m m' Ht Hs Hs'))))).
Defined.

(** *** C3 *)

Lemma arm_event_guard_witness :
  let m := Bench.after Bench.world [EvInterrupt] in
  OPERATION_STATE m <> READY_FOR_COUNTDOWN /\
  steps Bench.world Bench.show Bench.show Bench.degrees m
    [EvInterrupt; EvInterrupt] m.
Proof.
  intros m.
  assert (Hs : OPERATION_STATE m <> READY_FOR_COUNTDOWN)
    by (vm_compute; discriminate).
  split; [exact Hs|].
  exact (proj1 (arm_event_guard Bench.world Bench.show Bench.show
                  Bench.degrees m 2 Hs)).
Defined.

(** *** C4 *)

(** On the bench, armed, one invocation of the handler takes the state to
    [COUNTDOWN], stores the time, creates the log file and prints its
    header. *)
Lemma handler_does_the_arming :
  let m := Bench.after Bench.world [] in
  let m' := Bench.after Bench.world [EvInterrupt] in
  InterruptTestStartCommand Bench.world 5 m = Some (tt, m') /\
  (OPERATION_STATE m = READY_FOR_COUNTDOWN /\
   OPERATION_STATE m' = COUNTDOWN) /\
  (CountdownActivatedTime m = 0 /\ CountdownActivatedTime m' = 5000) /\
  (File m = None /\ File m' = Some "Motor Test Data #2.csv") /\
  (card m !! "Motor Test Data #2.csv" = None /\
   card m' !! "Motor Test Data #2.csv" = Some telemetry_header) /\
  calls_between m m'
    [IoFileSync; IoFilePrint telemetry_header;
     IoFileOpen "Motor Test Data #2.csv" true;
     IoSdExists "Motor Test Data #2.csv";
     IoSdExists "Motor Test Data #1.csv";
     IoDigitalWrite GPIO_LED_TEST_ACTIVE HIGH].
Proof. intros m m'. vm_compute. repeat split. Qed.

Lemma handler_arms_in_place_witness :
  let m := Bench.after Bench.world [] in
  let m' := Bench.after Bench.world [EvInterrupt] in
  (OPERATION_STATE m = READY_FOR_COUNTDOWN /\
   InterruptTestStartCommand Bench.world 5 m = Some (tt, m')) /\
  exists r, card m !! r = None /\ File m' = Some r.
Proof.
  intros m m'.
  assert (Hs : OPERATION_STATE m = READY_FOR_COUNTDOWN)
    by (vm_compute; reflexivity).
  assert (H : InterruptTestStartCommand Bench.world 5 m = Some (tt, m'))
    by (vm_compute; reflexivity).
  split; [auto|].
  destruct (proj1 (proj2 (proj2 (handler_arms_in_place Bench.world Bench.show
                                   Bench.show Bench.degrees 5 m) Hs)) m' H)
    as (r & probes & q' & Hr & _ & _ & _ & _ & _ & Hf & _).
  exists r. split; [exact Hr|]. rewrite Hf.
  replace (w_open Bench.world q' r) with true by reflexivity. reflexivity.
Defined.

(** *** C5 *)

(** With no card in the slot the firmware is in [ERROR]; a run of the
    block of [loop] draws the display and reads no sensor, and the sample
    stays at zero although the thermistor would read 512. *)
Lemma tick_in_fault_reads_no_sensor :
  let m := Bench.after Bench.no_card [] in
  exists m',
    tick Bench.no_card Bench.show Bench.show Bench.degrees m = Some (tt, m') /\
    OPERATION_STATE m = ERROR /\
    calls_between m m' [IoDisplay (render Bench.show m)] /\
    latest_sample m' = (S754_zero false, S754_zero false, S754_zero false) /\
    ThermistorData0 m' <>
    Bench.degrees (w_analog Bench.no_card (queries m) GPIO_THERMISTOR_1)
      THERMISTOR_1_RESISTANCE 40.
Proof.
  intros m. eexists. split; [vm_compute; reflexivity|].
  repeat (split; [vm_compute; reflexivity|]). vm_compute. discriminate.
Qed.

(** *** C6 *)

(** The button is pressed 3 s before the 32-bit counter wraps around. Nine
    seconds later the block of [loop] reads 6000 on the counter, against a
    timestamp of 4294964296: [d] is 9000, short of the limit, and yet the
    state does not remain [COUNTDOWN]: the test begins and the relay is
    engaged. *)
Lemma countdown_cut_short_by_clock_wrap :
  let m0 := Bench.after about_to_wrap [] in
  let m := Bench.after about_to_wrap [EvInterrupt] in
  let pressed := w_millis about_to_wrap (queries m0) in
  let now := w_millis about_to_wrap (5 + queries m) in
  let d := now - pressed in
  reachable about_to_wrap Bench.show Bench.show Bench.degrees Bench.sd m0 /\
  OPERATION_STATE m0 = READY_FOR_COUNTDOWN /\
  step about_to_wrap Bench.show Bench.show Bench.degrees m0 EvInterrupt m /\
  OPERATION_STATE m = COUNTDOWN /\
  tick_due about_to_wrap m = true /\
  CountdownActivatedTime m = wrap32 pressed /\
  d = 9000 /\
  d < 1000 * TEST_COUNTDOWN_SECONDS /\
  exists m',
    loop about_to_wrap Bench.show Bench.show Bench.degrees m
    = Some (tt, m') /\
    OPERATION_STATE m' <> COUNTDOWN /\
    OPERATION_STATE m' = TEST_ACTIVE /\
    engaged (trace m') = true /\
    engagements (trace m') = 1%nat.
Proof.
  intros m0 m pressed now d.
  split; [apply (bench_run _ []); vm_compute; reflexivity|].
  split; [vm_compute; reflexivity|].
  split; [exists 5%nat; vm_compute; reflexivity|].
  repeat (split; [vm_compute; reflexivity|]).
  eexists. split; [vm_compute; reflexivity|].
  split; [vm_compute; discriminate|].
  repeat split; vm_compute; reflexivity.
Qed.

(** On the bench, whose counter starts at 5 s and is far from wrapping, the
    button is pressed and three blocks run in [COUNTDOWN]; the fourth finds
    30000 ms gone by, to the millisecond, and begins the test. *)
Lemma countdown_expiry_witness :
  let m0 := Bench.after Bench.world [] in
  let m1 := Bench.after Bench.world [EvInterrupt] in
  let m := Bench.after Bench.world (EvInterrupt :: replicate 3 EvLoop) in
  let pressed := w_millis Bench.world (queries m0) in
  let now := w_millis Bench.world (5 + queries m) in
  (reachable Bench.world Bench.show Bench.show Bench.degrees Bench.sd m0 /\
   OPERATION_STATE m0 = READY_FOR_COUNTDOWN /\
   step Bench.world Bench.show Bench.show Bench.degrees m0 EvInterrupt m1 /\
   steps Bench.world Bench.show Bench.show Bench.degrees
     m1 (replicate 3 EvLoop) m /\
   OPERATION_STATE m = COUNTDOWN /\
   tick_due Bench.world m = true /\
   pressed <= now /\
   now / 2 ^ 32 = pressed / 2 ^ 32) /\
  now - pressed = 30000 /\
  exists m',
    loop Bench.world Bench.show Bench.show Bench.degrees m = Some (tt, m') /\
    OPERATION_STATE m' = TEST_ACTIVE /\
    engagements (trace m') = 1%nat.
Proof.
  intros m0 m1 m pressed now.
  assert (Hm0 : reachable Bench.world Bench.show Bench.show Bench.degrees
                  Bench.sd m0)
    by (apply (bench_run _ []); vm_compute; reflexivity).
  assert (Hs0 : OPERATION_STATE m0 = READY_FOR_COUNTDOWN)
    by (vm_compute; reflexivity).
  assert (Hstep : step Bench.world Bench.show Bench.show Bench.degrees
                    m0 EvInterrupt m1)
    by (exists 5%nat; vm_compute; reflexivity).
  assert (Hsteps : steps Bench.world Bench.show Bench.show Bench.degrees
                     m1 (replicate 3 EvLoop) m)
    by (apply (run_Steps _ _ _ _ 5%nat); vm_compute; reflexivity).
  assert (Hs : OPERATION_STATE m = COUNTDOWN) by (vm_compute; reflexivity).
  assert (Hd : tick_due Bench.world m = true) by (vm_compute; reflexivity).
  assert (Hle : pressed <= now) by (vm_compute; discriminate).
  assert (Hq : now / 2 ^ 32 = pressed / 2 ^ 32) by (vm_compute; reflexivity).
  split; [repeat (split; [assumption|]); assumption|].
  split; [vm_compute; reflexivity|].
  destruct (countdown_expiry Bench.world Bench.show Bench.show Bench.degrees
              Bench.sd m0 m1 m (replicate 3 EvLoop)
              Hm0 Hs0 Hstep Hsteps Hs Hd Hle Hq)
    as (m' & Hl & _ & _ & Hge & _).
  exists m'. split; [exact Hl|].
  destruct Hge as (Hs' & He & _); [vm_compute; discriminate|].
  split; assumption.
Defined.

(** *** C7 *)

(** On the bench the countdown starts 5 s after power-on. The first line
    logged, 4 s later, is stamped 9 s, which is [9437184 * 2^-20]; counted
    from the start of the countdown it would be stamped 4 s. *)
Lemma record_time_counts_from_power_on :
  let m := Bench.after Bench.world [EvInterrupt] in
  let t := wrap32 (w_millis Bench.world (queries m)) in
  exists m',
    LogTestData Bench.world Bench.show Bench.show m = Some (tt, m') /\
    (OPERATION_STATE m = COUNTDOWN /\ CountdownActivatedTime m = 5000 /\
     t = 9000) /\
    calls_between m m'
      [IoFileSync; IoFilePrint ("9437184p-20, 0, 0, 0" ++ LF)] /\
    cycle_telemetry_line Bench.show Bench.show t m
    = "8388608p-21, 0, 0, 0" ++ LF /\
    "9437184p-20, 0, 0, 0" ++ LF
    <> cycle_telemetry_line Bench.show Bench.show t m.
Proof.
  intros m t. eexists. split; [vm_compute; reflexivity|].
  split; [vm_compute; repeat split|].
  repeat (split; [vm_compute; reflexivity|]). vm_compute. discriminate.
Qed.

Lemma log_holds_header_then_records_witness :
  let m := Bench.after Bench.world Bench.to_test_active in
  let name := "Motor Test Data #2.csv" in
  (reachable Bench.world Bench.show Bench.show Bench.degrees Bench.sd m /\
   name ∈ opened (trace m)) /\
  Bench.sd !! name = None /\
  opened (trace m) = [name].
Proof.
  intros m name.
  assert (Hm : reachable Bench.world Bench.show Bench.show Bench.degrees
                 Bench.sd m)
    by (apply (bench_run _ Bench.to_test_active); vm_compute; reflexivity).
  assert (Hin : name ∈ opened (trace m)).
  { replace (opened (trace m)) with [name] by (vm_compute; reflexivity).
    apply list_elem_of_here. }
  split; [auto|].
  destruct (proj1 (log_holds_header_then_records Bench.world Bench.show
                     Bench.show Bench.degrees Bench.sd m name Hm Hin))
    as (H1 & H2 & _).
  split; [exact H1 | exact H2].
Defined.

(** *** C8 *)

Lemma fault_pinned_witness :
  let m := Bench.after Bench.no_card [EvLoop] in
  (reachable Bench.no_card Bench.show Bench.show Bench.degrees Bench.sd m /\
   ErrorLog m <> "") /\
  OPERATION_STATE m = ERROR /\
  exists m',
    steps Bench.no_card Bench.show Bench.show Bench.degrees m
      [EvInterrupt; EvLoop; EvLoop] m'.
Proof.
  intros m.
  assert (Hm : reachable Bench.no_card Bench.show Bench.show Bench.degrees
                 Bench.sd m)
    by (apply (bench_run _ [EvLoop]); vm_compute; reflexivity).
  assert (Hl : ErrorLog m <> "") by (vm_compute; discriminate).
  split; [auto|].
  destruct (fault_pinned Bench.no_card Bench.show Bench.show Bench.degrees
              Bench.sd m [EvInterrupt; EvLoop; EvLoop] Hm Hl)
    as (H1 & H2 & _).
  split; [exact H1 | exact H2].
Defined.

(** *** C9 *)

Lemma relay_pin_untouched_before_test_witness :
  let m := Bench.after Bench.world (EvInterrupt :: replicate 3 EvLoop) in
  reachable Bench.world Bench.show Bench.show Bench.degrees Bench.sd m /\
  OPERATION_STATE m = COUNTDOWN /\
  relay_writes (trace m) = [] /\
  pins m !! GPIO_RELAY_TOGGLE = None /\
  relay_level m = LOW.
Proof.
  intros m.
  assert (Hm : reachable Bench.world Bench.show Bench.show Bench.degrees
                 Bench.sd m)
    by (apply (bench_run _ (EvInterrupt :: replicate 3 EvLoop));
        vm_compute; reflexivity).
  assert (Hs : OPERATION_STATE m = COUNTDOWN) by (vm_compute; reflexivity).
  split; [exact Hm|]. split; [exact Hs|].
  apply (proj1 (proj2 (relay_pin_untouched_before_test Bench.world Bench.show
                         Bench.show Bench.degrees Bench.sd m Hm)));
    rewrite Hs; discriminate.
Defined.

(** *** C10 *)

Lemma CreateLogFile_terminates_witness :
  let m := Bench.after Bench.world [] in
  (forall n, 0 <= n < 100 ->
     exists k, (queries m <= k)%nat /\ w_random Bench.world k `mod` 100 = n) /\
  exists fuel ok m', CreateLogFile Bench.world fuel m = Some (ok, m').
Proof.
  intros m.
  assert (Hfair : forall n, 0 <= n < 100 ->
            exists k, (queries m <= k)%nat /\
                      w_random Bench.world k `mod` 100 = n).
  { intros n Hn. exists (Z.to_nat n). split; [apply Nat.le_0_l|].
    cbn [Bench.world w_random]. rewrite Z2Nat.id by lia.
    apply Z.mod_small. exact Hn. }
  split; [exact Hfair|].
  apply (proj2 (proj1 (CreateLogFile_terminates Bench.world m Hfair))).
  exists 0. split; [lia|]. vm_compute. reflexivity.
Defined.

(** ** The rest of the sequence on the bench *)

Lemma bench_steps (W : World) (es : list event) (m m' : Machine) :
  run W Bench.show Bench.show Bench.degrees 5 es m = Some (tt, m') ->
  steps W Bench.show Bench.show Bench.degrees m es m'.
Proof. apply run_Steps. Qed.

(** *** X3 *)

Lemma lamp_follows_state_witness :
  let m := Bench.after Bench.world Bench.to_post_test in
  reachable Bench.world Bench.show Bench.show Bench.degrees Bench.sd m /\
  OPERATION_STATE m = POST_TEST /\
  pins m !! GPIO_LED_TEST_ACTIVE = Some LOW.
Proof.
  intros m.
  assert (Hm : reachable Bench.world Bench.show Bench.show Bench.degrees
                 Bench.sd m)
    by (apply (bench_run _ Bench.to_post_test); vm_compute; reflexivity).
  split; [exact Hm|]. split; [vm_compute; reflexivity|].
  exact (lamp_follows_state Bench.world Bench.show Bench.show Bench.degrees
           Bench.sd m Hm).
Defined.

(** *** X4 *)

Lemma earlier_logs_preserved_witness :
  let m := Bench.after Bench.world Bench.to_post_test in
  reachable Bench.world Bench.show Bench.show Bench.degrees Bench.sd m /\
  Bench.sd !! "Motor Test Data #1.csv" = Some "Time (s)" /\
  card m !! "Motor Test Data #1.csv" = Some "Time (s)".
Proof.
  intros m.
  assert (Hm : reachable Bench.world Bench.show Bench.show Bench.degrees
                 Bench.sd m)
    by (apply (bench_run _ Bench.to_post_test); vm_compute; reflexivity).
  assert (Hsd : Bench.sd !! "Motor Test Data #1.csv" = Some "Time (s)")
    by (vm_compute; reflexivity).
  split; [exact Hm|]. split; [exact Hsd|].
  exact (proj1 (earlier_logs_preserved Bench.world Bench.show Bench.show
                  Bench.degrees Bench.sd m _ _ Hm Hsd)).
Defined.

(** *** X5 *)

(** On the bench the seventh block finds the test 18 s old and ends it. *)
Lemma test_expiry_witness :
  let m := Bench.after Bench.world (EvInterrupt :: replicate 6 EvLoop) in
  reachable Bench.world Bench.show Bench.show Bench.degrees Bench.sd m /\
  OPERATION_STATE m = TEST_ACTIVE /\
  tick_due Bench.world m = true /\
  exists m',
    loop Bench.world Bench.show Bench.show Bench.degrees m = Some (tt, m') /\
    OPERATION_STATE m' = POST_TEST /\
    relay_level m' = HIGH.
Proof.
  intros m.
  assert (Hm : reachable Bench.world Bench.show Bench.show Bench.degrees
                 Bench.sd m)
    by (apply (bench_run _ (EvInterrupt :: replicate 6 EvLoop));
        vm_compute; reflexivity).
  assert (Hs : OPERATION_STATE m = TEST_ACTIVE) by (vm_compute; reflexivity).
  assert (Hd : tick_due Bench.world m = true) by (vm_compute; reflexivity).
  split; [exact Hm|]. split; [exact Hs|]. split; [exact Hd|].
  destruct (test_expiry Bench.world Bench.show Bench.show Bench.degrees
              Bench.sd m Hm Hs Hd) as (m' & Hl & _ & _ & Hge).
  exists m'. split; [exact Hl|].
  destruct Hge as (Hs' & _ & Hp & _); [vm_compute; discriminate|].
  split; assumption.
Defined.

(** *** X6 *)

(** The button is pressed 3 s before the counter wraps. Nine seconds later
    the block of [loop] reads 6000 against a timestamp of 4294964296, and
    begins the test. *)
Lemma clock_wrap_cuts_short_witness :
  let m := Bench.after about_to_wrap [EvInterrupt] in
  reachable about_to_wrap Bench.show Bench.show Bench.degrees Bench.sd m /\
  tick_due about_to_wrap m = true /\
  OPERATION_STATE m = COUNTDOWN /\
  CountdownActivatedTime m = 4294964296 /\
  wrap32 (w_millis about_to_wrap (5 + queries m)) = 6000 /\
  w_millis about_to_wrap (5 + queries m) - w_millis about_to_wrap 0 = 9000 /\
  exists m',
    loop about_to_wrap Bench.show Bench.show Bench.degrees m
    = Some (tt, m') /\
    OPERATION_STATE m' = TEST_ACTIVE /\
    engaged (trace m') = true.
Proof.
  intros m.
  assert (Hm : reachable about_to_wrap Bench.show Bench.show Bench.degrees
                 Bench.sd m)
    by (apply (bench_run _ [EvInterrupt]); vm_compute; reflexivity).
  assert (Hd : tick_due about_to_wrap m = true) by (vm_compute; reflexivity).
  split; [exact Hm|]. split; [exact Hd|].
  repeat (split; [vm_compute; reflexivity|]).
  destruct (clock_wrap_cuts_short about_to_wrap Bench.show Bench.show
              Bench.degrees Bench.sd m Hm Hd) as (m' & Hl & Hc & _).
  exists m'. split; [exact Hl|].
  apply Hc; vm_compute; reflexivity.
Defined.

(** *** X7 *)

(** Nine seconds into the countdown the display is left to draw 21. *)
Lemma display_counts_down_witness :
  let m := Bench.after Bench.world [EvInterrupt] in
  tick_due Bench.world m = true /\
  OPERATION_STATE m = COUNTDOWN /\
  exists m',
    loop Bench.world Bench.show Bench.show Bench.degrees m = Some (tt, m') /\
    fr_count (render Bench.show m') = "21".
Proof.
  intros m.
  assert (Hd : tick_due Bench.world m = true) by (vm_compute; reflexivity).
  assert (Hs : OPERATION_STATE m = COUNTDOWN) by (vm_compute; reflexivity).
  split; [exact Hd|]. split; [exact Hs|].
  destruct (display_counts_down Bench.world Bench.show Bench.show
              Bench.degrees m Hd) as (m' & Hl & Hc & _).
  exists m'. split; [exact Hl|].
  rewrite (Hc Hs); [vm_compute; reflexivity | vm_compute; discriminate].
Defined.

(** *** X8 *)

Lemma states_in_order_witness :
  let m := Bench.after Bench.world [] in
  let m' := Bench.after Bench.world Bench.to_post_test in
  steps Bench.world Bench.show Bench.show Bench.degrees
    m Bench.to_post_test m' /\
  OPERATION_STATE m = READY_FOR_COUNTDOWN /\
  OPERATION_STATE m' = POST_TEST /\
  reaches (OPERATION_STATE m) (OPERATION_STATE m') = true.
Proof.
  intros m m'.
  assert (H : steps Bench.world Bench.show Bench.show Bench.degrees
                m Bench.to_post_test m')
    by (apply bench_steps; vm_compute; reflexivity).
  split; [exact H|]. repeat (split; [vm_compute; reflexivity|]).
  exact (proj1 (states_in_order Bench.world Bench.show Bench.show
                  Bench.degrees m Bench.to_post_test m' H)).
Defined.

(** *** X9 *)

Lemma post_test_settled_witness :
  let m := Bench.after Bench.world Bench.to_post_test in
  OPERATION_STATE m = POST_TEST /\
  exists m',
    steps Bench.world Bench.show Bench.show Bench.degrees
      m [EvLoop; EvInterrupt; EvLoop] m'.
Proof.
  intros m.
  assert (Hs : OPERATION_STATE m = POST_TEST) by (vm_compute; reflexivity).
  split; [exact Hs|].
  exact (proj1 (post_test_settled Bench.world Bench.show Bench.show
                  Bench.degrees m [EvLoop; EvInterrupt; EvLoop] Hs)).
Defined.

(** *** X10 *)

Lemma TestEndCommand_leaves_relay_engaged_witness :
  let m := Bench.after Bench.world Bench.to_test_active in
  reachable Bench.world Bench.show Bench.show Bench.degrees Bench.sd m /\
  OPERATION_STATE m = TEST_ACTIVE /\
  exists m',
    TestEndCommand m = Some (tt, m') /\
    OPERATION_STATE m' = POST_TEST /\
    engaged (trace m') = true /\
    relay_level m' = LOW.
Proof.
  intros m.
  assert (Hm : reachable Bench.world Bench.show Bench.show Bench.degrees
                 Bench.sd m)
    by (apply (bench_run _ Bench.to_test_active); vm_compute; reflexivity).
  assert (Hs : OPERATION_STATE m = TEST_ACTIVE) by (vm_compute; reflexivity).
  split; [exact Hm|]. split; [exact Hs|].
  destruct (TestEndCommand_leaves_relay_engaged Bench.world Bench.show
              Bench.show Bench.degrees Bench.sd m Hm) as (m' & H & _ & Ht).
  exists m'. split; [exact H|].
  destruct (Ht Hs) as (Hs' & _ & _ & _ & _ & He & Hl). auto.
Defined.

(** *** X11 *)

Lemma tick_logs_fresh_sample_witness :
  let m := Bench.after Bench.world [EvInterrupt] in
  reachable Bench.world Bench.show Bench.show Bench.degrees Bench.sd m /\
  OPERATION_STATE m = COUNTDOWN /\
  exists m',
    tick Bench.world Bench.show Bench.show Bench.degrees m = Some (tt, m') /\
    IoFilePrint
      ("12582912p-20, 14680064p-21, 8388608p-14, 8388608p-14" ++ LF)
    ∈ trace m'.
Proof.
  intros m.
  assert (Hm : reachable Bench.world Bench.show Bench.show Bench.degrees
                 Bench.sd m)
    by (apply (bench_run _ [EvInterrupt]); vm_compute; reflexivity).
  assert (Hs : OPERATION_STATE m = COUNTDOWN) by (vm_compute; reflexivity).
  split; [exact Hm|]. split; [exact Hs|].
  destruct (tick_logs_fresh_sample Bench.world Bench.show Bench.show
              Bench.degrees Bench.sd m Hm (or_introl Hs))
    as (m' & name & logged & H & _ & _ & _ & _ & Hin).
  exists m'. split; [exact H|]. exact Hin.
Defined.

(** *** X12 *)

Lemma timestamps_fixed_witness :
  let m := Bench.after Bench.world [EvInterrupt] in
  let m' := Bench.after Bench.world Bench.to_post_test in
  steps Bench.world Bench.show Bench.show Bench.degrees
    m (replicate 7 EvLoop) m' /\
  OPERATION_STATE m <> READY_FOR_COUNTDOWN /\
  CountdownActivatedTime m = 5000 /\
  CountdownActivatedTime m' = CountdownActivatedTime m.
Proof.
  intros m m'.
  assert (H : steps Bench.world Bench.show Bench.show Bench.degrees
                m (replicate 7 EvLoop) m')
    by (apply bench_steps; vm_compute; reflexivity).
  assert (Hs : OPERATION_STATE m <> READY_FOR_COUNTDOWN)
    by (vm_compute; discriminate).
  split; [exact H|]. split; [exact Hs|]. split; [vm_compute; reflexivity|].
  exact (proj1 (timestamps_fixed Bench.world Bench.show Bench.show
                  Bench.degrees m (replicate 7 EvLoop) m' H Hs)).
Defined.

(** *** X13 *)

Lemma failed_arming_is_final_witness :
  let m := Bench.after Bench.read_only [] in
  let m' := Bench.after Bench.read_only [EvInterrupt] in
  reachable Bench.read_only Bench.show Bench.show Bench.degrees Bench.sd m /\
  step Bench.read_only Bench.show Bench.show Bench.degrees m EvInterrupt m' /\
  OPERATION_STATE m <> ERROR /\
  OPERATION_STATE m' = ERROR /\
  pins m' !! GPIO_LED_TEST_ACTIVE = Some HIGH /\
  card m' = card m.
Proof.
  intros m m'.
  assert (Hm : reachable Bench.read_only Bench.show Bench.show Bench.degrees
                 Bench.sd m)
    by (apply (bench_run _ []); vm_compute; reflexivity).
  assert (Hstep : step Bench.read_only Bench.show Bench.show Bench.degrees
                    m EvInterrupt m')
    by (exists 5%nat; vm_compute; reflexivity).
  assert (Hs : OPERATION_STATE m <> ERROR) by (vm_compute; discriminate).
  assert (Hs' : OPERATION_STATE m' = ERROR) by (vm_compute; reflexivity).
  repeat (split; [assumption|]).
  destruct (failed_arming_is_final Bench.read_only Bench.show Bench.show
              Bench.degrees Bench.sd m m' Hm Hstep Hs Hs')
    as (_ & _ & Hc & _ & Hl & _).
  split; assumption.
Defined.
